(** * Pull-Up Club maintenance scripts: a shallow embedding

    This development embeds the two scheduled jobs of the repository,
    [scripts/automations/daily_consistency_check.py] and
    [scripts/automations/system_health_check.py], and proves the
    properties that their specification states about them.

    Both scripts are sequential drivers of a remote backend.  The
    embedding keeps that shape:
    - Python values coming from the backend are a small dynamically
      typed universe ([Py.value]) with the failure behaviour of the
      Python operations the scripts use (subscripting, [.get], [len],
      comparison, [str], [json.dumps]);
    - the backend is an oracle answering each remote call either with a
      result or with an exception, as a function of the history of the
      run;
    - a script is a function in a reader/state/exception monad whose
      state is the history of remote calls and the console output. *)

From Stdlib Require Import ZArith List String Ascii Bool Lia DecimalString.
Import ListNotations.
Local Open Scope string_scope.
Local Open Scope Z_scope.
Set Warnings "-register-all".

(* ================================================================ *)
(** * Text helpers *)
(* ================================================================ *)

Module Text.

Definition chr (n : nat) : string := String (ascii_of_nat n) EmptyString.

Definition dquote : string := chr 34.
Definition squote : string := chr 39.
Definition backslash : string := chr 92.

Fixpoint join (sep : string) (parts : list string) : string :=
  match parts with
  | [] => EmptyString
  | [p] => p
  | p :: rest => p ++ sep ++ join sep rest
  end.

Fixpoint repeat_str (s : string) (n : nat) : string :=
  match n with
  | O => EmptyString
  | S k => s ++ repeat_str s k
  end.

(** [needle in hay], the Python substring test. *)
Fixpoint contains (needle hay : string) : bool :=
  if prefix needle hay then true
  else match hay with
       | EmptyString => false
       | String _ rest => contains needle rest
       end.

(** Decimal rendering of an integer, as [str(int)] gives it. *)
Definition dec (z : Z) : string := NilZero.string_of_int (Z.to_int z).

(** ["%0<w>d" % z] for a non-negative [z]. *)
Definition pad0 (w : nat) (z : Z) : string :=
  let d := dec z in
  repeat_str "0" (w - String.length d) ++ d.

Definition hex_digit (n : Z) : string :=
  match n with
  | 0 => "0" | 1 => "1" | 2 => "2" | 3 => "3" | 4 => "4" | 5 => "5"
  | 6 => "6" | 7 => "7" | 8 => "8" | 9 => "9" | 10 => "a" | 11 => "b"
  | 12 => "c" | 13 => "d" | 14 => "e" | _ => "f"
  end.

Definition hex2 (n : Z) : string :=
  hex_digit (n / 16 mod 16) ++ hex_digit (n mod 16).

Definition hex4 (n : Z) : string :=
  hex2 (n / 256 mod 256) ++ hex2 (n mod 256).

(** Strings are byte strings holding UTF-8 text.  A Python [str] is a
    sequence of code points, so the operations that count or split
    characters decode the bytes first. *)
Definition is_continuation (a : ascii) : bool :=
  let n := Z.of_nat (nat_of_ascii a) in (128 <=? n) && (n <? 192).

(** The continuation bytes at the head of [s], and what follows them. *)
Fixpoint take_continuation (s : string) : string * string :=
  match s with
  | String a rest =>
      if is_continuation a
      then let (c, r) := take_continuation rest in (String a c, r)
      else (EmptyString, s)
  | EmptyString => (EmptyString, EmptyString)
  end.

(** The characters of [s], each as the string of its bytes. *)
Fixpoint chars_fuel (fuel : nat) (s : string) : list string :=
  match fuel, s with
  | S f, String a rest =>
      let (c, r) := take_continuation rest in
      String a c :: chars_fuel f r
  | _, _ => []
  end.

Definition chars (s : string) : list string :=
  chars_fuel (String.length s) s.

(** The code point a character's bytes encode. *)
Definition code_point (c : string) : Z :=
  match c with
  | EmptyString => 0
  | String a rest =>
      let lead := Z.of_nat (nat_of_ascii a) in
      let start :=
        if lead <? 128 then lead
        else if lead <? 224 then lead mod 32
        else if lead <? 240 then lead mod 16
        else lead mod 8 in
      fold_left (fun acc b => acc * 64 + Z.of_nat (nat_of_ascii b) mod 64)
                (list_ascii_of_string rest) start
  end.

End Text.

(* ================================================================ *)
(** * Python values and the operations the scripts apply to them *)
(* ================================================================ *)

Module Py.
Import Text.

(** What a remote call can hand back: JSON decoded by the client
    library.  Numbers are integers; the floating-point payloads the
    backend may also send are outside this model.  A dictionary keeps
    its insertion order, which [str] and [json.dumps] show. *)
Inductive value : Type :=
| VNone
| VBool (b : bool)
| VInt (z : Z)
| VStr (s : string)
| VList (xs : list value)
| VDict (kvs : list (value * value)).

(** The exceptions that [except Exception] can meet in these scripts.
    [APIError] stands for whatever the client library raises when a
    request fails; only its message is ever used. *)
Inductive exn : Type :=
| KeyError (key : string)
| TypeError (msg : string)
| AttributeError (msg : string)
| OverflowError (msg : string)
| APIError (msg : string).

Inductive outcome (A : Type) : Type :=
| Ret (a : A)
| Raise (e : exn).
Arguments Ret {A} a.
Arguments Raise {A} e.

Definition type_name (v : value) : string :=
  match v with
  | VNone => "NoneType"
  | VBool _ => "bool"
  | VInt _ => "int"
  | VStr _ => "str"
  | VList _ => "list"
  | VDict _ => "dict"
  end.

(** [bool(v)] *)
Definition truthy (v : value) : bool :=
  match v with
  | VNone => false
  | VBool b => b
  | VInt z => negb (z =? 0)
  | VStr s => negb (String.eqb s EmptyString)
  | VList xs => negb (Nat.eqb (List.length xs) 0)
  | VDict kvs => negb (Nat.eqb (List.length kvs) 0)
  end.

(** [repr] of a [str]: single quotes unless the text has a single
    quote and no double quote; backslash, the quote and control
    characters are escaped.  Text beyond ASCII is shown as it is, which
    is what [repr] does with the characters that Unicode calls
    printable; the ones it escapes beyond ASCII, such as U+00A0, are
    outside this model. *)
Definition repr_char (quote : string) (c : string) : string :=
  let n := code_point c in
  if String.eqb c backslash then backslash ++ backslash
  else if String.eqb c quote then backslash ++ quote
  else if n =? 10 then backslash ++ "n"
  else if n =? 13 then backslash ++ "r"
  else if n =? 9 then backslash ++ "t"
  else if (n <? 32) || (n =? 127) then backslash ++ "x" ++ hex2 n
  else c.

Definition repr_str (s : string) : string :=
  let quote :=
    if contains squote s && negb (contains dquote s) then dquote else squote in
  quote ++ String.concat EmptyString (map (repr_char quote) (chars s)) ++ quote.

Fixpoint py_repr (v : value) : string :=
  match v with
  | VNone => "None"
  | VBool true => "True"
  | VBool false => "False"
  | VInt z => dec z
  | VStr s => repr_str s
  | VList xs => "[" ++ join ", " (map py_repr xs) ++ "]"
  | VDict kvs =>
      "{" ++ join ", "
               (map (fun kv => match kv with
                               | (k, x) => py_repr k ++ ": " ++ py_repr x
                               end) kvs) ++ "}"
  end.

(** [str(v)], what an f-string shows of [v]. *)
Definition py_str (v : value) : string :=
  match v with
  | VStr s => s
  | _ => py_repr v
  end.

Definition exn_str (e : exn) : string :=
  match e with
  | KeyError key => repr_str key
  | TypeError msg => msg
  | AttributeError msg => msg
  | OverflowError msg => msg
  | APIError msg => msg
  end.

(** Equality of dictionary keys: [True == 1] and [False == 0] hold in
    Python, everything else compares within its own type. *)
Definition as_int (v : value) : option Z :=
  match v with
  | VInt z => Some z
  | VBool b => Some (if b then 1 else 0)
  | _ => None
  end.

Definition key_eqb (a b : value) : bool :=
  match a, b with
  | VNone, VNone => true
  | VStr s, VStr t => String.eqb s t
  | _, _ => match as_int a, as_int b with
            | Some x, Some y => x =? y
            | _, _ => false
            end
  end.

Definition hashable (v : value) : bool :=
  match v with
  | VList _ | VDict _ => false
  | _ => true
  end.

Fixpoint lookup (k : value) (kvs : list (value * value)) : option value :=
  match kvs with
  | [] => None
  | (k', x) :: rest => if key_eqb k' k then Some x else lookup k rest
  end.

(** [d[k] = x] on the entries of a dictionary. *)
Fixpoint store (k x : value) (kvs : list (value * value)) : list (value * value) :=
  match kvs with
  | [] => [(k, x)]
  | (k', x') :: rest =>
      if key_eqb k' k then (k', x) :: rest else (k', x') :: store k x rest
  end.

(** [v[key]] for a string key. *)
Definition getitem (v : value) (key : string) : outcome value :=
  match v with
  | VDict kvs =>
      match lookup (VStr key) kvs with
      | Some x => Ret x
      | None => Raise (KeyError key)
      end
  | VList _ => Raise (TypeError "list indices must be integers or slices, not str")
  | VStr _ => Raise (TypeError "string indices must be integers, not 'str'")
  | _ => Raise (TypeError (squote ++ type_name v ++ "' object is not subscriptable"))
  end.

(** [v.get(key, default)] *)
Definition get (v : value) (key : string) (default : value) : outcome value :=
  match v with
  | VDict kvs =>
      match lookup (VStr key) kvs with
      | Some x => Ret x
      | None => Ret default
      end
  | _ => Raise (AttributeError
                  (squote ++ type_name v ++ "' object has no attribute 'get'"))
  end.

(** [len(v)] *)
Definition len (v : value) : outcome nat :=
  match v with
  | VList xs => Ret (List.length xs)
  | VDict kvs => Ret (List.length kvs)
  | VStr s => Ret (List.length (chars s))
  | _ => Raise (TypeError ("object of type '" ++ type_name v ++ "' has no len()"))
  end.

(** The items a [for] loop over [v] visits. *)
Definition iter (v : value) : outcome (list value) :=
  match v with
  | VList xs => Ret xs
  | VDict kvs => Ret (map fst kvs)
  | VStr s => Ret (map VStr (chars s))
  | _ => Raise (TypeError (squote ++ type_name v ++ "' object is not iterable"))
  end.

(** [v[:n]] followed by iteration. *)
Definition slice_to (v : value) (n : nat) : outcome (list value) :=
  match v with
  | VList xs => Ret (firstn n xs)
  | VStr s => Ret (map VStr (firstn n (chars s)))
  | VDict _ => Raise (TypeError "unhashable type: 'slice'")
  | _ => Raise (TypeError (squote ++ type_name v ++ "' object is not subscriptable"))
  end.

(** [v > n] for an integer literal [n]. *)
Definition gt (v : value) (n : Z) : outcome bool :=
  match as_int v with
  | Some z => Ret (z >? n)
  | None => Raise (TypeError ("'>' not supported between instances of '"
                                ++ type_name v ++ "' and 'int'"))
  end.

(** [v == "literal"] and [v != "literal"] *)
Definition eq_str (v : value) (lit : string) : bool :=
  match v with
  | VStr s => String.eqb s lit
  | _ => false
  end.

(** [json.dumps(v)] with its defaults: [", "] and [": "] separators,
    everything outside printable ASCII escaped. *)
Definition json_char (c : string) : string :=
  let n := code_point c in
  if String.eqb c dquote then backslash ++ dquote
  else if String.eqb c backslash then backslash ++ backslash
  else if n =? 10 then backslash ++ "n"
  else if n =? 13 then backslash ++ "r"
  else if n =? 9 then backslash ++ "t"
  else if n =? 8 then backslash ++ "b"
  else if n =? 12 then backslash ++ "f"
  else if (32 <=? n) && (n <? 127) then c
  else if n <? 65536 then backslash ++ "u" ++ hex4 n
  else let m := n - 65536 in
       backslash ++ "u" ++ hex4 (55296 + m / 1024)
       ++ backslash ++ "u" ++ hex4 (56320 + m mod 1024).

Definition json_string (s : string) : string :=
  dquote ++ String.concat EmptyString (map json_char (chars s)) ++ dquote.

Definition json_key (k : value) : outcome string :=
  match k with
  | VStr s => Ret (json_string s)
  | VNone => Ret (json_string "null")
  | VBool true => Ret (json_string "true")
  | VBool false => Ret (json_string "false")
  | VInt z => Ret (json_string (dec z))
  | _ => Raise (TypeError ("keys must be str, int, float, bool or None, not "
                             ++ type_name k))
  end.

(** [[f x for x in xs]], stopping at the first item that raises. *)
Fixpoint traverse {A B : Type} (f : A -> outcome B) (xs : list A)
  : outcome (list B) :=
  match xs with
  | [] => Ret []
  | x :: rest =>
      match f x with
      | Raise e => Raise e
      | Ret y =>
          match traverse f rest with
          | Raise e => Raise e
          | Ret ys => Ret (y :: ys)
          end
      end
  end.

Fixpoint json_dumps (v : value) : outcome string :=
  match v with
  | VNone => Ret "null"
  | VBool true => Ret "true"
  | VBool false => Ret "false"
  | VInt z => Ret (dec z)
  | VStr s => Ret (json_string s)
  | VList xs =>
      match traverse json_dumps xs with
      | Raise e => Raise e
      | Ret parts => Ret ("[" ++ join ", " parts ++ "]")
      end
  | VDict kvs =>
      match traverse (fun kv => match kv with
                               | (k, x) =>
                                   match json_key k with
                                   | Raise e => Raise e
                                   | Ret ks =>
                                       match json_dumps x with
                                       | Raise e => Raise e
                                       | Ret xs => Ret (ks ++ ": " ++ xs)
                                       end
                                   end
                               end) kvs with
      | Raise e => Raise e
      | Ret parts => Ret ("{" ++ join ", " parts ++ "}")
      end
  end.

(** Dictionary literals with string keys. *)
Definition dict (fields : list (string * value)) : value :=
  VDict (map (fun kv => (VStr (fst kv), snd kv)) fields).

Definition of_nat (n : nat) : value := VInt (Z.of_nat n).

End Py.

(* ================================================================ *)
(** * Naive UTC timestamps ([datetime.datetime]) *)
(* ================================================================ *)

Module DateTime.
Import Text Py.

Record datetime : Type := mkDateTime {
  year : Z; month : Z; day : Z;
  hour : Z; minute : Z; second : Z; microsecond : Z
}.

Definition is_leap (y : Z) : bool :=
  (y mod 4 =? 0) && (negb (y mod 100 =? 0) || (y mod 400 =? 0)).

Definition days_before_year (y : Z) : Z :=
  let p := y - 1 in p * 365 + p / 4 - p / 100 + p / 400.

Definition days_in_month (y m : Z) : Z :=
  match m with
  | 2 => if is_leap y then 29 else 28
  | 4 | 6 | 9 | 11 => 30
  | _ => 31
  end.

Definition days_before_month (y m : Z) : Z :=
  fold_left Z.add (map (days_in_month y) (map Z.of_nat (seq 1 (Z.to_nat (m - 1))))) 0.

(** Day number of a date, 0001-01-01 being day 1. *)
Definition toordinal (d : datetime) : Z :=
  days_before_year (year d) + days_before_month (year d) (month d) + day d.

(** The month and day of the [n]-th day (from 0) of year [y]. *)
Fixpoint month_day (y : Z) (months : list Z) (n : Z) : Z * Z :=
  match months with
  | [] => (12, n + 1)
  | m :: rest =>
      if n <? days_in_month y m then (m, n + 1)
      else month_day y rest (n - days_in_month y m)
  end.

Definition fromordinal (ord : Z) : Z * Z * Z :=
  let n := ord - 1 in
  let n400 := n / 146097 in
  let n := n mod 146097 in
  let n100 := n / 36524 in
  let n := n mod 36524 in
  let n4 := n / 1461 in
  let n := n mod 1461 in
  let n1 := n / 365 in
  let n := n mod 365 in
  let y := n400 * 400 + 1 + n100 * 100 + n4 * 4 + n1 in
  if (n1 =? 4) || (n100 =? 4) then (y - 1, 12, 31)
  else let (m, d) := month_day y [1; 2; 3; 4; 5; 6; 7; 8; 9; 10; 11] n in
       (y, m, d).

Definition MAXORDINAL : Z := 3652059.

(** [d - timedelta(days=days, hours=hours)] *)
Definition minus_timedelta (d : datetime) (days hours : Z) : outcome datetime :=
  let secs := hour d * 3600 + minute d * 60 + second d - hours * 3600 in
  let ord := toordinal d - days + secs / 86400 in
  let secs := secs mod 86400 in
  if (0 <? ord) && (ord <=? MAXORDINAL) then
    let '(y, m, dd) := fromordinal ord in
    Ret (mkDateTime y m dd (secs / 3600) (secs mod 3600 / 60) (secs mod 60)
                    (microsecond d))
  else Raise (OverflowError "date value out of range").

(** [d.replace(day=1)] *)
Definition replace_day_1 (d : datetime) : datetime :=
  mkDateTime (year d) (month d) 1 (hour d) (minute d) (second d) (microsecond d).

(** [d.isoformat()] *)
Definition isoformat (d : datetime) : string :=
  pad0 4 (year d) ++ "-" ++ pad0 2 (month d) ++ "-" ++ pad0 2 (day d)
  ++ "T" ++ pad0 2 (hour d) ++ ":" ++ pad0 2 (minute d) ++ ":" ++ pad0 2 (second d)
  ++ (if microsecond d =? 0 then EmptyString else "." ++ pad0 6 (microsecond d)).

(** [d.strftime('%Y-%m')], the year on four digits as it is printed for
    the years from 1000 on.  For an earlier year the C library decides
    whether the year is padded: such dates are outside this model. *)
Definition strftime_Y_m (d : datetime) : string :=
  pad0 4 (year d) ++ "-" ++ pad0 2 (month d).

End DateTime.

(* ================================================================ *)
(** * The remote backend and the monad of a running script *)
(* ================================================================ *)

Module Backend.
Import Text Py DateTime.

(** Filters of the query builder: [.is_], [.eq], [.lt], [.gte], [.in_]. *)
Inductive filter : Type :=
| Is (column : string) (what : string)
| Eq (column : string) (val : value)
| Lt (column : string) (val : value)
| Gte (column : string) (val : value)
| In_ (column : string) (vals : list value).

(** One request, as [.execute()] sends it. *)
Inductive call : Type :=
| Rpc (fn : string) (params : list (string * value))
| Select (table : string) (columns : string) (count : option string)
         (filters : list filter)
| Update (table : string) (fields : list (string * value)) (filters : list filter)
| Insert (table : string) (row : list (string * value)).

(** The object [.execute()] returns: [.data] and [.count]. *)
Record response : Type := mkResponse {
  data : value;
  count : option Z
}.

(** A reply is a response or an exception; an event is a call with
    its reply. *)
Abbreviation reply := (outcome response) (only parsing).
Abbreviation event := (call * outcome response)%type (only parsing).

(** The world a run meets: a backend that answers each call knowing
    everything that happened before, and a clock read by
    [datetime.utcnow()]. *)
Record world : Type := mkWorld {
  oracle : list event -> call -> reply;
  clock : nat -> datetime
}.

(** What a run leaves behind: the calls it made with their replies,
    the arguments of each [print], and how often it read the clock. *)
Record state : Type := mkState {
  trace : list event;
  out : list string;
  ticks : nat
}.

Definition start : state := mkState [] [] 0.

(** The client object.  The library's [create_client] is taken to
    accept the configured URL and key and to send nothing by itself;
    the import of the library, which ends the process when the library
    is missing, comes before everything embedded here. *)
Record Client : Type := create_client {
  supabase_url : string;
  supabase_key : string
}.

(** What [get_client] gives its caller.  [sys.exit(1)] raises
    [SystemExit], which no [except Exception] catches and which ends
    the process with that code; the caller gets it back as
    [SystemExit code]. *)
Inductive startup : Type :=
| SystemExit (code : Z)
| Connected (supabase : Client).

(** A computation inside a Python function whose local variables are
    [L]: locals and state survive an exception, as they do in Python. *)
Definition M (L A : Type) : Type :=
  world -> L -> state -> outcome A * L * state.

Section Operations.
Context {L : Type}.

Definition ret {A} (a : A) : M L A := fun _ l s => (Ret a, l, s).

Definition raise {A} (e : exn) : M L A := fun _ l s => (Raise e, l, s).

Definition bind {A B} (m : M L A) (k : A -> M L B) : M L B :=
  fun w l s =>
    match m w l s with
    | (Ret a, l', s') => k a w l' s'
    | (Raise e, l', s') => (Raise e, l', s')
    end.

(** A Python expression that may raise. *)
Definition lift {A} (o : outcome A) : M L A := fun _ l s => (o, l, s).

Definition locals : M L L := fun _ l s => (Ret l, l, s).

Definition assign (f : L -> L) : M L unit := fun _ l s => (Ret tt, f l, s).

Definition print (line : string) : M L unit :=
  fun _ l s => (Ret tt, l, mkState (trace s) (out s ++ [line]) (ticks s)).

Definition utcnow : M L datetime :=
  fun w l s => (Ret (clock w (ticks s)), l,
                mkState (trace s) (out s) (S (ticks s))).

(** [.execute()]: the backend answers, the exchange is recorded, and
    an exception reply is raised at the call site. *)
Definition execute (c : call) : M L response :=
  fun w l s =>
    let r := oracle w (trace s) c in
    (r, l, mkState (trace s ++ [(c, r)]) (out s) (ticks s)).

(** [try: body  except Exception as e: handler e] *)
Definition try_except {A} (body : M L A) (handler : exn -> M L A) : M L A :=
  fun w l s =>
    match body w l s with
    | (Ret a, l', s') => (Ret a, l', s')
    | (Raise e, l', s') => handler e w l' s'
    end.

(** [for x in xs: body x] *)
Fixpoint for_ {A} (xs : list A) (body : A -> M L unit) : M L unit :=
  match xs with
  | [] => ret tt
  | x :: rest => bind (body x) (fun _ => for_ rest body)
  end.

End Operations.

(** A function call: the callee runs on locals of its own and the
    caller's are untouched. *)
Definition invoke {L L' A} (init : L') (body : M L' A) : M L A :=
  fun w l s =>
    match body w init s with
    | (o, _, s') => (o, l, s')
    end.

Module Notations.
Notation "x <- m ;; k" := (bind m (fun x => k))
  (at level 61, m at next level, right associativity).
Notation "m ;; k" := (bind m (fun _ => k))
  (at level 61, right associativity).
End Notations.

(** [sys.exit(main())]: an exception escaping [main] ends the process
    with code 1. *)
Definition exit_code (o : outcome Z) : Z :=
  match o with
  | Ret code => code
  | Raise _ => 1
  end.

(** The calls of a run, oldest first. *)
Definition calls (s : state) : list call := map fst (trace s).

End Backend.

(* ================================================================ *)
(** * daily_consistency_check.py *)
(* ================================================================ *)

Module Consistency.
Import Text Py DateTime Backend Backend.Notations.

(** ** Configuration (module-level constants) *)

Record config : Type := mkConfig {
  SUPABASE_URL : string;
  SUPABASE_KEY : string;
  DRY_RUN : bool
}.

Definition lower_ascii (a : ascii) : ascii :=
  let n := nat_of_ascii a in
  if (Nat.leb 65 n && Nat.leb n 90)%bool then ascii_of_nat (n + 32) else a.

Fixpoint lower (s : string) : string :=
  match s with
  | EmptyString => EmptyString
  | String a rest => String (lower_ascii a) (lower rest)
  end.

Definition getenv (env : string -> option string) (name default : string) : string :=
  match env name with
  | Some v => v
  | None => default
  end.

Definition load_config (env : string -> option string) : config :=
  {| SUPABASE_URL := getenv env "SUPABASE_URL" "https://yqnikgupiaghgjtsaypr.supabase.co";
     SUPABASE_KEY := getenv env "SUPABASE_SERVICE_ROLE_KEY" EmptyString;
     DRY_RUN := String.eqb (lower (getenv env "DRY_RUN" "false")) "true" |}.

(** ** get_client *)

Definition get_client {L} (cfg : config) : M L startup :=
  invoke tt (
    if String.eqb (SUPABASE_KEY cfg) EmptyString then
      print "ERROR: SUPABASE_SERVICE_ROLE_KEY environment variable not set" ;;
      ret (SystemExit 1)
    else ret (Connected (create_client (SUPABASE_URL cfg) (SUPABASE_KEY cfg)))).

(** ** The three reports *)

Definition check_missing_earnings {L} (supabase : Client) : M L value :=
  invoke tt (
    result <- execute (Rpc "get_submissions_missing_earnings" []) ;;
    if truthy (data result) then ret (data result) else ret (VList [])).

Definition check_payout_mismatches {L} (supabase : Client) : M L value :=
  invoke tt (
    result <- execute (Rpc "get_payout_mismatches" []) ;;
    if truthy (data result) then ret (data result) else ret (VList [])).

Definition check_pool_balance_issues {L} (supabase : Client) : M L value :=
  invoke tt (
    result <- execute (Rpc "get_pool_balance_issues" []) ;;
    if truthy (data result) then ret (data result) else ret (VList [])).

(** ** The two repairs *)

(** The locals [fixed] and [failed], returned as
    [{"fixed": fixed, "failed": failed}]. *)
Record counters : Type := mkCounters {
  fixed : nat;
  failed : nat
}.

Definition incr_fixed (c : counters) : counters :=
  mkCounters (fixed c + 1) (failed c).
Definition incr_failed (c : counters) : counters :=
  mkCounters (fixed c) (failed c + 1).

Definition repair_call (p_submission_id p_user_id p_pull_up_count : value) : call :=
  Rpc "process_submission_earnings"
      [("p_submission_id", p_submission_id);
       ("p_user_id", p_user_id);
       ("p_pull_up_count", p_pull_up_count)].

Definition fix_missing_earnings_item (sub : value) : M counters unit :=
  try_except
    (p_submission_id <- lift (getitem sub "submission_id") ;;
     p_user_id <- lift (getitem sub "user_id") ;;
     p_pull_up_count <- lift (getitem sub "actual_pull_up_count") ;;
     result <- execute (repair_call p_submission_id p_user_id p_pull_up_count) ;;
     success <- (if truthy (data result)
                 then lift (get (data result) "success" VNone)
                 else ret (data result)) ;;
     if truthy success then
       assign incr_fixed ;;
       full_name <- lift (getitem sub "full_name") ;;
       dollars_earned <- lift (get (data result) "dollars_earned" (VInt 0)) ;;
       print ("  ✓ Fixed: " ++ py_str full_name ++ " - $" ++ py_str dollars_earned)
     else
       assign incr_failed ;;
       full_name <- lift (getitem sub "full_name") ;;
       print ("  ✗ Failed: " ++ py_str full_name ++ " - " ++ py_str (data result)))
    (fun e =>
       assign incr_failed ;;
       full_name <- lift (getitem sub "full_name") ;;
       print ("  ✗ Error: " ++ py_str full_name ++ " - " ++ exn_str e)).

Definition fix_missing_earnings {L} (supabase : Client) (submissions : value)
  : M L counters :=
  invoke (mkCounters 0 0) (
    items <- lift (iter submissions) ;;
    for_ items fix_missing_earnings_item ;;
    locals).

Definition payout_update (correct_amount : value) (updated_at : string)
           (payout_id : value) : call :=
  Update "payout_requests"
         [("amount_dollars", correct_amount); ("updated_at", VStr updated_at)]
         [Eq "id" payout_id].

Definition fix_payout_mismatches_item (m : value) : M counters unit :=
  try_except
    (correct_amount <- lift (getitem m "correct_amount") ;;
     now <- utcnow ;;
     payout_id <- lift (getitem m "payout_id") ;;
     execute (payout_update correct_amount (isoformat now) payout_id) ;;
     assign incr_fixed ;;
     full_name <- lift (getitem m "full_name") ;;
     current_amount <- lift (getitem m "current_amount") ;;
     correct_amount <- lift (getitem m "correct_amount") ;;
     print ("  ✓ Fixed: " ++ py_str full_name ++ " $" ++ py_str current_amount
            ++ " → $" ++ py_str correct_amount))
    (fun e =>
       assign incr_failed ;;
       full_name <- lift (getitem m "full_name") ;;
       print ("  ✗ Error: " ++ py_str full_name ++ " - " ++ exn_str e)).

Definition fix_payout_mismatches {L} (supabase : Client) (mismatches : value)
  : M L counters :=
  invoke (mkCounters 0 0) (
    items <- lift (iter mismatches) ;;
    for_ items fix_payout_mismatches_item ;;
    locals).

(** ** log_check_result *)

Definition log_row (issues_found issues_fixed : nat) (context : string) : call :=
  Insert "monitoring.system_errors"
         [("error_type", VStr "DAILY_CONSISTENCY_CHECK");
          ("error_message",
            VStr ("Found " ++ dec (Z.of_nat issues_found) ++ " issues, fixed "
                  ++ dec (Z.of_nat issues_fixed)));
          ("context", VStr context)].

Definition log_check_result {L} (supabase : Client) (issues_found issues_fixed : nat)
           (details : value) : M L unit :=
  invoke tt (
    try_except
      (context <- lift (json_dumps details) ;;
       execute (log_row issues_found issues_fixed context) ;;
       ret tt)
      (fun e => print ("Warning: Could not log to monitoring table: " ++ exn_str e))).

(** ** main *)

Record main_locals : Type := mkLocals {
  total_issues : nat;
  total_fixed : nat;
  details : list (value * value)
}.

Definition add_issues (n : nat) (l : main_locals) : main_locals :=
  mkLocals (total_issues l + n) (total_fixed l) (details l).
Definition add_fixed (n : nat) (l : main_locals) : main_locals :=
  mkLocals (total_issues l) (total_fixed l + n) (details l).
Definition set_detail (key : string) (x : value) (l : main_locals) : main_locals :=
  mkLocals (total_issues l) (total_fixed l) (store (VStr key) x (details l)).

Definition nl : string := chr 10.
Definition rule : string := repeat_str "=" 60.

(** Check 1 of [main]: missing earnings. *)
Definition main_check_1 (cfg : config) (supabase : Client) : M main_locals unit :=
  print (nl ++ "[1/3] Checking for approved submissions without earnings...") ;;
  try_except
    (missing <- check_missing_earnings supabase ;;
     if truthy missing then
       n <- lift (len missing) ;;
       print ("  Found " ++ dec (Z.of_nat n) ++ " submissions missing earnings") ;;
       n <- lift (len missing) ;;
       assign (add_issues n) ;;
       n <- lift (len missing) ;;
       assign (set_detail "missing_earnings" (of_nat n)) ;;
       if negb (DRY_RUN cfg) then
         result <- fix_missing_earnings supabase missing ;;
         assign (add_fixed (fixed result)) ;;
         assign (set_detail "earnings_fixed" (of_nat (fixed result)))
       else ret tt
     else print "  ✓ No issues found")
    (fun e =>
       print ("  ✗ Check failed: " ++ exn_str e) ;;
       assign (set_detail "missing_earnings_error" (VStr (exn_str e)))).

(** Check 2 of [main]: payout mismatches. *)
Definition main_check_2 (cfg : config) (supabase : Client) : M main_locals unit :=
  print (nl ++ "[2/3] Checking for payout amount mismatches...") ;;
  try_except
    (mismatches <- check_payout_mismatches supabase ;;
     if truthy mismatches then
       n <- lift (len mismatches) ;;
       print ("  Found " ++ dec (Z.of_nat n) ++ " payout mismatches") ;;
       n <- lift (len mismatches) ;;
       assign (add_issues n) ;;
       n <- lift (len mismatches) ;;
       assign (set_detail "payout_mismatches" (of_nat n)) ;;
       if negb (DRY_RUN cfg) then
         result <- fix_payout_mismatches supabase mismatches ;;
         assign (add_fixed (fixed result)) ;;
         assign (set_detail "payouts_fixed" (of_nat (fixed result)))
       else ret tt
     else print "  ✓ No issues found")
    (fun e =>
       print ("  ✗ Check failed: " ++ exn_str e) ;;
       assign (set_detail "payout_mismatch_error" (VStr (exn_str e)))).

Definition print_pool_issue (p : value) : M main_locals unit :=
  week_start <- lift (getitem p "week_start") ;;
  week_end <- lift (getitem p "week_end") ;;
  remaining <- lift (getitem p "remaining") ;;
  calculated <- lift (getitem p "calculated") ;;
  print ("    - " ++ py_str week_start ++ " to " ++ py_str week_end ++ ": "
         ++ "shows $" ++ py_str remaining ++ " but should be $" ++ py_str calculated).

(** Check 3 of [main]: pool balances, reported only. *)
Definition main_check_3 (cfg : config) (supabase : Client) : M main_locals unit :=
  print (nl ++ "[3/3] Checking for pool balance discrepancies...") ;;
  try_except
    (pool_issues <- check_pool_balance_issues supabase ;;
     if truthy pool_issues then
       n <- lift (len pool_issues) ;;
       print ("  Found " ++ dec (Z.of_nat n) ++ " pool balance issues") ;;
       items <- lift (iter pool_issues) ;;
       for_ items print_pool_issue ;;
       n <- lift (len pool_issues) ;;
       assign (add_issues n) ;;
       n <- lift (len pool_issues) ;;
       assign (set_detail "pool_issues" (of_nat n))
     else print "  ✓ No issues found")
    (fun e =>
       print ("  ✗ Check failed: " ++ exn_str e) ;;
       assign (set_detail "pool_balance_error" (VStr (exn_str e)))).

(** The summary, the log row and the return value of [main]. *)
Definition main_summary (cfg : config) (supabase : Client) : M main_locals Z :=
  print (nl ++ rule) ;;
  print "SUMMARY" ;;
  print rule ;;
  l <- locals ;;
  print ("Total issues found: " ++ dec (Z.of_nat (total_issues l))) ;;
  print ("Total issues fixed: " ++ dec (Z.of_nat (total_fixed l))) ;;
  (if (0 <? total_issues l)%nat && negb (DRY_RUN cfg) then
     log_check_result supabase (total_issues l) (total_fixed l) (VDict (details l))
   else ret tt) ;;
  if (0 <? total_issues l)%nat then
    print (nl ++ "⚠️  Issues were found. Review the output above.") ;;
    ret 1
  else
    print (nl ++ "✅ All checks passed!") ;;
    ret 0.

Definition main {L} (cfg : config) : M L Z :=
  invoke (mkLocals 0 0 []) (
    print rule ;;
    print "Pull-Up Club Daily Consistency Check" ;;
    now <- utcnow ;;
    print ("Time: " ++ isoformat now ++ "Z") ;;
    print ("Mode: " ++ (if DRY_RUN cfg then "DRY RUN" else "LIVE")) ;;
    print rule ;;
    client <- get_client cfg ;;
    match client with
    | SystemExit code => ret code
    | Connected supabase =>
        main_check_1 cfg supabase ;;
        main_check_2 cfg supabase ;;
        main_check_3 cfg supabase ;;
        main_summary cfg supabase
    end).

(** [sys.exit(main())]: the exit code and what the run left behind. *)
Definition run (cfg : config) (w : world) : Z * state :=
  match main cfg w tt start with
  | (o, _, s) => (exit_code o, s)
  end.

End Consistency.

(* ================================================================ *)
(** * system_health_check.py *)
(* ================================================================ *)

Module Health.
Import Text Py DateTime Backend Backend.Notations.

Record config : Type := mkConfig {
  SUPABASE_URL : string;
  SUPABASE_KEY : string
}.

Definition load_config (env : string -> option string) : config :=
  {| SUPABASE_URL := Consistency.getenv env "SUPABASE_URL"
                       "https://yqnikgupiaghgjtsaypr.supabase.co";
     SUPABASE_KEY := Consistency.getenv env "SUPABASE_SERVICE_ROLE_KEY" EmptyString |}.

Definition get_client {L} (cfg : config) : M L startup :=
  invoke tt (
    if String.eqb (SUPABASE_KEY cfg) EmptyString then
      print "ERROR: SUPABASE_SERVICE_ROLE_KEY environment variable not set" ;;
      ret (SystemExit 1)
    else ret (Connected (create_client (SUPABASE_URL cfg) (SUPABASE_KEY cfg)))).

Definition nl : string := chr 10.
Definition rule : string := repeat_str "=" 60.

(** [x or 0] for the [.count] of a response. *)
Definition count_or_0 (r : response) : Z :=
  match count r with
  | Some n => n
  | None => 0
  end.

(** [v or []] *)
Definition or_empty (v : value) : value :=
  if truthy v then v else VList [].

(** ** run_sql_health_check *)

Definition print_balance_fix {L} (fix_ : value) : M L unit :=
  week_start <- lift (getitem fix_ "week_start") ;;
  was <- lift (getitem fix_ "was") ;;
  now <- lift (getitem fix_ "now") ;;
  print ("    - " ++ py_str week_start ++ ": $" ++ py_str was ++ " -> $" ++ py_str now).

Definition print_payout_issue {L} (issue : value) : M L unit :=
  name <- lift (getitem issue "name") ;;
  type <- lift (getitem issue "type") ;;
  print ("    - " ++ py_str name ++ ": " ++ py_str type).

Definition sql_error (message : string) : value :=
  dict [("overall_status", VStr "error"); ("message", VStr message)].

Definition run_sql_health_check {L} (supabase : Client) : M L value :=
  invoke tt (
    print (nl ++ "[1/5] Running SQL health check...") ;;
    try_except
      (result <- execute (Rpc "run_system_health_check" []) ;;
       if truthy (data result) then
         let data := data result in
         overall_status <- lift (get data "overall_status" (VStr "unknown")) ;;
         print ("  Overall status: " ++ py_str overall_status) ;;
         (* Weekly pool *)
         pool <- lift (get data "weekly_pool" (VDict [])) ;;
         action <- lift (get pool "action" (VStr "unknown")) ;;
         week_start <- lift (get pool "week_start" VNone) ;;
         week_end <- lift (get pool "week_end" VNone) ;;
         print ("  Weekly pool: " ++ py_str action ++ " - " ++ py_str week_start
                ++ " to " ++ py_str week_end) ;;
         (* Duplicate pools *)
         dups <- lift (get data "duplicate_pools" (VDict [])) ;;
         duplicates_fixed <- lift (get dups "duplicates_fixed" (VInt 0)) ;;
         positive <- lift (gt duplicates_fixed 0) ;;
         (if positive then
            duplicates_fixed <- lift (getitem dups "duplicates_fixed") ;;
            print ("  FIXED: " ++ py_str duplicates_fixed ++ " duplicate pools removed")
          else print "  No duplicate pools") ;;
         (* Pool balances *)
         balances <- lift (get data "pool_balances" (VDict [])) ;;
         pools_fixed <- lift (get balances "pools_fixed" (VInt 0)) ;;
         positive <- lift (gt pools_fixed 0) ;;
         (if positive then
            pools_fixed <- lift (getitem balances "pools_fixed") ;;
            print ("  FIXED: " ++ py_str pools_fixed ++ " pool balances corrected") ;;
            fixes <- lift (get balances "details" (VList [])) ;;
            items <- lift (iter fixes) ;;
            for_ items print_balance_fix
          else print "  Pool balances correct") ;;
         (* Monthly payouts *)
         payouts <- lift (get data "monthly_payouts" (VDict [])) ;;
         issues_found <- lift (get payouts "issues_found" (VInt 0)) ;;
         positive <- lift (gt issues_found 0) ;;
         (if positive then
            issues_found <- lift (getitem payouts "issues_found") ;;
            month <- lift (get payouts "month" VNone) ;;
            print ("  WARNING: " ++ py_str issues_found ++ " payout issues for "
                   ++ py_str month) ;;
            issues <- lift (get payouts "issues" (VList [])) ;;
            items <- lift (iter issues) ;;
            for_ items print_payout_issue
          else
            month <- lift (get payouts "month" VNone) ;;
            print ("  Monthly payouts OK for " ++ py_str month)) ;;
         (* Pending emails *)
         pending_emails <- lift (get data "pending_emails" (VInt 0)) ;;
         print ("  Pending emails: " ++ py_str pending_emails) ;;
         ret data
       else ret (sql_error "No data returned"))
      (fun e =>
         print ("  ERROR: " ++ exn_str e) ;;
         ret (sql_error (exn_str e)))).

(** ** check_email_queue_health *)

Record email_locals : Type := mkEmailLocals {
  pending_count : Z;
  failed_count : Z;
  by_type : list (value * value)
}.

Definition incr_pending (l : email_locals) : email_locals :=
  mkEmailLocals (pending_count l + 1) (failed_count l) (by_type l).
Definition incr_failed (l : email_locals) : email_locals :=
  mkEmailLocals (pending_count l) (failed_count l + 1) (by_type l).
Definition set_by_type (k x : value) (l : email_locals) : email_locals :=
  mkEmailLocals (pending_count l) (failed_count l) (store k x (by_type l)).

(** [by_type[k] = by_type.get(k, 0) + 1]; the counts in [by_type] are
    integers the function itself put there. *)
Definition count_type (k : value) : M email_locals unit :=
  if hashable k then
    l <- locals ;;
    match lookup k (by_type l) with
    | Some (VInt n) => assign (set_by_type k (VInt (n + 1)))
    | _ => assign (set_by_type k (VInt (0 + 1)))
    end
  else raise (TypeError ("unhashable type: '" ++ type_name k ++ squote)).

Definition classify_email (email : value) : M email_locals unit :=
  status <- lift (getitem email "status") ;;
  if eq_str status "pending" then
    assign incr_pending ;;
    email_type <- lift (getitem email "email_type") ;;
    count_type email_type
  else
    status <- lift (getitem email "status") ;;
    if eq_str status "failed" then assign incr_failed else ret tt.

Definition check_email_queue_health {L} (supabase : Client) : M L value :=
  invoke (mkEmailLocals 0 0 []) (
    print (nl ++ "[2/5] Checking email queue health...") ;;
    try_except
      (result <- execute (Select "email_notifications" "status, email_type" None
                                 [Is "sent_at" "null"]) ;;
       items <- lift (iter (or_empty (data result))) ;;
       for_ items classify_email ;;
       l <- locals ;;
       print ("  Pending: " ++ dec (pending_count l) ++ ", Failed: "
              ++ dec (failed_count l)) ;;
       (if truthy (VDict (by_type l))
        then print ("  By type: " ++ py_str (VDict (by_type l)))
        else ret tt) ;;
       (* Check for old pending emails (stuck) *)
       now <- utcnow ;;
       one_hour_ago <- lift (minus_timedelta now 0 1) ;;
       stuck <- execute (Select "email_notifications" "id" (Some "exact")
                                [Is "sent_at" "null";
                                 Eq "status" (VStr "pending");
                                 Lt "created_at" (VStr (isoformat one_hour_ago))]) ;;
       let stuck_count := count_or_0 stuck in
       (if 0 <? stuck_count
        then print ("  WARNING: " ++ dec stuck_count ++ " emails stuck for over 1 hour")
        else ret tt) ;;
       ret (dict [("pending", VInt (pending_count l));
                  ("failed", VInt (failed_count l));
                  ("stuck", VInt stuck_count);
                  ("by_type", VDict (by_type l))]))
      (fun e =>
         print ("  ERROR: " ++ exn_str e) ;;
         ret (dict [("error", VStr (exn_str e))]))).

(** ** check_monthly_graphics *)

Definition print_missing_user {L} (user : value) : M L unit :=
  full_name <- lift (get user "full_name" (VStr "Unknown")) ;;
  total_dollars <- lift (get user "total_dollars" (VInt 0)) ;;
  print ("    - " ++ py_str full_name ++ ": $" ++ py_str total_dollars).

Definition check_monthly_graphics {L} (supabase : Client) : M L value :=
  invoke tt (
    print (nl ++ "[3/5] Checking monthly graphics status...") ;;
    try_except
      (now <- utcnow ;;
       let current_month := strftime_Y_m now in
       now <- utcnow ;;
       last_day <- lift (minus_timedelta (replace_day_1 now) 1 0) ;;
       let prev_month := strftime_Y_m last_day in
       result <- execute (Rpc "get_users_missing_graphics"
                              [("p_month_year", VStr prev_month)]) ;;
       let missing := or_empty (data result) in
       (if truthy missing then
          n <- lift (len missing) ;;
          print ("  WARNING: " ++ dec (Z.of_nat n) ++ " users missing graphics for "
                 ++ prev_month) ;;
          shown <- lift (slice_to missing 5) ;;
          for_ shown print_missing_user ;;
          n <- lift (len missing) ;;
          if (5 <? n)%nat
          then n <- lift (len missing) ;;
               print ("    ... and " ++ dec (Z.of_nat n - 5) ++ " more")
          else ret tt
        else print ("  All graphics generated for " ++ prev_month)) ;;
       (* Check pending graphic emails *)
       pending <- execute (Select "email_notifications" "id" (Some "exact")
                                  [Eq "email_type" (VStr "monthly_graphic");
                                   Is "sent_at" "null";
                                   Eq "status" (VStr "pending")]) ;;
       let pending_count := count_or_0 pending in
       print ("  Pending graphic emails: " ++ dec pending_count) ;;
       n <- lift (len missing) ;;
       ret (dict [("month", VStr prev_month);
                  ("missing_graphics", of_nat n);
                  ("pending_emails", VInt pending_count)]))
      (fun e =>
         print ("  Note: Graphics check skipped (" ++ exn_str e ++ ")") ;;
         ret (dict [("skipped", VBool true)]))).

(** ** check_edge_function_health *)

Definition check_edge_function_health {L} (supabase : Client) : M L value :=
  invoke tt (
    print (nl ++ "[4/5] Checking Edge Function health...") ;;
    try_except
      (now <- utcnow ;;
       since <- lift (minus_timedelta now 7 0) ;;
       recent_approved <- execute (Select "submissions" "id, approved_at, user_id" None
                                          [Eq "status" (VStr "approved");
                                           Gte "approved_at" (VStr (isoformat since))]) ;;
       approved_count <- lift (len (or_empty (data recent_approved))) ;;
       (if (0 <? approved_count)%nat then
          items <- lift (iter (data recent_approved)) ;;
          submission_ids <- lift (traverse (fun s => getitem s "id") items) ;;
          earnings <- execute (Select "weekly_earnings" "submission_id" (Some "exact")
                                      [In_ "submission_id" submission_ids]) ;;
          let earnings_count := count_or_0 earnings in
          if earnings_count <? Z.of_nat approved_count
          then print ("  WARNING: " ++ dec (Z.of_nat approved_count)
                      ++ " approved submissions but only " ++ dec earnings_count
                      ++ " earnings records")
          else print ("  " ++ dec (Z.of_nat approved_count)
                      ++ " recent approvals, all have earnings")
        else print "  No recent approvals to check") ;;
       ret (dict [("recent_approvals", of_nat approved_count);
                  ("healthy", VBool true)]))
      (fun e =>
         print ("  ERROR: " ++ exn_str e) ;;
         ret (dict [("error", VStr (exn_str e))]))).

(** ** generate_summary_report *)

Definition append_issue (issue : string) (issues : list string) : list string :=
  issues ++ [issue].

Definition generate_summary_report {L} (results : value) : M L string :=
  invoke ([] : list string) (
    print (nl ++ "[5/5] Generating summary...") ;;
    (* Check SQL health *)
    sql <- lift (get results "sql_health" (VDict [])) ;;
    overall_status <- lift (get sql "overall_status" VNone) ;;
    (if negb (eq_str overall_status "healthy")
     then assign (append_issue "SQL health check found issues")
     else ret tt) ;;
    (* Check email queue *)
    email <- lift (get results "email_queue" (VDict [])) ;;
    stuck <- lift (get email "stuck" (VInt 0)) ;;
    positive <- lift (gt stuck 0) ;;
    (if positive then
       stuck <- lift (getitem email "stuck") ;;
       assign (append_issue (py_str stuck ++ " emails stuck in queue"))
     else ret tt) ;;
    failed <- lift (get email "failed" (VInt 0)) ;;
    many <- lift (gt failed 10) ;;
    (if many then
       failed <- lift (getitem email "failed") ;;
       assign (append_issue (py_str failed ++ " failed emails"))
     else ret tt) ;;
    (* Check graphics *)
    graphics <- lift (get results "monthly_graphics" (VDict [])) ;;
    missing_graphics <- lift (get graphics "missing_graphics" (VInt 0)) ;;
    positive <- lift (gt missing_graphics 0) ;;
    (if positive then
       missing_graphics <- lift (getitem graphics "missing_graphics") ;;
       assign (append_issue (py_str missing_graphics ++ " users missing monthly graphics"))
     else ret tt) ;;
    (* Check edge functions *)
    edge <- lift (get results "edge_functions" (VDict [])) ;;
    error <- lift (get edge "error" VNone) ;;
    (if truthy error then
       error <- lift (getitem edge "error") ;;
       assign (append_issue ("Edge function check error: " ++ py_str error))
     else ret tt) ;;
    issues <- locals ;;
    if negb (Nat.eqb (List.length issues) 0) then
      print (nl ++ "  ISSUES FOUND: " ++ dec (Z.of_nat (List.length issues))) ;;
      for_ issues (fun issue => print ("    - " ++ issue)) ;;
      ret "issues_found"
    else
      print (nl ++ "  ALL SYSTEMS HEALTHY") ;;
      ret "healthy").

(** ** main *)

Definition set_result (key : string) (x : value) (results : list (value * value))
  : list (value * value) :=
  store (VStr key) x results.

(** The four checks of [main], each stored under its key in [results]. *)
Definition main_checks (supabase : Client) : M (list (value * value)) unit :=
  r <- run_sql_health_check supabase ;;
  assign (set_result "sql_health" r) ;;
  r <- check_email_queue_health supabase ;;
  assign (set_result "email_queue" r) ;;
  r <- check_monthly_graphics supabase ;;
  assign (set_result "monthly_graphics" r) ;;
  r <- check_edge_function_health supabase ;;
  assign (set_result "edge_functions" r).

Definition health_row (status results created_at : string) : call :=
  Insert "monitoring.system_health_checks"
         [("check_type", VStr "DAILY_HEALTH_CHECK");
          ("status", VStr status);
          ("results", VStr results);
          ("created_at", VStr created_at)].

(** Log to monitoring table, which might not exist. *)
Definition main_log (supabase : Client) (status : string) (results : value)
  : M (list (value * value)) unit :=
  try_except
    (dumped <- lift (json_dumps results) ;;
     now <- utcnow ;;
     execute (health_row status dumped (isoformat now)) ;;
     ret tt)
    (fun e => ret tt).

(** [dry_run] is [args.dry_run], set by the [--dry-run] flag. *)
Definition main {L} (cfg : config) (dry_run : bool) : M L Z :=
  invoke ([] : list (value * value)) (
    print rule ;;
    print "Pull-Up Club System Health Check" ;;
    now <- utcnow ;;
    print ("Time: " ++ isoformat now ++ "Z") ;;
    print ("Mode: " ++ (if dry_run then "DRY RUN" else "LIVE")) ;;
    print rule ;;
    client <- get_client cfg ;;
    match client with
    | SystemExit code => ret code
    | Connected supabase =>
        main_checks supabase ;;
        results <- locals ;;
        status <- generate_summary_report (VDict results) ;;
        print (nl ++ rule) ;;
        print "HEALTH CHECK COMPLETE" ;;
        print rule ;;
        (if negb dry_run then main_log supabase status (VDict results) else ret tt) ;;
        if String.eqb status "healthy" then ret 0 else ret 1
    end).

Definition run (cfg : config) (dry_run : bool) (w : world) : Z * state :=
  match main cfg dry_run w tt start with
  | (o, _, s) => (exit_code o, s)
  end.

End Health.

(* ================================================================ *)
(** * What is observed of a run, and the backend's side of the contract *)
(* ================================================================ *)

Module Observe.
Import Text Py DateTime Backend.

(** ** Kinds of remote call *)

Definition missing_report : call := Rpc "get_submissions_missing_earnings" [].
Definition payout_report : call := Rpc "get_payout_mismatches" [].
Definition pool_report : call := Rpc "get_pool_balance_issues" [].


Definition is_repair (c : call) : bool :=
  match c with
  | Rpc fn _ => String.eqb fn "process_submission_earnings"
  | _ => false
  end.

Definition is_update (c : call) : bool :=
  match c with
  | Update _ _ _ => true
  | _ => false
  end.

Definition is_insert (c : call) : bool :=
  match c with
  | Insert _ _ => true
  | _ => false
  end.

(** The calls that change the backend's data: the earnings repair, a
    row update and a row insert. *)
Definition is_mutating (c : call) : bool :=
  is_repair c || is_update c || is_insert c.

Definition raised {A} (o : outcome A) : bool :=
  match o with
  | Raise _ => true
  | Ret _ => false
  end.

(** ** Issues reported to a run *)



(** ** Shape of the records a report returns *)

Definition has_key (key : string) (kvs : list (value * value)) : bool :=
  match lookup (VStr key) kvs with
  | Some _ => true
  | None => false
  end.

Definition has_keys (keys : list string) (v : value) : bool :=
  match v with
  | VDict kvs => forallb (fun key => has_key key kvs) keys
  | _ => false
  end.

Definition missing_keys : list string :=
  ["submission_id"; "user_id"; "actual_pull_up_count"; "full_name"].
Definition payout_keys : list string :=
  ["correct_amount"; "payout_id"; "full_name"; "current_amount"].
Definition pool_keys : list string :=
  ["week_start"; "week_end"; "remaining"; "calculated"].

Definition report_keys (c : call) : option (list string) :=
  match c with
  | Rpc fn _ =>
      if String.eqb fn "get_submissions_missing_earnings" then Some missing_keys
      else if String.eqb fn "get_payout_mismatches" then Some payout_keys
      else if String.eqb fn "get_pool_balance_issues" then Some pool_keys
      else None
  | _ => None
  end.

(** A reply to a report is well shaped when it is an exception or a
    list of records carrying the fields the script reads. *)
Definition well_shaped (c : call) (r : reply) : bool :=
  match report_keys c, r with
  | Some keys, Ret resp =>
      match data resp with
      | VList xs => forallb (has_keys keys) xs
      | _ => false
      end
  | _, _ => true
  end.

(** The field [key] of a record. *)
Definition field (key : string) (v : value) : value :=
  match getitem v key with
  | Ret x => x
  | Raise _ => VNone
  end.

(** The backend keeps to the schema of the three reports. *)
Definition report_contract (w : world) : Prop :=
  forall h c, well_shaped c (oracle w h c) = true.


(** The lines with which the summary of the consistency checker opens. *)
Definition summary_lines (l : Consistency.main_locals) : list string :=
  [Consistency.nl ++ Consistency.rule; "SUMMARY"; Consistency.rule;
   "Total issues found: " ++ dec (Z.of_nat (Consistency.total_issues l));
   "Total issues fixed: " ++ dec (Z.of_nat (Consistency.total_fixed l))].

(** What [main] of the consistency checker does once it has its client. *)
Definition checks_and_summary (cfg : Consistency.config) (supabase : Client)
  : M Consistency.main_locals Z :=
  bind (Consistency.main_check_1 cfg supabase) (fun _ =>
  bind (Consistency.main_check_2 cfg supabase) (fun _ =>
  bind (Consistency.main_check_3 cfg supabase) (fun _ =>
  Consistency.main_summary cfg supabase))).

(** The three checks alone. *)
Definition three_checks (cfg : Consistency.config) (supabase : Client)
  : M Consistency.main_locals unit :=
  bind (Consistency.main_check_1 cfg supabase) (fun _ =>
  bind (Consistency.main_check_2 cfg supabase) (fun _ =>
  Consistency.main_check_3 cfg supabase)).

Definition client_of (cfg : Consistency.config) : Client :=
  create_client (Consistency.SUPABASE_URL cfg) (Consistency.SUPABASE_KEY cfg).

Definition title : string := "Pull-Up Club Daily Consistency Check".

(** ** The repairs, call by call *)

(** The repair call that a missing-earnings record leads to. *)
Definition repair_of (sub : value) : call :=
  Consistency.repair_call (field "submission_id" sub) (field "user_id" sub)
                          (field "actual_pull_up_count" sub).

(** A repair reply that reports success: a result whose [data] has a
    true [success] entry. *)
Definition succeeded (r : reply) : bool :=
  match r with
  | Ret resp =>
      truthy (data resp)
      && match get (data resp) "success" VNone with
         | Ret flag => truthy flag
         | Raise _ => false
         end
  | Raise _ => false
  end.

(** The update that a payout mismatch leads to at time [now]. *)
Definition update_of (now : datetime) (m : value) : call :=
  Consistency.payout_update (field "correct_amount" m) (isoformat now)
                            (field "payout_id" m).

(** The line printed for a mismatch once its update was answered. *)
Definition payout_line (m : value) (r : reply) : string :=
  match r with
  | Ret _ =>
      "  ✓ Fixed: " ++ py_str (field "full_name" m) ++ " $"
      ++ py_str (field "current_amount" m) ++ " → $"
      ++ py_str (field "correct_amount" m)
  | Raise e =>
      "  ✗ Error: " ++ py_str (field "full_name" m) ++ " - " ++ exn_str e
  end.

(** How many of the events satisfy [p]. *)
Definition tally (p : reply -> bool) (evs : list event) : nat :=
  List.length (List.filter (fun ev => p (snd ev)) evs).

(** The record of the example scenario. *)
Definition jane_doe : value :=
  dict [("payout_id", VStr "p1"); ("full_name", VStr "Jane Doe");
        ("current_amount", VInt 40); ("correct_amount", VInt 45)].

(** A report call is answered with the list [xs]. *)
Definition answers (w : world) (c : call) (xs : list value) : Prop :=
  forall h, exists resp, oracle w h c = Ret resp /\ data resp = VList xs.

(** ** What the health checks report *)

(** [v.get(key)] when [v] is a dictionary. *)
Definition entry (key : string) (v : value) : value :=
  match get v key VNone with
  | Ret x => x
  | Raise _ => VNone
  end.

Definition int_of (v : value) : Z :=
  match as_int v with
  | Some z => z
  | None => 0
  end.

Definition sql_unhealthy (results : value) : bool :=
  negb (eq_str (entry "overall_status" (entry "sql_health" results)) "healthy").

Definition stuck_emails (results : value) : Z :=
  int_of (entry "stuck" (entry "email_queue" results)).

Definition failed_emails (results : value) : Z :=
  int_of (entry "failed" (entry "email_queue" results)).

Definition missing_graphics (results : value) : Z :=
  int_of (entry "missing_graphics" (entry "monthly_graphics" results)).

Definition edge_error (results : value) : bool :=
  truthy (entry "error" (entry "edge_functions" results)).

(** The concerns that the summary looks for. *)
Definition concerns (results : value) : bool :=
  sql_unhealthy results
  || (0 <? stuck_emails results)
  || (10 <? failed_emails results)
  || (0 <? missing_graphics results)
  || edge_error results.

Definition status_of (results : value) : string :=
  if concerns results then "issues_found" else "healthy".

(** The shapes in which the four checks return. *)
Definition is_dict (v : value) : Prop := exists kvs, v = VDict kvs.

Definition email_shape (v : value) : Prop :=
  (exists msg, v = dict [("error", VStr msg)])
  \/ (exists pending failed stuck by_type,
        v = dict [("pending", VInt pending); ("failed", VInt failed);
                  ("stuck", VInt stuck); ("by_type", VDict by_type)]).

Definition graphics_shape (v : value) : Prop :=
  v = dict [("skipped", VBool true)]
  \/ (exists month missing pending,
        v = dict [("month", VStr month); ("missing_graphics", of_nat missing);
                  ("pending_emails", VInt pending)]).

Definition edge_shape (v : value) : Prop :=
  (exists msg, v = dict [("error", VStr msg)])
  \/ (exists approvals,
        v = dict [("recent_approvals", of_nat approvals); ("healthy", VBool true)]).

Definition health_report (r1 r2 r3 r4 : value) : list (value * value) :=
  [(VStr "sql_health", r1); (VStr "email_queue", r2);
   (VStr "monthly_graphics", r3); (VStr "edge_functions", r4)].

Definition health_client (cfg : Health.config) : Client :=
  create_client (Health.SUPABASE_URL cfg) (Health.SUPABASE_KEY cfg).

Definition health_title : string := "Pull-Up Club System Health Check".

(** The RPC and the first query of the health checker. *)
Definition sql_health_call : call := Rpc "run_system_health_check" [].
Definition email_query : call :=
  Select "email_notifications" "status, email_type" None [Is "sent_at" "null"].

Definition is_graphics_rpc (c : call) : bool :=
  match c with
  | Rpc fn _ => String.eqb fn "get_users_missing_graphics"
  | _ => false
  end.


(** Every remote call returns an empty result list. *)
Definition empty_reply (r : reply) : Prop :=
  exists resp,
    r = Ret resp /\ data resp = VList []
    /\ (count resp = None \/ count resp = Some 0).

Definition all_empty (w : world) : Prop :=
  forall h c, empty_reply (oracle w h c).

(** Some printed text contains [needle]. *)
Definition printed (needle : string) (s : state) : bool :=
  existsb (contains needle) (out s).

(** Text without a capital F, which therefore cannot contain "Found". *)
Definition plain (s : string) : bool :=
  forallb (fun a => negb (Ascii.eqb a "F")) (list_ascii_of_string s).

(** The message of the one exception that date arithmetic raises. *)
Definition overflow : string := "date value out of range".

(** A printed line without "Found". *)
Definition quiet (line : string) : bool := negb (contains "Found" line).

(** The state in which the checks of either [main] start: nothing
    called yet, the banner printed, the clock read once. *)
Definition banner (title : string) (dry_run : bool) (w : world) : state :=
  mkState []
          [Text.repeat_str "=" 60; title;
           "Time: " ++ isoformat (clock w 0) ++ "Z";
           "Mode: " ++ (if dry_run then "DRY RUN" else "LIVE");
           Text.repeat_str "=" 60]
          1.

(** The results and the status that a run of the health checker with a
    credential arrives at. *)
Definition health_results (cfg : Health.config) (dry_run : bool) (w : world)
  : list (value * value) :=
  match Health.main_checks (health_client cfg) w [] (banner health_title dry_run w) with
  | (_, results, _) => results
  end.

Definition health_status (cfg : Health.config) (dry_run : bool) (w : world)
  : outcome string :=
  match Health.main_checks (health_client cfg) w [] (banner health_title dry_run w) with
  | (_, results, s) =>
      match Health.generate_summary_report (VDict results) w results s with
      | (o, _, _) => o
      end
  end.

End Observe.

(* ================================================================ *)
(** * Example configurations and backends *)
(* ================================================================ *)

Module Examples.
Import Text Py DateTime Backend Observe.

Definition live : Consistency.config :=
  Consistency.mkConfig "https://example.supabase.co" "service-role-key" false.

Definition dry : Consistency.config :=
  Consistency.mkConfig "https://example.supabase.co" "service-role-key" true.

Definition health : Health.config :=
  Health.mkConfig "https://example.supabase.co" "service-role-key".

Definition morning (_ : nat) : datetime := mkDateTime 2024 3 1 6 0 0 0.

Definition nothing : outcome response := Ret (mkResponse (VList []) (Some 0)).

(** A backend on which every call returns an empty list. *)
Definition silent : world := mkWorld (fun _ _ => nothing) morning.

Definition ann : value :=
  dict [("submission_id", VStr "s1"); ("user_id", VStr "u1");
        ("actual_pull_up_count", VInt 12); ("full_name", VStr "Ann Lee")].

(** A backend whose missing-earnings report returns one record and
    whose other calls return empty lists. *)
Definition one_missing : world :=
  mkWorld (fun _ c =>
             match c with
             | Rpc fn _ =>
                 if String.eqb fn "get_submissions_missing_earnings"
                 then Ret (mkResponse (VList [ann]) None)
                 else nothing
             | _ => nothing
             end)
          morning.

(** A backend whose payout report returns the record of the example
    scenario and whose other calls return empty lists. *)
Definition one_mismatch : world :=
  mkWorld (fun _ c =>
             match c with
             | Rpc fn _ =>
                 if String.eqb fn "get_payout_mismatches"
                 then Ret (mkResponse (VList [jane_doe]) None)
                 else nothing
             | _ => nothing
             end)
          morning.

(** A backend on which every remote procedure raises. *)
Definition rpc_down : world :=
  mkWorld (fun _ c =>
             match c with
             | Rpc _ _ => Raise (APIError "timeout")
             | _ => nothing
             end)
          morning.


(** A backend whose SQL health check is healthy, whose submissions
    table is empty, and on which everything else fails. *)
Definition flaky : world :=
  mkWorld (fun _ c =>
             match c with
             | Rpc fn _ =>
                 if String.eqb fn "run_system_health_check"
                 then Ret (mkResponse (dict [("overall_status", VStr "healthy")]) None)
                 else Raise (APIError "connection reset")
             | Select table _ _ _ =>
                 if String.eqb table "submissions" then nothing
                 else Raise (APIError "connection reset")
             | _ => Raise (APIError "connection reset")
             end)
          morning.

(** A backend on which every update fails. *)
Definition read_only : world :=
  mkWorld (fun h c =>
             match c with
             | Update _ _ _ => Raise (APIError "permission denied")
             | _ => oracle one_mismatch h c
             end)
          morning.

(** The backend [one_missing], except that its monitoring tables are
    missing: every insert fails. *)
Definition log_down : world :=
  mkWorld (fun h c =>
             match c with
             | Insert _ _ => Raise (APIError "relation does not exist")
             | _ => oracle one_missing h c
             end)
          morning.

End Examples.

(* ================================================================ *)
(** * Dates that a [datetime] can hold *)
(* ================================================================ *)

Module Calendar.
Import Text Py DateTime Backend.

(** The number of days of year [y] and of its February. *)
Definition year_length (y : Z) : Z := if is_leap y then 366 else 365.
Definition february (y : Z) : Z := if is_leap y then 29 else 28.

Definition valid_date (y m d : Z) : Prop :=
  1 <= y /\ 1 <= m <= 12 /\ 1 <= d <= days_in_month y m.

(** The values [datetime] accepts: a date of the years 1 to 9999 and a
    time of day. *)
Definition valid (d : datetime) : Prop :=
  valid_date (year d) (month d) (day d)
  /\ year d <= 9999
  /\ 0 <= hour d < 24 /\ 0 <= minute d < 60 /\ 0 <= second d < 60.

(** Seconds from the start of day 0 of the calendar. *)
Definition seconds (d : datetime) : Z :=
  toordinal d * 86400 + hour d * 3600 + minute d * 60 + second d.

(** The calendar month before the month of [d], as [(year, month)]. *)
Definition previous_month (d : datetime) : Z * Z :=
  if month d =? 1 then (year d - 1, 12) else (year d, month d - 1).

(** A month as [YYYY-MM]. *)
Definition month_text (ym : Z * Z) : string :=
  pad0 4 (fst ym) ++ "-" ++ pad0 2 (snd ym).

End Calendar.

(* ================================================================ *)
(** * Further observations of a run *)
(* ================================================================ *)

Module Detail.
Import Text Py DateTime Backend Observe Calendar.

(** The fields of a missing-earnings record that the repair call takes. *)
Definition param_keys : list string :=
  ["submission_id"; "user_id"; "actual_pull_up_count"].

(** The fields of a mismatch record that the update and the start of
    its report line take. *)
Definition update_keys : list string :=
  ["correct_amount"; "payout_id"; "full_name"].

(** What a computation ensures of the locals it returns normally with. *)
Definition returns_with {L A} (m : M L A) (w : world) (l : L) (s : state)
           (Q : L -> Prop) : Prop :=
  match m w l s with
  | (Ret _, l', _) => Q l'
  | (Raise _, _, _) => True
  end.

(** The fixes counted do not outnumber the issues counted. *)
Definition bounded (l : Consistency.main_locals) : Prop :=
  (Consistency.total_fixed l <= Consistency.total_issues l)%nat.

(** Entries that [main] puts into [details]: a string key with a count
    or a message. *)
Definition plain_entry (kv : value * value) : bool :=
  match kv with
  | (VStr _, VInt _) | (VStr _, VStr _) => true
  | _ => false
  end.

Definition plain_details (l : Consistency.main_locals) : Prop :=
  forallb plain_entry (Consistency.details l) = true.

(** The locals of [main] of the consistency checker when its three
    checks are done, in a run that has its credential. *)
Definition checked (cfg : Consistency.config) (w : world) : Consistency.main_locals :=
  match three_checks cfg (client_of cfg) w (Consistency.mkLocals 0 0 [])
                     (banner title (Consistency.DRY_RUN cfg) w) with
  | (_, l, _) => l
  end.

(** The line [log_check_result] prints when the insert fails. *)
Definition log_warning (r : reply) : list string :=
  match r with
  | Ret _ => []
  | Raise e => ["Warning: Could not log to monitoring table: " ++ exn_str e]
  end.

(** ** The email queue *)

Definition is_pending (email : value) : bool :=
  eq_str (field "status" email) "pending".
Definition is_failed (email : value) : bool :=
  eq_str (field "status" email) "failed".

(** An email row the queue check can classify: it has a status and,
    when pending, a type that can key a dictionary. *)
Definition known_email (email : value) : bool :=
  has_keys ["status"] email
  && (negb (is_pending email)
      || (has_keys ["email_type"] email && hashable (field "email_type" email))).

Definition count_of (p : value -> bool) (xs : list value) : Z :=
  Z.of_nat (List.length (List.filter p xs)).

(** A dictionary of counts, and the sum of its counts. *)
Definition all_counts (kvs : list (value * value)) : bool :=
  forallb (fun kv => match snd kv with VInt _ => true | _ => false end) kvs.

Definition sum_counts (kvs : list (value * value)) : Z :=
  fold_right (fun kv acc => int_of (snd kv) + acc) 0 kvs.

(** The query for pending emails created before [before]. *)
Definition stuck_query (before : string) : call :=
  Select "email_notifications" "id" (Some "exact")
         [Is "sent_at" "null"; Eq "status" (VStr "pending");
          Lt "created_at" (VStr before)].

(** ** The edge-function check *)

Definition approvals_query (since : string) : call :=
  Select "submissions" "id, approved_at, user_id" None
         [Eq "status" (VStr "approved"); Gte "approved_at" (VStr since)].

Definition earnings_query (ids : list value) : call :=
  Select "weekly_earnings" "submission_id" (Some "exact") [In_ "submission_id" ids].

(** ** The graphics check *)

Definition graphics_rpc (month : string) : call :=
  Rpc "get_users_missing_graphics" [("p_month_year", VStr month)].

Definition graphic_emails_query : call :=
  Select "email_notifications" "id" (Some "exact")
         [Eq "email_type" (VStr "monthly_graphic"); Is "sent_at" "null";
          Eq "status" (VStr "pending")].

Definition is_record (v : value) : bool :=
  match v with
  | VDict _ => true
  | _ => false
  end.

(** [v.get(key, default)] of a record. *)
Definition field_or (key : string) (default : value) (v : value) : value :=
  match get v key default with
  | Ret x => x
  | Raise _ => default
  end.

(** A user record as the report returns it: its name and its amount,
    where it has them, are a string, a number, a truth value or [None]. *)
Definition listed_user (user : value) : bool :=
  is_record user
  && hashable (field_or "full_name" (VStr "Unknown") user)
  && hashable (field_or "total_dollars" (VInt 0) user).

(** The line shown for a user who misses a graphic. *)
Definition user_line (user : value) : string :=
  "    - " ++ py_str (field_or "full_name" (VStr "Unknown") user) ++ ": $"
  ++ py_str (field_or "total_dollars" (VInt 0) user).

(** The lines about the users who miss a graphic. *)
Definition missing_lines (month : string) (users : list value) : list string :=
  match users with
  | [] => ["  All graphics generated for " ++ month]
  | _ :: _ =>
      ["  WARNING: " ++ dec (Z.of_nat (List.length users))
       ++ " users missing graphics for " ++ month]
      ++ map user_line (firstn 5 users)
      ++ (if (5 <? List.length users)%nat
          then ["    ... and " ++ dec (Z.of_nat (List.length users) - 5) ++ " more"]
          else [])
  end.

(** ** What does not depend on the console *)

(** Two states that differ at most in what was printed. *)
Definition same_but_out (s s' : state) : Prop :=
  trace s = trace s' /\ ticks s = ticks s'.

(** [m] does not read the console: from two such states it gives the
    same outcome and locals, and two such states again. *)
Definition oblivious {L A} (m : M L A) : Prop :=
  forall w l s s', same_but_out s s' ->
    exists o l1 s1 s1',
      m w l s = (o, l1, s1) /\ m w l s' = (o, l1, s1') /\ same_but_out s1 s1'.

(** What [main] of the health checker does once the four checks have
    filled [results]. *)
Definition after_checks (supabase : Client) (dry_run : bool)
  : M (list (value * value)) Z :=
  bind locals (fun results =>
  bind (Health.generate_summary_report (VDict results)) (fun status =>
  bind (print (Health.nl ++ Health.rule)) (fun _ =>
  bind (print "HEALTH CHECK COMPLETE") (fun _ =>
  bind (print Health.rule) (fun _ =>
  bind (if negb dry_run then Health.main_log supabase status (VDict results)
        else ret tt) (fun _ =>
  if String.eqb status "healthy" then ret 0 else ret 1)))))).

(** The line [get_client] prints before it ends the process. *)
Definition no_key_line : string :=
  "ERROR: SUPABASE_SERVICE_ROLE_KEY environment variable not set".

(** The environment does not set the credential, or sets it empty. *)
Definition no_key (env : string -> option string) : Prop :=
  env "SUPABASE_SERVICE_ROLE_KEY" = None
  \/ env "SUPABASE_SERVICE_ROLE_KEY" = Some EmptyString.

End Detail.

(* ================================================================ *)
(** * The text of the health summary *)
(* ================================================================ *)

Module Summary.
Import Text Py DateTime Backend Observe.

(** The issues the summary lists, in its order. *)
Definition issues_of (results : value) : list string :=
  (if sql_unhealthy results then ["SQL health check found issues"] else [])
  ++ (if 0 <? stuck_emails results
      then [py_str (entry "stuck" (entry "email_queue" results))
            ++ " emails stuck in queue"]
      else [])
  ++ (if 10 <? failed_emails results
      then [py_str (entry "failed" (entry "email_queue" results)) ++ " failed emails"]
      else [])
  ++ (if 0 <? missing_graphics results
      then [py_str (entry "missing_graphics" (entry "monthly_graphics" results))
            ++ " users missing monthly graphics"]
      else [])
  ++ (if edge_error results
      then ["Edge function check error: "
            ++ py_str (entry "error" (entry "edge_functions" results))]
      else []).

(** What the summary prints. *)
Definition summary_text (results : value) : list string :=
  (Health.nl ++ "[5/5] Generating summary...")
  :: match issues_of results with
     | [] => [Health.nl ++ "  ALL SYSTEMS HEALTHY"]
     | issues =>
         (Health.nl ++ "  ISSUES FOUND: " ++ dec (Z.of_nat (List.length issues)))
         :: map (fun issue => "    - " ++ issue) issues
     end.

End Summary.

(* ================================================================ *)
(** * Further example backends *)
(* ================================================================ *)

Module Cases.
Import Text Py DateTime Backend Observe Examples.

(** An environment that sets nothing. *)
Definition bare (_ : string) : option string := None.

(** A missing-earnings record without [full_name]. *)
Definition bob : value :=
  dict [("submission_id", VStr "s2"); ("user_id", VStr "u2");
        ("actual_pull_up_count", VInt 7)].

Definition cara : value :=
  dict [("submission_id", VStr "s3"); ("user_id", VStr "u3");
        ("actual_pull_up_count", VInt 9); ("full_name", VStr "Cara Diaz")].

(** A backend whose calls all succeed with an empty result, except the
    report [fn], which returns [records]. *)
Definition reporting (fn : string) (records : list value) : world :=
  mkWorld (fun _ c =>
             match c with
             | Rpc fn' _ =>
                 if String.eqb fn' fn
                 then Ret (mkResponse (VList records) None)
                 else nothing
             | _ => nothing
             end)
          morning.

(** The missing-earnings report returns three records, the second
    without a name. *)
Definition nameless : world :=
  reporting "get_submissions_missing_earnings" [ann; bob; cara].

(** A pool record without [week_start]. *)
Definition week : value :=
  dict [("week_end", VStr "2024-02-25"); ("remaining", VInt 120);
        ("calculated", VInt 100)].

Definition bad_pool : world := reporting "get_pool_balance_issues" [week].

(** A mismatch record without [current_amount]. *)
Definition joe : value :=
  dict [("payout_id", VStr "p2"); ("full_name", VStr "Joe Roe");
        ("correct_amount", VInt 30)].

Definition half_mismatch : world := reporting "get_payout_mismatches" [joe].

(** Rows of the email queue. *)
Definition welcome : value :=
  dict [("status", VStr "pending"); ("email_type", VStr "welcome")].
Definition receipt : value :=
  dict [("status", VStr "pending"); ("email_type", VStr "receipt")].
Definition bounced : value :=
  dict [("status", VStr "failed"); ("email_type", VStr "welcome")].

(** Users who miss their graphic; the last one has no name. *)
Definition earner (name : string) (dollars : Z) : value :=
  dict [("full_name", VStr name); ("total_dollars", VInt dollars)].

Definition earners : list value :=
  [earner "Ann Lee" 12; earner "Bo Chan" 8; earner "Cy Ford" 5; earner "Di Wu" 5;
   earner "Ed Orr" 3; earner "Flo Ray" 2; dict [("total_dollars", VInt 1)]].

(** Approved submissions. *)
Definition approved (id : string) : value := dict [("id", VStr id)].

(** A backend with a busy day: a healthy SQL summary, three queued
    emails of which two are pending, seven users without a graphic,
    two recent approvals with one earnings record; every count query
    finds two rows. *)
Definition busy : world :=
  mkWorld (fun _ c =>
             match c with
             | Rpc fn _ =>
                 if String.eqb fn "run_system_health_check"
                 then Ret (mkResponse (dict [("overall_status", VStr "healthy")]) None)
                 else if String.eqb fn "get_users_missing_graphics"
                 then Ret (mkResponse (VList earners) None)
                 else nothing
             | Select table columns _ _ =>
                 if String.eqb table "submissions"
                 then Ret (mkResponse (VList [approved "s1"; approved "s2"]) None)
                 else if String.eqb table "weekly_earnings"
                 then Ret (mkResponse (VList []) (Some 1))
                 else if String.eqb columns "status, email_type"
                 then Ret (mkResponse (VList [welcome; receipt; bounced; welcome]) None)
                 else Ret (mkResponse (VList []) (Some 2))
             | _ => nothing
             end)
          morning.

(** A backend on a quiet day: a healthy SQL summary, and nothing in
    any queue or report. *)
Definition well : world :=
  mkWorld (fun _ c =>
             match c with
             | Rpc fn _ =>
                 if String.eqb fn "run_system_health_check"
                 then Ret (mkResponse (dict [("overall_status", VStr "healthy")]) None)
                 else nothing
             | _ => nothing
             end)
          morning.

(** A backend whose SQL summary is a list of one row. *)
Definition listed : world :=
  mkWorld (fun _ c =>
             match c with
             | Rpc fn _ =>
                 if String.eqb fn "run_system_health_check"
                 then Ret (mkResponse
                             (VList [dict [("overall_status", VStr "healthy")]]) None)
                 else nothing
             | _ => nothing
             end)
          morning.

End Cases.

(* ================================================================ *)
(** * Reasoning about computations *)
(* ================================================================ *)

Module Logic.
Import Text Py DateTime Backend.

(** [m] always returns normally. *)
Definition total {L A} (m : M L A) : Prop :=
  forall w l s, exists a l' s', m w l s = (Ret a, l', s').

(** Whatever [m] does, it keeps the invariant [I] of the locals, only
    adds to the trace and to the output, and every call it adds
    satisfies [P]. *)
Definition frame {L A} (I : L -> Prop) (P : call -> bool) (m : M L A) : Prop :=
  forall w l s, I l ->
    exists o l' s' evs lines,
      m w l s = (o, l', s')
      /\ I l'
      /\ trace s' = (trace s ++ evs)%list
      /\ forallb (fun ev => P (fst ev)) evs = true
      /\ out s' = (out s ++ lines)%list.

(** If [m] returns normally, what it returns satisfies [Q]. *)
Definition yields {L A} (Q : A -> Prop) (m : M L A) : Prop :=
  forall w l s,
    match m w l s with
    | (Ret a, _, _) => Q a
    | (Raise _, _, _) => True
    end.

Definition any {L} : L -> Prop := fun _ => True.

(** Two worlds with the same clock whose backends differ at most in how
    they answer an insert. *)
Definition same_but_inserts (w w' : world) : Prop :=
  clock w = clock w'
  /\ forall h c, Observe.is_insert c = false -> oracle w h c = oracle w' h c.

(** [m] does the same in any two such worlds. *)
Definition insensitive {L A} (m : M L A) : Prop :=
  forall w w', same_but_inserts w w' -> forall l s, m w l s = m w' l s.

End Logic.

(* ================================================================ *)
(** * Rules for [total], [frame] and [insensitive] *)
(* ================================================================ *)

Module Rules.
Import Text Py DateTime Backend Logic.

Lemma any_holds {L} (l : L) : any l.
Proof. exact I. Qed.

Section WithLocals.
Context {L : Type}.

(** ** Totality *)

Lemma total_ret {A} (a : A) : total (L := L) (ret a).
Proof. intros w l s. unfold ret. eauto. Qed.

Lemma total_locals : total (L := L) locals.
Proof. intros w l s. unfold locals. eauto. Qed.

Lemma total_assign (f : L -> L) : total (assign f).
Proof. intros w l s. unfold assign. eauto. Qed.

Lemma total_print (line : string) : total (L := L) (print line).
Proof. intros w l s. unfold print. eauto. Qed.

Lemma total_utcnow : total (L := L) utcnow.
Proof. intros w l s. unfold utcnow. eauto. Qed.

Lemma total_bind {A B} (m : M L A) (k : A -> M L B) :
  total m -> (forall a, total (k a)) -> total (bind m k).
Proof.
  intros Hm Hk w l s. unfold bind.
  destruct (Hm w l s) as (a & l1 & s1 & E). rewrite E. apply Hk.
Qed.

(** A [try] whose handler always returns always returns, whatever
    its body does. *)
Lemma total_try {A} (body : M L A) (handler : exn -> M L A) :
  (forall e, total (handler e)) -> total (try_except body handler).
Proof.
  intros Hh w l s. unfold try_except.
  destruct (body w l s) as [[[a | e] l1] s1]; [eauto | apply Hh].
Qed.

Lemma total_for {A} (xs : list A) (body : A -> M L unit) :
  (forall x, total (body x)) -> total (for_ xs body).
Proof.
  intros Hb. induction xs as [| x rest IH]; simpl.
  - apply total_ret.
  - apply total_bind; [apply Hb | intros _; exact IH].
Qed.

Lemma total_invoke {L' A} (init : L') (body : M L' A) :
  total body -> total (invoke (L := L) init body).
Proof.
  intros Hb w l s. unfold invoke.
  destruct (Hb w init s) as (a & l1 & s1 & E). rewrite E. eauto.
Qed.

Lemma for_cons {A} (x : A) rest (body : A -> M L unit) w l s :
  for_ (x :: rest) body w l s
  = match body x w l s with
    | (Ret _, l', s') => for_ rest body w l' s'
    | (Raise e, l', s') => (Raise e, l', s')
    end.
Proof. reflexivity. Qed.

(** ** Frames *)

Variable Inv : L -> Prop.
Variable P : call -> bool.

Lemma frame_pure {A} (o : outcome A) : frame Inv P (lift o).
Proof.
  intros w l s Hl. exists o, l, s, [], []. unfold lift.
  rewrite !app_nil_r. auto.
Qed.

Lemma frame_ret {A} (a : A) : frame Inv P (ret a).
Proof. exact (frame_pure (Ret a)). Qed.

Lemma frame_raise {A} (e : exn) : frame Inv P (raise (A := A) e).
Proof. exact (frame_pure (Raise e)). Qed.

Lemma frame_locals : frame Inv P locals.
Proof.
  intros w l s Hl. exists (Ret l), l, s, [], []. unfold locals.
  rewrite !app_nil_r. auto.
Qed.

Lemma frame_assign (f : L -> L) :
  (forall l, Inv l -> Inv (f l)) -> frame Inv P (assign f).
Proof.
  intros Hf w l s Hl. exists (Ret tt), (f l), s, [], []. unfold assign.
  rewrite !app_nil_r. auto.
Qed.

Lemma frame_print (line : string) : frame Inv P (print line).
Proof.
  intros w l s Hl. eexists (Ret tt), l, _, [], [line]. unfold print. simpl.
  rewrite app_nil_r. auto.
Qed.

Lemma frame_utcnow : frame Inv P utcnow.
Proof.
  intros w l s Hl. eexists _, l, _, [], []. unfold utcnow. simpl.
  rewrite !app_nil_r. auto.
Qed.

Lemma frame_execute (c : call) : P c = true -> frame Inv P (execute c).
Proof.
  intros Hc w l s Hl.
  eexists _, l, _, [(c, oracle w (trace s) c)], []. unfold execute. simpl.
  rewrite Hc, app_nil_r. auto.
Qed.

Lemma frame_bind {A B} (m : M L A) (k : A -> M L B) :
  frame Inv P m -> (forall a, frame Inv P (k a)) -> frame Inv P (bind m k).
Proof.
  intros Hm Hk w l s Hl. unfold bind.
  destruct (Hm w l s Hl) as (o & l1 & s1 & evs1 & lines1 & E & Hl1 & Ht & Hp & Ho).
  rewrite E. destruct o as [a | e].
  - destruct (Hk a w l1 s1 Hl1)
      as (o2 & l2 & s2 & evs2 & lines2 & E2 & Hl2 & Ht2 & Hp2 & Ho2).
    exists o2, l2, s2, (evs1 ++ evs2)%list, (lines1 ++ lines2)%list.
    repeat split; auto.
    + rewrite Ht2, Ht, app_assoc. reflexivity.
    + rewrite forallb_app. apply andb_true_intro. split; assumption.
    + rewrite Ho2, Ho, app_assoc. reflexivity.
  - exists (Raise e), l1, s1, evs1, lines1. auto.
Qed.

Lemma frame_try {A} (body : M L A) (handler : exn -> M L A) :
  frame Inv P body -> (forall e, frame Inv P (handler e)) ->
  frame Inv P (try_except body handler).
Proof.
  intros Hm Hk w l s Hl. unfold try_except.
  destruct (Hm w l s Hl) as (o & l1 & s1 & evs1 & lines1 & E & Hl1 & Ht & Hp & Ho).
  rewrite E. destruct o as [a | e].
  - exists (Ret a), l1, s1, evs1, lines1. auto.
  - destruct (Hk e w l1 s1 Hl1)
      as (o2 & l2 & s2 & evs2 & lines2 & E2 & Hl2 & Ht2 & Hp2 & Ho2).
    exists o2, l2, s2, (evs1 ++ evs2)%list, (lines1 ++ lines2)%list.
    repeat split; auto.
    + rewrite Ht2, Ht, app_assoc. reflexivity.
    + rewrite forallb_app. apply andb_true_intro. split; assumption.
    + rewrite Ho2, Ho, app_assoc. reflexivity.
Qed.

Lemma frame_for {A} (xs : list A) (body : A -> M L unit) :
  (forall x, frame Inv P (body x)) -> frame Inv P (for_ xs body).
Proof.
  intros Hb. induction xs as [| x rest IH]; simpl.
  - apply frame_ret.
  - apply frame_bind; [apply Hb | intros _; exact IH].
Qed.

(** The callee works on locals of its own. *)
Lemma frame_invoke {L' A} (init : L') (body : M L' A) :
  frame any P body -> frame Inv P (invoke init body).
Proof.
  intros Hb w l s Hl. unfold invoke.
  destruct (Hb w init s (any_holds init))
    as (o & l1 & s1 & evs1 & lines1 & E & _ & Ht & Hp & Ho).
  rewrite E. exists o, l, s1, evs1, lines1. auto.
Qed.

(** ** Computations that no insert can influence *)

Lemma insensitive_pure {A} (o : outcome A) : insensitive (L := L) (lift o).
Proof. intros w w' H l s. reflexivity. Qed.

Lemma insensitive_ret {A} (a : A) : insensitive (L := L) (ret a).
Proof. intros w w' H l s. reflexivity. Qed.

Lemma insensitive_raise {A} (e : exn) : insensitive (L := L) (raise (A := A) e).
Proof. intros w w' H l s. reflexivity. Qed.

Lemma insensitive_locals : insensitive (L := L) locals.
Proof. intros w w' H l s. reflexivity. Qed.

Lemma insensitive_assign (f : L -> L) : insensitive (assign f).
Proof. intros w w' H l s. reflexivity. Qed.

Lemma insensitive_print (line : string) : insensitive (L := L) (print line).
Proof. intros w w' H l s. reflexivity. Qed.

Lemma insensitive_utcnow : insensitive (L := L) utcnow.
Proof. intros w w' [Hc _] l s. unfold utcnow. rewrite Hc. reflexivity. Qed.

Lemma insensitive_execute (c : call) :
  Observe.is_insert c = false -> insensitive (L := L) (execute c).
Proof.
  intros Hc w w' [_ Ho] l s. unfold execute. rewrite (Ho (trace s) c Hc). reflexivity.
Qed.

Lemma insensitive_bind {A B} (m : M L A) (k : A -> M L B) :
  insensitive m -> (forall a, insensitive (k a)) -> insensitive (bind m k).
Proof.
  intros Hm Hk w w' H l s. unfold bind. rewrite (Hm w w' H l s).
  destruct (m w' l s) as [[[a | e] l1] s1]; [apply (Hk a w w' H) | reflexivity].
Qed.

Lemma insensitive_try {A} (body : M L A) (handler : exn -> M L A) :
  insensitive body -> (forall e, insensitive (handler e)) ->
  insensitive (try_except body handler).
Proof.
  intros Hm Hk w w' H l s. unfold try_except. rewrite (Hm w w' H l s).
  destruct (body w' l s) as [[[a | e] l1] s1]; [reflexivity | apply (Hk e w w' H)].
Qed.

Lemma insensitive_for {A} (xs : list A) (body : A -> M L unit) :
  (forall x, insensitive (body x)) -> insensitive (for_ xs body).
Proof.
  intros Hb. induction xs as [| x rest IH]; simpl.
  - apply insensitive_ret.
  - apply insensitive_bind; [apply Hb | intros _; exact IH].
Qed.

Lemma insensitive_invoke {L' A} (init : L') (body : M L' A) :
  insensitive body -> insensitive (invoke (L := L) init body).
Proof.
  intros Hb w w' H l s. unfold invoke. rewrite (Hb w w' H init s). reflexivity.
Qed.

End WithLocals.
End Rules.

(* ================================================================ *)
(** * Proof automation over the structure of a computation *)
(* ================================================================ *)

Module Auto.
Import Text Py DateTime Backend Logic Rules.

Create HintDb prog.

#[export] Hint Unfold
  Consistency.get_client Consistency.check_missing_earnings
  Consistency.check_payout_mismatches Consistency.check_pool_balance_issues
  Consistency.fix_missing_earnings_item Consistency.fix_missing_earnings
  Consistency.fix_payout_mismatches_item Consistency.fix_payout_mismatches
  Consistency.log_check_result Consistency.main_check_1 Consistency.main_check_2
  Consistency.print_pool_issue Consistency.main_check_3 Consistency.main_summary
  Consistency.main
  Health.get_client Health.print_balance_fix Health.print_payout_issue
  Health.run_sql_health_check Health.count_type Health.classify_email
  Health.check_email_queue_health Health.print_missing_user
  Health.check_monthly_graphics Health.check_edge_function_health
  Health.generate_summary_report Health.main_checks Health.main_log Health.main
  : prog.

(** Side conditions: a call is of the permitted kind, an assignment
    keeps the invariant. *)
Ltac side :=
  solve [ reflexivity
        | exact I
        | intros; simpl in *; auto
        | intros; simpl in *; congruence ].

Ltac frame_step :=
  lazymatch goal with
  | |- frame _ _ (bind _ _) => apply frame_bind; [| intros ?]
  | |- frame _ _ (try_except _ _) => apply frame_try; [| intros ?]
  | |- frame _ _ (for_ _ _) => apply frame_for; intros ?
  | |- frame _ _ (invoke _ _) => apply frame_invoke
  | |- frame _ _ (ret _) => apply frame_ret
  | |- frame _ _ (raise _) => apply frame_raise
  | |- frame _ _ (lift _) => apply frame_pure
  | |- frame _ _ locals => apply frame_locals
  | |- frame _ _ (print _) => apply frame_print
  | |- frame _ _ utcnow => apply frame_utcnow
  | |- frame _ _ (assign _) => apply frame_assign; side
  | |- frame _ _ (execute _) => apply frame_execute; side
  | |- frame _ _ (if ?b then _ else _) =>
      first [ progress (cbn [negb andb orb Consistency.DRY_RUN];
                        rewrite ?andb_false_r)
            | destruct b ]
  | |- frame _ _ (match ?x with _ => _ end) => destruct x
  | |- frame _ _ _ => progress (autounfold with prog; cbv zeta)
  end.

Ltac frame_auto := autounfold with prog; cbv zeta; repeat frame_step.

Ltac total_step :=
  lazymatch goal with
  | |- total (bind _ _) => apply total_bind; [| intros ?]
  | |- total (try_except _ _) => apply total_try; intros ?
  | |- total (for_ _ _) => apply total_for; intros ?
  | |- total (invoke _ _) => apply total_invoke
  | |- total (ret _) => apply total_ret
  | |- total locals => apply total_locals
  | |- total (print _) => apply total_print
  | |- total utcnow => apply total_utcnow
  | |- total (assign _) => apply total_assign
  | |- total (if ?b then _ else _) => destruct b
  | |- total (match ?x with _ => _ end) => destruct x
  | |- total _ => progress (autounfold with prog; cbv zeta)
  end.

Ltac total_auto := autounfold with prog; cbv zeta; repeat total_step.

Ltac insensitive_step :=
  lazymatch goal with
  | |- insensitive (bind _ _) => apply insensitive_bind; [| intros ?]
  | |- insensitive (try_except _ _) => apply insensitive_try; [| intros ?]
  | |- insensitive (for_ _ _) => apply insensitive_for; intros ?
  | |- insensitive (invoke _ _) => apply insensitive_invoke
  | |- insensitive (ret _) => apply insensitive_ret
  | |- insensitive (raise _) => apply insensitive_raise
  | |- insensitive (lift _) => apply insensitive_pure
  | |- insensitive locals => apply insensitive_locals
  | |- insensitive (print _) => apply insensitive_print
  | |- insensitive utcnow => apply insensitive_utcnow
  | |- insensitive (assign _) => apply insensitive_assign
  | |- insensitive (execute _) => apply insensitive_execute; reflexivity
  | |- insensitive (if ?b then _ else _) => destruct b
  | |- insensitive (match ?x with _ => _ end) => destruct x
  | |- insensitive _ => progress (autounfold with prog; cbv zeta)
  end.

Ltac insensitive_auto := autounfold with prog; cbv zeta; repeat insensitive_step.

(** Symbolic execution: unfold the monad and reduce what the known
    values decide. *)
Ltac run :=
  unfold bind, ret, raise, lift, locals, assign, print, utcnow, execute,
         try_except, invoke;
  cbn [fst snd trace out ticks truthy len iter negb andb orb
       Nat.eqb List.length data count].

(** Replaces a call of a function whose effect a [frame] lemma
    bounds by its unknown outcome, the caller's locals unchanged. *)
Ltac framed f lemma :=
  match goal with
  | |- context [f ?w ?l0 ?s0] =>
      let o := fresh "o" in
      let l1 := fresh "l" in
      let s1 := fresh "s" in
      let evs := fresh "evs" in
      let lines := fresh "lines" in
      let E := fresh "E" in
      let Hl := fresh "Hl" in
      let Ht := fresh "Ht" in
      let Hp := fresh "Hp" in
      let Ho := fresh "Ho" in
      destruct (lemma (eq l0) w l0 s0 (eq_refl l0))
        as (o & l1 & s1 & evs & lines & E & Hl & Ht & Hp & Ho);
      rewrite E; clear E; subst l1; cbn [trace out ticks] in Ht, Ho
  end.

End Auto.


(* ================================================================ *)
(** * Facts about the consistency checker *)
(* ================================================================ *)

Module ConsistencyFacts.
Import Text Py DateTime Backend Logic Rules Auto Observe Consistency.

(** ** Records that carry their fields *)

Lemma has_keys_getitem keys v key :
  has_keys keys v = true -> In key keys -> getitem v key = Ret (field key v).
Proof.
  unfold has_keys, field. destruct v as [| | | | | kvs]; try discriminate.
  intros H Hin. rewrite forallb_forall in H. specialize (H key Hin).
  unfold has_key in H. simpl.
  destruct (lookup (VStr key) kvs); [reflexivity | discriminate].
Qed.

(** ** Counting reported issues along a trace *)




(** ** What the repairs and the log may call *)

Lemma fix_missing_earnings_frame {L} (Inv : L -> Prop) (P : call -> bool) sb v :
  (forall a b c, P (repair_call a b c) = true) ->
  frame Inv P (fix_missing_earnings sb v).
Proof. intros HP. frame_auto. Qed.

Lemma fix_payout_mismatches_frame {L} (Inv : L -> Prop) (P : call -> bool) sb v :
  (forall a b c, P (payout_update a b c) = true) ->
  frame Inv P (fix_payout_mismatches sb v).
Proof. intros HP. frame_auto. Qed.

Lemma log_check_result_frame {L} (Inv : L -> Prop) (P : call -> bool) sb n k d :
  (forall a b c, P (log_row a b c) = true) ->
  frame Inv P (log_check_result sb n k d).
Proof. intros HP. frame_auto. Qed.

Lemma log_check_result_total {L} sb n k d :
  total (L := L) (log_check_result sb n k d).
Proof. total_auto. Qed.

(** ** Each check of [main] accounts for the issues its report returned *)




(** Printing the pool issues neither calls the backend nor fails when
    the records carry their fields. *)
Lemma print_pool_issue_ok p w l s :
  has_keys pool_keys p = true ->
  exists line,
    print_pool_issue p w l s
    = (Ret tt, l, mkState (trace s) (out s ++ [line]) (ticks s)).
Proof.
  intros Hp. unfold print_pool_issue. run.
  rewrite !(has_keys_getitem pool_keys p) by (simpl; auto).
  eexists. reflexivity.
Qed.



(** ** The summary *)

(** The summary reports both totals, logs when it should, and its
    exit code is decided by the issue count alone. *)
Lemma main_summary_spec cfg sb w l s :
  exists s' evs lines,
    main_summary cfg sb w l s
    = (Ret (if (0 <? total_issues l)%nat then 1 else 0), l, s')
    /\ trace s' = (trace s ++ evs)%list
    /\ forallb (fun ev => is_insert (fst ev)) evs = true
    /\ ((total_issues l = 0%nat \/ DRY_RUN cfg = true) -> evs = [])
    /\ out s' = (out s ++ summary_lines l ++ lines)%list.
Proof.
  unfold main_summary. run.
  destruct (0 <? total_issues l)%nat eqn:Hpos.
  - destruct (DRY_RUN cfg) eqn:Hdry; run.
    + eexists _, [], _. split; [reflexivity |]. cbn [trace out].
      rewrite app_nil_r, <- !app_assoc. simpl. repeat split; auto.
    + match goal with
      | |- context [log_check_result ?a ?b ?c ?d w ?l0 ?s0] =>
          destruct (log_check_result_frame (eq l0) is_insert a b c d
                      (fun _ _ _ => eq_refl) w l0 s0 eq_refl)
            as (o & l1 & s1 & evs & lines & E & Hl & Ht & Hp & Ho);
          destruct (log_check_result_total (L := main_locals) a b c d w l0 s0)
            as (u & l2 & s2 & E2)
      end.
      rewrite E2 in E. inversion E; subst o l1 s1; clear E. subst l2.
      rewrite E2. destruct u.
      eexists _, evs, _. split; [reflexivity |]. cbn [trace out] in *.
      rewrite Ht, Ho, <- !app_assoc. simpl. repeat split; auto.
      intros [H0 | H0]; [| discriminate].
      apply Nat.ltb_lt in Hpos. lia.
  - run. eexists _, [], _. split; [reflexivity |]. cbn [trace out].
    rewrite app_nil_r, <- !app_assoc. simpl. repeat split; auto.
Qed.

(** ** The shape of a run *)

Lemma main_connected {L} cfg w (l : L) :
  SUPABASE_KEY cfg <> EmptyString ->
  main cfg w l start
  = match checks_and_summary cfg (client_of cfg) w (mkLocals 0 0 [])
            (banner title (DRY_RUN cfg) w) with
    | (o, _, s) => (o, l, s)
    end.
Proof.
  intros Hkey. apply String.eqb_neq in Hkey.
  unfold main, get_client, checks_and_summary, client_of. run. rewrite Hkey.
  reflexivity.
Qed.

Lemma main_not_connected {L} cfg w (l : L) :
  SUPABASE_KEY cfg = EmptyString ->
  main cfg w l start
  = (Ret 1, l,
     mkState [] (out (banner title (DRY_RUN cfg) w)
                 ++ ["ERROR: SUPABASE_SERVICE_ROLE_KEY environment variable not set"])
             1).
Proof.
  intros Hkey. unfold main, get_client. run. rewrite Hkey. reflexivity.
Qed.


End ConsistencyFacts.


Module RepairFacts.
Import Text Py DateTime Backend Logic Rules Auto Observe Consistency.
Import ConsistencyFacts.

(** ** Missing earnings: one repair call per record *)

Lemma fix_missing_earnings_item_spec sub w c s :
  has_keys missing_keys sub = true ->
  let r := oracle w (trace s) (repair_of sub) in
  exists line,
    fix_missing_earnings_item sub w c s
    = (Ret tt,
       (if succeeded r then incr_fixed c else incr_failed c),
       mkState (trace s ++ [(repair_of sub, r)]) (out s ++ [line]) (ticks s)).
Proof.
  intros Hk r. unfold fix_missing_earnings_item. run.
  rewrite !(has_keys_getitem missing_keys sub) by (simpl; auto).
  fold (repair_of sub). fold r.
  destruct r as [resp | e]; unfold succeeded; [| eexists; reflexivity].
  destruct (truthy (data resp)) eqn:T; cbn [andb];
    [| rewrite T; eexists; reflexivity].
  destruct (data resp) as [| b | z | t | xs | kvs]; cbn [get];
    try (eexists; reflexivity).
  destruct (lookup (VStr "success") kvs) as [flag |]; cbn [truthy];
    [| eexists; reflexivity].
  destruct (truthy flag); [| eexists; reflexivity].
  destruct (lookup (VStr "dollars_earned") kvs); eexists; reflexivity.
Qed.

Lemma fix_missing_earnings_loop subs :
  forallb (has_keys missing_keys) subs = true ->
  forall w c s,
  exists c' evs lines,
    for_ subs fix_missing_earnings_item w c s
    = (Ret tt, c', mkState (trace s ++ evs) (out s ++ lines) (ticks s))
    /\ map fst evs = map repair_of subs
    /\ fixed c' = (fixed c + tally succeeded evs)%nat
    /\ failed c' = (failed c + tally (fun r => negb (succeeded r)) evs)%nat.
Proof.
  induction subs as [| sub rest IH]; intros H w c s.
  - exists c, [], []. simpl. unfold ret, tally. rewrite !app_nil_r.
    destruct s. repeat split; simpl; lia.
  - simpl in H. apply andb_true_iff in H. destruct H as [Hsub Hrest].
    rewrite for_cons.
    destruct (fix_missing_earnings_item_spec sub w c s Hsub) as (line & E).
    rewrite E.
    match goal with
    | |- context [for_ rest _ w ?c1 ?s1] =>
        destruct (IH Hrest w c1 s1) as (c' & evs & lines & E2 & Hc & Hf & Hg)
    end.
    rewrite E2. cbn [trace out ticks].
    eexists c', (_ :: evs), (line :: lines).
    rewrite <- !app_assoc. split; [reflexivity |]. simpl.
    split; [congruence |].
    unfold tally in *. simpl.
    destruct (succeeded (oracle w (trace s) (repair_of sub))); simpl in *; lia.
Qed.

Lemma tally_split p evs :
  (tally p evs + tally (fun r => negb (p r)) evs)%nat = List.length evs.
Proof.
  unfold tally. induction evs as [| ev rest IH]; simpl; [reflexivity |].
  destruct (p (snd ev)); simpl; lia.
Qed.

Lemma fix_missing_earnings_spec {L} sb subs w (l : L) s :
  forallb (has_keys missing_keys) subs = true ->
  exists c evs lines,
    fix_missing_earnings sb (VList subs) w l s
    = (Ret c, l, mkState (trace s ++ evs) (out s ++ lines) (ticks s))
    /\ map fst evs = map repair_of subs
    /\ fixed c = tally succeeded evs
    /\ failed c = tally (fun r => negb (succeeded r)) evs.
Proof.
  intros H. unfold fix_missing_earnings. run.
  destruct (fix_missing_earnings_loop subs H w (mkCounters 0 0) s)
    as (c' & evs & lines & E & Hc & Hf & Hg).
  rewrite E. exists c', evs, lines. simpl in *. auto.
Qed.

(** ** Payout mismatches: one update per record *)

Lemma fix_payout_mismatches_item_spec m w c s :
  has_keys payout_keys m = true ->
  let u := update_of (clock w (ticks s)) m in
  let r := oracle w (trace s) u in
  fix_payout_mismatches_item m w c s
  = (Ret tt,
     (if raised r then incr_failed c else incr_fixed c),
     mkState (trace s ++ [(u, r)]) (out s ++ [payout_line m r]) (S (ticks s))).
Proof.
  intros Hk u r. unfold fix_payout_mismatches_item. run.
  rewrite !(has_keys_getitem payout_keys m) by (simpl; auto).
  fold (update_of (clock w (ticks s)) m). fold u. fold r.
  destruct r as [resp | e]; reflexivity.
Qed.

Lemma fix_payout_mismatches_loop ms :
  forallb (has_keys payout_keys) ms = true ->
  forall w c s,
  exists c' evs,
    for_ ms fix_payout_mismatches_item w c s
    = (Ret tt, c',
       mkState (trace s ++ evs)
               (out s ++ map (fun mev => payout_line (fst mev) (snd (snd mev)))
                             (combine ms evs))
               (ticks s + List.length ms))
    /\ List.length evs = List.length ms
    /\ forallb (fun ev => is_update (fst ev)) evs = true
    /\ fixed c' = (fixed c + tally (fun r => negb (raised r)) evs)%nat
    /\ failed c' = (failed c + tally raised evs)%nat.
Proof.
  induction ms as [| m rest IH]; intros H w c s.
  - exists c, []. simpl. unfold ret, tally. rewrite !app_nil_r, Nat.add_0_r.
    destruct s. repeat split; simpl; lia.
  - simpl in H. apply andb_true_iff in H. destruct H as [Hm Hrest].
    rewrite for_cons, (fix_payout_mismatches_item_spec m w c s Hm).
    match goal with
    | |- context [for_ rest _ w ?c1 ?s1] =>
        destruct (IH Hrest w c1 s1) as (c' & evs & E2 & Hlen & Hu & Hf & Hg)
    end.
    rewrite E2. cbn [trace out ticks].
    eexists c', (_ :: evs).
    rewrite <- !app_assoc. split.
    { simpl. repeat f_equal. lia. }
    simpl. split; [congruence |]. split; [exact Hu |].
    unfold tally in *. simpl.
    destruct (raised (oracle w (trace s) (update_of (clock w (ticks s)) m)));
      simpl in *; lia.
Qed.

Lemma fix_payout_mismatches_spec {L} sb ms w (l : L) s :
  forallb (has_keys payout_keys) ms = true ->
  exists c evs,
    fix_payout_mismatches sb (VList ms) w l s
    = (Ret c, l,
       mkState (trace s ++ evs)
               (out s ++ map (fun mev => payout_line (fst mev) (snd (snd mev)))
                             (combine ms evs))
               (ticks s + List.length ms))
    /\ List.length evs = List.length ms
    /\ forallb (fun ev => is_update (fst ev)) evs = true
    /\ fixed c = tally (fun r => negb (raised r)) evs
    /\ failed c = tally raised evs.
Proof.
  intros H. unfold fix_payout_mismatches. run.
  destruct (fix_payout_mismatches_loop ms H w (mkCounters 0 0) s)
    as (c' & evs & E & Hlen & Hu & Hf & Hg).
  rewrite E. exists c', evs. simpl in *. auto.
Qed.

End RepairFacts.

Module RunFacts.
Import Text Py DateTime Backend Logic Rules Auto Observe Consistency.
Import ConsistencyFacts RepairFacts.

Lemma bind_run {L A B} (m : M L A) (k : A -> M L B) w l s :
  bind m k w l s
  = match m w l s with
    | (Ret a, l', s') => k a w l' s'
    | (Raise e, l', s') => (Raise e, l', s')
    end.
Proof. reflexivity. Qed.

(** Calls of a kind [P] leave nothing when filtered by a kind [Q]
    that excludes [P]. *)
Lemma filter_excluded (P Q : call -> bool) (evs : list event) :
  forallb (fun ev => P (fst ev)) evs = true ->
  (forall c, P c = true -> Q c = false) ->
  List.filter Q (map fst evs) = [].
Proof.
  intros H HPQ. induction evs as [| ev rest IH]; simpl in *; [reflexivity |].
  apply andb_true_iff in H. destruct H as [H1 H2].
  rewrite (HPQ _ H1). auto.
Qed.

Lemma filter_all {A} (Q : A -> bool) (xs : list A) :
  forallb Q xs = true -> List.filter Q xs = xs.
Proof.
  induction xs as [| x rest IH]; simpl; [reflexivity |].
  intros H. apply andb_true_iff in H. destruct H as [H1 H2].
  rewrite H1, IH; auto.
Qed.

(** Check 1 in live mode, when the report returns well-shaped records. *)
Lemma main_check_1_live cfg sb w l s resp subs :
  DRY_RUN cfg = false ->
  oracle w (trace s) missing_report = Ret resp ->
  data resp = VList subs ->
  forallb (has_keys missing_keys) subs = true ->
  exists l' evs lines,
    main_check_1 cfg sb w l s
    = (Ret tt, l',
       mkState (trace s ++ (missing_report, Ret resp) :: evs) (out s ++ lines)
               (ticks s))
    /\ map fst evs = map repair_of subs.
Proof.
  intros Hdry E D Hwf. unfold main_check_1, check_missing_earnings. run.
  fold missing_report. rewrite E, D, Hdry. cbn [data].
  destruct subs as [| sub rest]; run.
  - eexists _, [], _. rewrite <- !app_assoc. split; reflexivity.
  - match goal with
    | |- context [fix_missing_earnings sb _ w ?l0 ?s0] =>
        destruct (fix_missing_earnings_spec sb (sub :: rest) w l0 s0 Hwf)
          as (c & evs & lines & E2 & Hc & _)
    end.
    rewrite E2. cbn [trace out ticks].
    eexists _, evs, _. rewrite <- !app_assoc. split; [reflexivity | exact Hc].
Qed.

(** What follows check 1 issues no repair call. *)
Lemma after_check_1_frame cfg sb :
  frame any (fun c => negb (is_repair c))
        (bind (main_check_2 cfg sb) (fun _ =>
         bind (main_check_3 cfg sb) (fun _ => main_summary cfg sb))).
Proof. frame_auto. Qed.

(** ** The checks never fail, whatever the backend does *)

Lemma three_checks_total cfg sb : total (three_checks cfg sb).
Proof. unfold three_checks. total_auto. Qed.

Lemma checks_and_summary_split cfg sb w l s :
  checks_and_summary cfg sb w l s
  = bind (three_checks cfg sb) (fun _ => main_summary cfg sb) w l s.
Proof.
  unfold checks_and_summary, three_checks. rewrite !bind_run.
  destruct (main_check_1 cfg sb w l s) as [[[[] | e] l1] s1]; [| reflexivity].
  rewrite !bind_run.
  destruct (main_check_2 cfg sb w l1 s1) as [[[[] | e] l2] s2]; reflexivity.
Qed.

(** In a dry run the checks fix nothing and call nothing that mutates. *)
Lemma three_checks_dry cfg sb :
  DRY_RUN cfg = true ->
  frame (fun l => total_fixed l = 0%nat) (fun c => negb (is_mutating c))
        (three_checks cfg sb).
Proof.
  intros Hdry. unfold three_checks, main_check_1, main_check_2, main_check_3.
  rewrite Hdry. frame_auto.
Qed.

Lemma main_dry_frame {L} cfg :
  DRY_RUN cfg = true ->
  frame (L := L) any (fun c => negb (is_mutating c)) (main cfg).
Proof.
  intros Hdry. unfold main, main_check_1, main_check_2, main_check_3, main_summary.
  rewrite Hdry. frame_auto.
Qed.

Lemma frame_calls {L A} (P : call -> bool) (m : M L A) w l :
  frame any P m -> forallb P (calls (snd (m w l start))) = true.
Proof.
  intros Hm.
  destruct (Hm w l start I) as (o & l1 & s1 & evs & lines & E & _ & Ht & Hp & _).
  rewrite E. unfold calls. cbn [snd]. rewrite Ht. simpl.
  clear - Hp. induction evs as [| ev rest IH]; simpl in *; [reflexivity |].
  apply andb_true_iff in Hp. destruct Hp as [H1 H2]. rewrite H1. auto.
Qed.

End RunFacts.

Module CheckFacts.
Import Text Py DateTime Backend Logic Rules Auto Observe Consistency.
Import ConsistencyFacts RepairFacts RunFacts.

(** ** A report that raises *)




(** ** Every check sends its report, whatever came before *)




Lemma print_pool_issues_frame Inv P xs :
  frame Inv P (for_ xs print_pool_issue).
Proof. frame_auto. Qed.



End CheckFacts.

(* ================================================================ *)
(** * Facts about the health checker *)
(* ================================================================ *)

Module HealthFacts.
Import Text Py DateTime Backend Logic Rules Auto Observe Health.
Import RunFacts.

(** ** Rules for [yields] *)

Lemma yields_ret {L A} (Q : A -> Prop) (a : A) : Q a -> yields (L := L) Q (ret a).
Proof. intros H w l s. exact H. Qed.

Lemma yields_bind {L A B} (Q : B -> Prop) (m : M L A) (k : A -> M L B) :
  (forall a, yields Q (k a)) -> yields Q (bind m k).
Proof.
  intros Hk w l s. unfold bind.
  destruct (m w l s) as [[[a | e] l1] s1]; [apply Hk | exact I].
Qed.

Lemma yields_lift_raise {L A B} (Q : B -> Prop) (e : exn) (k : A -> M L B) :
  yields Q (bind (lift (Raise e)) k).
Proof. intros w l s. exact I. Qed.

Lemma yields_try {L A} (Q : A -> Prop) (body : M L A) (handler : exn -> M L A) :
  yields Q body -> (forall e, yields Q (handler e)) -> yields Q (try_except body handler).
Proof.
  intros Hb Hh w l s. unfold try_except. specialize (Hb w l s).
  destruct (body w l s) as [[[a | e] l1] s1]; [exact Hb | apply Hh].
Qed.

(** A function that always returns and can only return a [Q]. *)
Lemma invoke_returns {L L' A} (Q : A -> Prop) (init : L') (body : M L' A) :
  total body -> yields Q body ->
  forall w (l : L) s, exists a s', invoke init body w l s = (Ret a, l, s') /\ Q a.
Proof.
  intros Ht Hy w l s. unfold invoke.
  specialize (Hy w init s). destruct (Ht w init s) as (a & l1 & s1 & E).
  rewrite E in *. eauto.
Qed.

Ltac yields_step :=
  lazymatch goal with
  | |- yields _ (bind _ _) => apply yields_bind; intros ?
  | |- yields _ (try_except _ _) => apply yields_try; [| intros ?]
  | |- yields _ (if ?b then _ else _) => destruct b
  | |- yields _ (ret _) => apply yields_ret
  end.

(** ** The shape of what each check returns *)

Lemma run_sql_health_check_returns {L} sb w (l : L) s :
  exists r s', run_sql_health_check sb w l s = (Ret r, l, s') /\ is_dict r.
Proof.
  unfold run_sql_health_check. apply invoke_returns; [total_auto |].
  apply yields_bind; intros _. apply yields_try.
  - apply yields_bind; intros result.
    destruct (truthy (data result)).
    + cbv zeta. destruct (data result) as [| b | z | t | xs | kvs];
        try apply yields_lift_raise.
      repeat yields_step. eexists; reflexivity.
    + apply yields_ret. eexists; reflexivity.
  - intros e. repeat yields_step. eexists; reflexivity.
Qed.

Lemma check_email_queue_health_returns {L} sb w (l : L) s :
  exists r s', check_email_queue_health sb w l s = (Ret r, l, s') /\ email_shape r.
Proof.
  unfold check_email_queue_health. apply invoke_returns; [total_auto |].
  repeat yields_step.
  - right. eexists _, _, _, _. reflexivity.
  - left. eexists. reflexivity.
Qed.

Lemma check_monthly_graphics_returns {L} sb w (l : L) s :
  exists r s', check_monthly_graphics sb w l s = (Ret r, l, s') /\ graphics_shape r.
Proof.
  unfold check_monthly_graphics. apply invoke_returns; [total_auto |].
  cbv zeta. repeat yields_step.
  - right. eexists _, _, _. reflexivity.
  - left. reflexivity.
Qed.

Lemma check_edge_function_health_returns {L} sb w (l : L) s :
  exists r s', check_edge_function_health sb w l s = (Ret r, l, s') /\ edge_shape r.
Proof.
  unfold check_edge_function_health. apply invoke_returns; [total_auto |].
  cbv zeta. repeat yields_step.
  - right. eexists. reflexivity.
  - left. eexists. reflexivity.
Qed.

(** The four checks fill [results] with one entry each. *)
Lemma main_checks_spec sb w s :
  exists r1 r2 r3 r4 s',
    main_checks sb w [] s = (Ret tt, health_report r1 r2 r3 r4, s')
    /\ is_dict r1 /\ email_shape r2 /\ graphics_shape r3 /\ edge_shape r4.
Proof.
  unfold main_checks. rewrite bind_run.
  destruct (run_sql_health_check_returns sb w ([] : list (value * value)) s)
    as (r1 & s1 & E1 & H1).
  rewrite E1. unfold assign at 1. rewrite !bind_run. cbn [set_result store].
  match goal with
  | |- context [check_email_queue_health sb w ?l0 ?s0] =>
      destruct (check_email_queue_health_returns sb w l0 s0) as (r2 & s2 & E2 & H2)
  end.
  rewrite E2. unfold assign at 1. rewrite !bind_run. cbn [set_result store key_eqb as_int String.eqb Ascii.eqb Bool.eqb].
  match goal with
  | |- context [check_monthly_graphics sb w ?l0 ?s0] =>
      destruct (check_monthly_graphics_returns sb w l0 s0) as (r3 & s3 & E3 & H3)
  end.
  rewrite E3. unfold assign at 1. rewrite !bind_run. cbn [set_result store key_eqb as_int String.eqb Ascii.eqb Bool.eqb].
  match goal with
  | |- context [check_edge_function_health sb w ?l0 ?s0] =>
      destruct (check_edge_function_health_returns sb w l0 s0) as (r4 & s4 & E4 & H4)
  end.
  rewrite E4. unfold assign. cbn [set_result store key_eqb as_int String.eqb Ascii.eqb Bool.eqb].
  exists r1, r2, r3, r4, s4. auto.
Qed.

End HealthFacts.

Module SummaryFacts.
Import Text Py DateTime Backend Logic Rules Auto Observe Health.
Import RunFacts HealthFacts.

Ltac look :=
  cbn [get getitem lookup key_eqb as_int String.eqb Ascii.eqb Bool.eqb gt eq_str
       truthy dict map fst snd of_nat health_report negb andb orb
       List.length Nat.eqb app for_ append_issue Z.ltb Z.compare].

Ltac split_ifs :=
  repeat (look;
          match goal with
          | |- context [if ?b then _ else _] => destruct b eqn:?
          end).

(** On results of the shape the checks produce, the summary returns
    without calling the backend, and its status is decided by the five
    concerns. *)
Lemma generate_summary_report_spec {L} r1 r2 r3 r4 w (l : L) s :
  is_dict r1 -> email_shape r2 -> graphics_shape r3 -> edge_shape r4 ->
  exists s',
    generate_summary_report (VDict (health_report r1 r2 r3 r4)) w l s
    = (Ret (status_of (VDict (health_report r1 r2 r3 r4))), l, s')
    /\ trace s' = trace s.
Proof.
  intros [kvs ->] H2 H3 H4.
  unfold generate_summary_report, status_of, concerns, sql_unhealthy, stuck_emails,
    failed_emails, missing_graphics, edge_error, entry, int_of.
  destruct H2 as [[msg2 ->] | (p & f & st & bt & ->)];
    destruct H3 as [-> | (mo & mi & pe & ->)];
    destruct H4 as [[msg4 ->] | (ap & ->)];
    run; look; rewrite ?Z.gtb_ltb;
    destruct (lookup (VStr "overall_status") kvs) as [v |]; look;
    split_ifs; try (cbn [orb andb negb] in *; congruence);
    run; look; eexists; split; reflexivity.
Qed.

End SummaryFacts.

Module HealthRunFacts.
Import Text Py DateTime Backend Logic Rules Auto Observe Health.
Import RunFacts HealthFacts SummaryFacts.

(** Writing the log row never fails and calls nothing but the insert. *)
Lemma main_log_spec sb status results w l s :
  exists s' evs,
    main_log sb status results w l s = (Ret tt, l, s')
    /\ trace s' = (trace s ++ evs)%list
    /\ forallb (fun ev => is_insert (fst ev)) evs = true
    /\ out s' = out s.
Proof.
  unfold main_log. run. destruct (json_dumps results) as [dumped | e].
  - match goal with
    | |- context [oracle w ?h ?c] => destruct (oracle w h c) as [resp | e]
    end; eexists _, [_]; cbn [trace out]; repeat split; reflexivity.
  - eexists _, []. cbn [trace out]. rewrite app_nil_r. repeat split; reflexivity.
Qed.

(** A run of the health checker that has its credential. *)
Lemma health_main_spec {L} cfg dry_run w (l : L) :
  SUPABASE_KEY cfg <> EmptyString ->
  exists r1 r2 r3 r4 s1 s2 s3 evs,
    main_checks (health_client cfg) w [] (banner health_title dry_run w)
    = (Ret tt, health_report r1 r2 r3 r4, s1)
    /\ is_dict r1 /\ email_shape r2 /\ graphics_shape r3 /\ edge_shape r4
    /\ generate_summary_report (VDict (health_report r1 r2 r3 r4)) w
                               (health_report r1 r2 r3 r4) s1
       = (Ret (status_of (VDict (health_report r1 r2 r3 r4))),
          health_report r1 r2 r3 r4, s2)
    /\ trace s2 = trace s1
    /\ main cfg dry_run w l start
       = (Ret (if concerns (VDict (health_report r1 r2 r3 r4)) then 1 else 0), l, s3)
    /\ trace s3 = (trace s1 ++ evs)%list
    /\ forallb (fun ev => is_insert (fst ev)) evs = true
    /\ (dry_run = true -> evs = []).
Proof.
  intros Hkey. apply String.eqb_neq in Hkey.
  destruct (main_checks_spec (health_client cfg) w (banner health_title dry_run w))
    as (r1 & r2 & r3 & r4 & s1 & E1 & H1 & H2 & H3 & H4).
  destruct (generate_summary_report_spec r1 r2 r3 r4 w (health_report r1 r2 r3 r4) s1
              H1 H2 H3 H4) as (s2 & E2 & Ht2).
  assert (Hmain :
    main cfg dry_run w l start
    = match (if negb dry_run
             then main_log (health_client cfg)
                           (status_of (VDict (health_report r1 r2 r3 r4)))
                           (VDict (health_report r1 r2 r3 r4))
             else ret tt) w (health_report r1 r2 r3 r4)
                  (mkState (trace s2)
                           (((out s2 ++ [nl ++ rule]) ++ ["HEALTH CHECK COMPLETE"])
                              ++ [rule])
                           (ticks s2)) with
      | (Ret _, _, s3) =>
          (Ret (if concerns (VDict (health_report r1 r2 r3 r4)) then 1 else 0), l, s3)
      | (Raise e, _, s3) => (Raise e, l, s3)
      end).
  { unfold main, get_client. run. rewrite Hkey.
    fold (health_client cfg).
    match goal with
    | |- context [main_checks _ w [] ?s0] =>
        change s0 with (banner health_title dry_run w)
    end.
    rewrite E1, E2. unfold status_of.
    destruct (negb dry_run); run;
      [match goal with
       | |- context [main_log ?sb ?st ?rs w ?l0 ?s0] =>
           destruct (main_log sb st rs w l0 s0) as [[[[] | e] l3] s3]
       end |];
      destruct (concerns (VDict (health_report r1 r2 r3 r4))); reflexivity. }
  exists r1, r2, r3, r4, s1, s2. rewrite Hmain.
  destruct dry_run; cbn [negb].
  - unfold ret. eexists _, []. rewrite app_nil_r. cbn [trace]. repeat split; auto.
  - match goal with
    | |- context [main_log ?sb ?st ?rs w ?l0 ?s0] =>
        destruct (main_log_spec sb st rs w l0 s0) as (s3 & evs & E3 & Ht3 & Hp3 & _)
    end.
    rewrite E3. exists s3, evs. cbn [trace] in Ht3. rewrite Ht2 in Ht3.
    repeat split; auto; discriminate.
Qed.

End HealthRunFacts.

Module FailureFacts.
Import Text Py DateTime Backend Logic Rules Auto Observe Health.
Import RunFacts HealthFacts SummaryFacts HealthRunFacts.


Lemma check_email_queue_health_raises {L} sb w (l : L) s e :
  oracle w (trace s) email_query = Raise e ->
  exists s',
    check_email_queue_health sb w l s
    = (Ret (dict [("error", VStr (exn_str e))]), l, s').
Proof.
  intros E. unfold check_email_queue_health. run. fold email_query.
  rewrite E. run. eexists. reflexivity.
Qed.

Lemma check_monthly_graphics_skipped {L} sb w (l : L) s :
  (forall h c, is_graphics_rpc c = true -> raised (oracle w h c) = true) ->
  exists s',
    check_monthly_graphics sb w l s = (Ret (dict [("skipped", VBool true)]), l, s').
Proof.
  intros Hw. unfold check_monthly_graphics. run.
  match goal with
  | |- context [minus_timedelta ?d ?a ?b] => destruct (minus_timedelta d a b) as [d1 | e1]
  end; run; [| eexists; reflexivity].
  match goal with
  | |- context [oracle w ?h ?c] =>
      pose proof (Hw h c eq_refl) as Hr; destruct (oracle w h c) as [resp | e]
  end; [discriminate |].
  run. eexists. reflexivity.
Qed.

End FailureFacts.

Module ScenarioFacts.
Import Text Py DateTime Backend Logic Rules Auto Observe Consistency.
Import ConsistencyFacts RepairFacts RunFacts CheckFacts.

(** A repair of a single mismatch. *)
Lemma fix_payout_mismatches_single {L} sb m w (l : L) s :
  has_keys payout_keys m = true ->
  let u := update_of (clock w (ticks s)) m in
  let r := oracle w (trace s) u in
  fix_payout_mismatches sb (VList [m]) w l s
  = (Ret (if raised r then mkCounters 0 1 else mkCounters 1 0), l,
     mkState (trace s ++ [(u, r)]) (out s ++ [payout_line m r]) (S (ticks s))).
Proof.
  intros Hm u r. unfold fix_payout_mismatches. run.
  rewrite for_cons, (fix_payout_mismatches_item_spec m w (mkCounters 0 0) s Hm).
  fold u. fold r. cbn [for_]. unfold ret.
  destruct (raised r); reflexivity.
Qed.

(** A check whose report returns nothing that counts as an issue. *)
Lemma main_check_1_nothing cfg sb w l s resp :
  oracle w (trace s) missing_report = Ret resp ->
  truthy (data resp) = false ->
  main_check_1 cfg sb w l s
  = (Ret tt, l,
     mkState (trace s ++ [(missing_report, Ret resp)])
             (out s ++ [nl ++ "[1/3] Checking for approved submissions without earnings...";
                        "  ✓ No issues found"])
             (ticks s)).
Proof.
  intros E T. unfold main_check_1, check_missing_earnings. run.
  fold missing_report. rewrite E. run. rewrite T. run.
  rewrite <- !app_assoc. reflexivity.
Qed.

Lemma main_check_2_nothing cfg sb w l s resp :
  oracle w (trace s) payout_report = Ret resp ->
  truthy (data resp) = false ->
  main_check_2 cfg sb w l s
  = (Ret tt, l,
     mkState (trace s ++ [(payout_report, Ret resp)])
             (out s ++ [nl ++ "[2/3] Checking for payout amount mismatches...";
                        "  ✓ No issues found"])
             (ticks s)).
Proof.
  intros E T. unfold main_check_2, check_payout_mismatches. run.
  fold payout_report. rewrite E. run. rewrite T. run.
  rewrite <- !app_assoc. reflexivity.
Qed.

Lemma main_check_3_nothing cfg sb w l s resp :
  oracle w (trace s) pool_report = Ret resp ->
  truthy (data resp) = false ->
  main_check_3 cfg sb w l s
  = (Ret tt, l,
     mkState (trace s ++ [(pool_report, Ret resp)])
             (out s ++ [nl ++ "[3/3] Checking for pool balance discrepancies...";
                        "  ✓ No issues found"])
             (ticks s)).
Proof.
  intros E T. unfold main_check_3, check_pool_balance_issues. run.
  fold pool_report. rewrite E. run. rewrite T. run.
  rewrite <- !app_assoc. reflexivity.
Qed.

(** Check 2 in live mode on a single well-shaped mismatch. *)
Lemma main_check_2_single cfg sb w l s resp m :
  DRY_RUN cfg = false ->
  oracle w (trace s) payout_report = Ret resp ->
  data resp = VList [m] ->
  has_keys payout_keys m = true ->
  let t1 := (trace s ++ [(payout_report, Ret resp)])%list in
  let u := update_of (clock w (ticks s)) m in
  let r := oracle w t1 u in
  exists l',
    main_check_2 cfg sb w l s
    = (Ret tt, l',
       mkState (t1 ++ [(u, r)])
               (out s ++ [nl ++ "[2/3] Checking for payout amount mismatches...";
                          "  Found 1 payout mismatches"; payout_line m r])
               (S (ticks s)))
    /\ total_issues l' = (total_issues l + 1)%nat.
Proof.
  intros Hdry E D Hm t1 u r. unfold main_check_2, check_payout_mismatches. run.
  fold payout_report. rewrite E. run. rewrite D, Hdry. run.
  rewrite (fix_payout_mismatches_single sb m w _ _ Hm). cbn [trace out ticks].
  fold t1. fold u. fold r.
  eexists. rewrite <- !app_assoc. split; [reflexivity |]. destruct (raised r); reflexivity.
Qed.

End ScenarioFacts.

(* ================================================================ *)
(** * Facts about printed text *)
(* ================================================================ *)

Module TextFacts.
Import Text Py DateTime Backend Observe.

Lemma plain_app a b : plain (a ++ b) = plain a && plain b.
Proof.
  unfold plain. induction a as [| c a IH]; simpl; [reflexivity |].
  rewrite IH. apply andb_assoc.
Qed.

Lemma plain_quiet s : plain s = true -> quiet s = true.
Proof.
  unfold plain, quiet. induction s as [| c s IH]; intros H; [reflexivity |].
  simpl in H. apply andb_true_iff in H. destruct H as [Hc Hs].
  apply negb_true_iff in Hc. apply Ascii.eqb_neq in Hc.
  cbn [contains prefix].
  destruct (ascii_dec "F" c) as [Heq | Hne]; [congruence |].
  exact (IH Hs).
Qed.

Lemma plain_uint d : plain (NilEmpty.string_of_uint d) = true.
Proof. induction d; simpl; auto. Qed.

Lemma plain_dec z : plain (dec z) = true.
Proof.
  unfold dec, NilZero.string_of_int.
  destruct (Z.to_int z) as [d | d]; unfold NilZero.string_of_uint.
  - destruct d; try reflexivity; apply (plain_uint (_ d)).
  - change (plain ("-" ++ match d with
                          | Decimal.Nil => "0"
                          | _ => NilEmpty.string_of_uint d
                          end) = true).
    rewrite plain_app. simpl.
    destruct d; try reflexivity; apply (plain_uint (_ d)).
Qed.

Lemma plain_repeat_0 n : plain (repeat_str "0" n) = true.
Proof. induction n as [| n IH]; [reflexivity | exact IH]. Qed.

Lemma plain_pad0 n z : plain (pad0 n z) = true.
Proof. unfold pad0. rewrite plain_app, plain_repeat_0, plain_dec. reflexivity. Qed.

Lemma plain_isoformat d : plain (isoformat d) = true.
Proof.
  unfold isoformat. rewrite !plain_app, !plain_pad0.
  destruct (microsecond d =? 0); [reflexivity |].
  rewrite plain_app, plain_pad0. reflexivity.
Qed.

Lemma plain_strftime d : plain (strftime_Y_m d) = true.
Proof. unfold strftime_Y_m. rewrite !plain_app, !plain_pad0. reflexivity. Qed.

Lemma quiet_lines lines :
  forallb quiet lines = true -> existsb (contains "Found") lines = false.
Proof.
  induction lines as [| line rest IH]; simpl; [reflexivity |].
  intros H. apply andb_true_iff in H. destruct H as [H1 H2].
  unfold quiet in H1. apply negb_true_iff in H1. rewrite H1. auto.
Qed.

(** The only exception date arithmetic raises. *)
Lemma minus_timedelta_raises d days hours e :
  minus_timedelta d days hours = Raise e ->
  e = OverflowError "date value out of range".
Proof.
  unfold minus_timedelta.
  destruct (_ && _); [| congruence].
  destruct (fromordinal _) as [[y m] dd]. discriminate.
Qed.

End TextFacts.

(* ================================================================ *)
(** * Runs against a backend that returns nothing *)
(* ================================================================ *)

Module EmptyFacts.
Import Text Py DateTime Backend Logic Rules Auto Observe.
Import ConsistencyFacts RunFacts ScenarioFacts HealthFacts SummaryFacts TextFacts.

Lemma empty_reply_at w h c :
  all_empty w ->
  exists resp,
    oracle w h c = Ret resp /\ data resp = VList [] /\ Health.count_or_0 resp = 0.
Proof.
  intros Hw. destruct (Hw h c) as (resp & E & D & C).
  exists resp. repeat split; auto. unfold Health.count_or_0.
  destruct C as [-> | ->]; reflexivity.
Qed.

(** Takes the reply of the next call from the empty backend. *)
Ltac next_reply Hw :=
  match goal with
  | |- context [oracle ?w ?h ?c] =>
      let resp := fresh "resp" in
      let E := fresh "E" in
      let D := fresh "D" in
      let C := fresh "C" in
      destruct (empty_reply_at w h c Hw) as (resp & E & D & C);
      rewrite E; run; rewrite ?D, ?C; run
  end.

(** Date arithmetic either gives a date or the one overflow error. *)
Ltac next_date :=
  match goal with
  | |- context [minus_timedelta ?d ?a ?b] =>
      let d1 := fresh "d" in
      let e := fresh "e" in
      let E := fresh "E" in
      destruct (minus_timedelta d a b) as [d1 | e] eqn:E;
      [| apply minus_timedelta_raises in E; subst e]; run
  end.

Ltac quiet_lines_auto :=
  cbn [forallb];
  repeat (apply andb_true_intro; split);
  first [ reflexivity
        | apply plain_quiet; rewrite ?plain_app, ?plain_isoformat, ?plain_strftime,
                               ?plain_dec; reflexivity ].

(** ** The consistency checker *)

Lemma main_summary_clean cfg sb w l s :
  Consistency.total_issues l = 0%nat ->
  Consistency.main_summary cfg sb w l s
  = (Ret 0, l,
     mkState (trace s)
             (out s ++ summary_lines l ++ [Consistency.nl ++ "✅ All checks passed!"])
             (ticks s)).
Proof.
  intros H0. unfold Consistency.main_summary. run. rewrite H0.
  change (0 <? 0)%nat with false. run.
  unfold summary_lines. rewrite H0, <- !app_assoc. reflexivity.
Qed.

Lemma consistency_run_empty cfg w :
  Consistency.SUPABASE_KEY cfg <> EmptyString ->
  all_empty w ->
  fst (Consistency.run cfg w) = 0
  /\ printed "Found" (snd (Consistency.run cfg w)) = false.
Proof.
  intros Hkey Hw. unfold Consistency.run.
  rewrite (main_connected cfg w tt Hkey). unfold checks_and_summary.
  set (sb := client_of cfg). set (s0 := banner title (Consistency.DRY_RUN cfg) w).
  rewrite bind_run.
  destruct (empty_reply_at w (trace s0) missing_report Hw) as (r1 & E1 & D1 & _).
  rewrite (main_check_1_nothing cfg sb w _ s0 r1 E1) by (rewrite D1; reflexivity).
  rewrite bind_run.
  match goal with
  | |- context [Consistency.main_check_2 cfg sb w ?l1 ?s1] =>
      destruct (empty_reply_at w (trace s1) payout_report Hw) as (r2 & E2 & D2 & _);
      rewrite (main_check_2_nothing cfg sb w l1 s1 r2 E2) by (rewrite D2; reflexivity)
  end.
  rewrite bind_run.
  match goal with
  | |- context [Consistency.main_check_3 cfg sb w ?l1 ?s1] =>
      destruct (empty_reply_at w (trace s1) pool_report Hw) as (r3 & E3 & D3 & _);
      rewrite (main_check_3_nothing cfg sb w l1 s1 r3 E3) by (rewrite D3; reflexivity)
  end.
  rewrite main_summary_clean by reflexivity.
  cbn [fst snd exit_code]. split; [reflexivity |].
  unfold printed. cbn [out]. apply quiet_lines.
  subst s0. cbn [out banner app summary_lines Consistency.total_issues
                 Consistency.total_fixed].
  destruct (Consistency.DRY_RUN cfg); quiet_lines_auto.
Qed.

(** ** The health checker *)

Lemma run_sql_health_check_empty {L} sb w (l : L) s :
  all_empty w ->
  exists s' lines,
    Health.run_sql_health_check sb w l s
    = (Ret (Health.sql_error "No data returned"), l, s')
    /\ out s' = (out s ++ lines)%list /\ forallb quiet lines = true.
Proof.
  intros Hw. unfold Health.run_sql_health_check. run. next_reply Hw.
  eexists _, [_]. repeat split.
Qed.

Lemma check_email_queue_health_empty {L} sb w (l : L) s :
  all_empty w ->
  exists r s' lines,
    Health.check_email_queue_health sb w l s = (Ret r, l, s')
    /\ out s' = (out s ++ lines)%list /\ forallb quiet lines = true
    /\ (r = dict [("pending", VInt 0); ("failed", VInt 0); ("stuck", VInt 0);
                  ("by_type", VDict [])]
        \/ r = dict [("error", VStr overflow)]).
Proof.
  intros Hw. unfold Health.check_email_queue_health. run. next_reply Hw.
  unfold Health.or_empty. run. cbn [for_]. run.
  cbn [Health.by_type Health.pending_count Health.failed_count]. run. next_date.
  - next_reply Hw. eexists _, _, [_; _]. rewrite <- !app_assoc.
    repeat split; auto.
  - eexists _, _, [_; _; _]. rewrite <- !app_assoc. repeat split; auto.
Qed.

Lemma check_monthly_graphics_empty {L} sb w (l : L) s :
  all_empty w ->
  exists r s' lines,
    Health.check_monthly_graphics sb w l s = (Ret r, l, s')
    /\ out s' = (out s ++ lines)%list /\ forallb quiet lines = true
    /\ ((exists month, r = dict [("month", VStr month); ("missing_graphics", of_nat 0);
                                 ("pending_emails", VInt 0)])
        \/ r = dict [("skipped", VBool true)]).
Proof.
  intros Hw. unfold Health.check_monthly_graphics. run. next_date.
  - next_reply Hw. unfold Health.or_empty. run. next_reply Hw.
    eexists _, _, [_; _; _]. rewrite <- !app_assoc.
    split; [reflexivity |]. split; [reflexivity |]. split; [| left; eexists; reflexivity].
    quiet_lines_auto.
  - eexists _, _, [_; _]. rewrite <- !app_assoc. repeat split; auto.
Qed.

Lemma check_edge_function_health_empty {L} sb w (l : L) s :
  all_empty w ->
  exists r s' lines,
    Health.check_edge_function_health sb w l s = (Ret r, l, s')
    /\ out s' = (out s ++ lines)%list /\ forallb quiet lines = true
    /\ (r = dict [("recent_approvals", of_nat 0); ("healthy", VBool true)]
        \/ r = dict [("error", VStr overflow)]).
Proof.
  intros Hw. unfold Health.check_edge_function_health. run. next_date.
  - next_reply Hw. unfold Health.or_empty. run. change (0 <? 0)%nat with false. run.
    eexists _, _, [_; _]. rewrite <- !app_assoc. repeat split; auto.
  - eexists _, _, [_; _]. rewrite <- !app_assoc. repeat split; auto.
Qed.

Lemma generate_summary_report_empty {L} r2 r3 r4 w (l : L) s :
  (r2 = dict [("pending", VInt 0); ("failed", VInt 0); ("stuck", VInt 0);
              ("by_type", VDict [])]
   \/ r2 = dict [("error", VStr overflow)]) ->
  ((exists month, r3 = dict [("month", VStr month); ("missing_graphics", of_nat 0);
                             ("pending_emails", VInt 0)])
   \/ r3 = dict [("skipped", VBool true)]) ->
  (r4 = dict [("recent_approvals", of_nat 0); ("healthy", VBool true)]
   \/ r4 = dict [("error", VStr overflow)]) ->
  exists s' lines,
    Health.generate_summary_report
      (VDict (health_report (Health.sql_error "No data returned") r2 r3 r4)) w l s
    = (Ret "issues_found", l, s')
    /\ trace s' = trace s
    /\ out s' = (out s ++ lines)%list /\ forallb quiet lines = true.
Proof.
  intros [-> | ->] [[month ->] | ->] [-> | ->];
    unfold Health.generate_summary_report; run; look; run; look;
    eexists _, _; (split; [reflexivity |]); cbn [trace out];
    rewrite <- ?app_assoc; repeat split.
Qed.

Lemma health_run_empty cfg dry_run w :
  Health.SUPABASE_KEY cfg <> EmptyString ->
  all_empty w ->
  fst (Health.run cfg dry_run w) = 1
  /\ printed "Found" (snd (Health.run cfg dry_run w)) = false.
Proof.
  intros Hkey Hw. apply String.eqb_neq in Hkey.
  unfold Health.run, Health.main, Health.get_client. run. rewrite Hkey.
  unfold Health.main_checks. run. fold (health_client cfg).
  set (s0 := mkState _ _ _).
  destruct (run_sql_health_check_empty (health_client cfg) w
              ([] : list (value * value)) s0 Hw) as (s1 & lines1 & E1 & O1 & Q1).
  rewrite E1. cbn [Health.set_result store].
  match goal with
  | |- context [Health.check_email_queue_health ?sb w ?l0 ?s] =>
      destruct (check_email_queue_health_empty sb w l0 s Hw)
        as (r2 & s2 & lines2 & E2 & O2 & Q2 & R2)
  end.
  rewrite E2. cbn [Health.set_result store key_eqb as_int String.eqb Ascii.eqb Bool.eqb].
  match goal with
  | |- context [Health.check_monthly_graphics ?sb w ?l0 ?s] =>
      destruct (check_monthly_graphics_empty sb w l0 s Hw)
        as (r3 & s3 & lines3 & E3 & O3 & Q3 & R3)
  end.
  rewrite E3. cbn [Health.set_result store key_eqb as_int String.eqb Ascii.eqb Bool.eqb].
  match goal with
  | |- context [Health.check_edge_function_health ?sb w ?l0 ?s] =>
      destruct (check_edge_function_health_empty sb w l0 s Hw)
        as (r4 & s4 & lines4 & E4 & O4 & Q4 & R4)
  end.
  rewrite E4. cbn [Health.set_result store key_eqb as_int String.eqb Ascii.eqb Bool.eqb].
  fold (health_report (Health.sql_error "No data returned") r2 r3 r4).
  match goal with
  | |- context [Health.generate_summary_report _ w ?l0 ?s] =>
      destruct (generate_summary_report_empty r2 r3 r4 w l0 s R2 R3 R4)
        as (s5 & lines5 & E5 & _ & O5 & Q5)
  end.
  rewrite E5. cbn [String.eqb Ascii.eqb Bool.eqb].
  assert (Hquiet : existsb (contains "Found")
                     (((out s5 ++ [Health.nl ++ Health.rule]) ++ ["HEALTH CHECK COMPLETE"])
                        ++ [Health.rule]) = false).
  { rewrite O5, O4, O3, O2, O1.
    rewrite !existsb_app, (quiet_lines _ Q1), (quiet_lines _ Q2), (quiet_lines _ Q3),
      (quiet_lines _ Q4), (quiet_lines _ Q5).
    rewrite !orb_false_r. subst s0. cbn [out start app].
    apply quiet_lines.
    destruct dry_run; quiet_lines_auto. }
  destruct dry_run; cbn [negb]; run.
  - split; [reflexivity | exact Hquiet].
  - match goal with
    | |- context [Health.main_log ?sb ?st ?rs w ?l0 ?s] =>
        destruct (HealthRunFacts.main_log_spec sb st rs w l0 s)
          as (s6 & evs & E6 & _ & _ & O6)
    end.
    rewrite E6. split; [reflexivity |]. unfold printed. cbn [snd]. rewrite O6.
    exact Hquiet.
Qed.

End EmptyFacts.

(* ================================================================ *)
(** * The log insert cannot change the exit code *)
(* ================================================================ *)

Module LoggingFacts.
Import Text Py DateTime Backend Logic Rules Auto Observe.
Import ConsistencyFacts RunFacts HealthRunFacts.

Lemma banner_same title0 dry_run w w' :
  same_but_inserts w w' -> banner title0 dry_run w = banner title0 dry_run w'.
Proof. intros [Hc _]. unfold banner. rewrite Hc. reflexivity. Qed.

Lemma three_checks_insensitive cfg sb : insensitive (three_checks cfg sb).
Proof. unfold three_checks. insensitive_auto. Qed.

Lemma main_checks_insensitive sb : insensitive (Health.main_checks sb).
Proof. insensitive_auto. Qed.

Lemma consistency_exit_insensitive cfg w w' :
  same_but_inserts w w' ->
  fst (Consistency.run cfg w) = fst (Consistency.run cfg w').
Proof.
  intros Hww. unfold Consistency.run.
  destruct (String.eqb (Consistency.SUPABASE_KEY cfg) EmptyString) eqn:Hkey.
  - apply String.eqb_eq in Hkey. rewrite !(main_not_connected cfg _ tt Hkey). reflexivity.
  - apply String.eqb_neq in Hkey. rewrite !(main_connected cfg _ tt Hkey).
    rewrite !checks_and_summary_split, !bind_run.
    rewrite (banner_same _ _ w w' Hww).
    rewrite (three_checks_insensitive cfg (client_of cfg) w w' Hww).
    destruct (three_checks cfg (client_of cfg) w' (Consistency.mkLocals 0 0 [])
                (banner title (Consistency.DRY_RUN cfg) w')) as [[[[] | e] l1] s1];
      [| reflexivity].
    destruct (main_summary_spec cfg (client_of cfg) w l1 s1) as (s2 & _ & _ & E & _).
    destruct (main_summary_spec cfg (client_of cfg) w' l1 s1) as (s2' & _ & _ & E' & _).
    rewrite E, E'. reflexivity.
Qed.

Lemma health_exit_insensitive cfg dry_run w w' :
  same_but_inserts w w' ->
  fst (Health.run cfg dry_run w) = fst (Health.run cfg dry_run w').
Proof.
  intros Hww. unfold Health.run.
  destruct (String.eqb (Health.SUPABASE_KEY cfg) EmptyString) eqn:Hkey.
  - unfold Health.main, Health.get_client. run. rewrite Hkey. reflexivity.
  - apply String.eqb_neq in Hkey.
    destruct (health_main_spec cfg dry_run w tt Hkey)
      as (r1 & r2 & r3 & r4 & s1 & s2 & s3 & evs & E1 & _ & _ & _ & _ & _ & _ & E3 & _).
    destruct (health_main_spec cfg dry_run w' tt Hkey)
      as (r1' & r2' & r3' & r4' & s1' & s2' & s3' & evs' & E1' & _ & _ & _ & _ & _ & _
          & E3' & _).
    rewrite E3, E3'. cbn [fst exit_code].
    rewrite (banner_same _ _ w w' Hww) in E1.
    rewrite (main_checks_insensitive (health_client cfg) w w' Hww) in E1.
    rewrite E1 in E1'. inversion E1'. reflexivity.
Qed.

End LoggingFacts.

(* ================================================================ *)
(** * Facts about the example backends *)
(* ================================================================ *)

Module ExampleFacts.
Import Text Py DateTime Backend Observe Examples.

Lemma silent_empty : all_empty silent.
Proof.
  intros h c. exists (mkResponse (VList []) (Some 0)). repeat split. right. reflexivity.
Qed.

Lemma silent_contract : report_contract silent.
Proof. intros h c. unfold well_shaped. destruct (report_keys c); reflexivity. Qed.


Lemma one_mismatch_missing : answers one_mismatch missing_report [].
Proof. intros h. eexists. split; reflexivity. Qed.

Lemma one_mismatch_payout : answers one_mismatch payout_report [jane_doe].
Proof. intros h. eexists. split; reflexivity. Qed.

Lemma one_mismatch_pool : answers one_mismatch pool_report [].
Proof. intros h. eexists. split; reflexivity. Qed.

Lemma one_mismatch_updates h c :
  is_update c = true -> raised (oracle one_mismatch h c) = false.
Proof. destruct c; intros H; try discriminate. reflexivity. Qed.

Lemma rpc_down_graphics h c :
  is_graphics_rpc c = true -> raised (oracle rpc_down h c) = true.
Proof. destruct c; intros H; try discriminate. reflexivity. Qed.

Lemma log_down_same : Logic.same_but_inserts one_missing log_down.
Proof.
  split; [reflexivity |]. intros h c Hc. destruct c; try reflexivity. discriminate.
Qed.

End ExampleFacts.

(* ================================================================ *)
(** * The claims of the specification *)
(* ================================================================ *)

Import Text Py DateTime Backend Logic Rules Auto Observe.




(** C2 (as amended).  In a live run of the consistency checker that has
    its credential and whose missing-earnings report returns the records
    [subs], each with a submission id, a user id, a pull-up count and a
    full name, the repair calls of the run are exactly one
    [process_submission_earnings] call per record, in order, and
    [fix_missing_earnings] returns counters with
    [fixed + failed = length subs]. *)
Theorem one_repair_call_per_missing_record :
  forall (cfg : Consistency.config) (w : world) (resp : response) (subs : list value),
    Consistency.SUPABASE_KEY cfg <> EmptyString ->
    Consistency.DRY_RUN cfg = false ->
    oracle w [] missing_report = Ret resp ->
    data resp = VList subs ->
    forallb (has_keys missing_keys) subs = true ->
    List.filter is_repair (calls (snd (Consistency.run cfg w))) = map repair_of subs
    /\ List.length (List.filter is_repair (calls (snd (Consistency.run cfg w))))
       = List.length subs
    /\ forall (L : Type) (l : L) (s : state),
         exists c s',
           Consistency.fix_missing_earnings (client_of cfg) (VList subs) w l s
           = (Ret c, l, s')
           /\ (Consistency.fixed c + Consistency.failed c = List.length subs)%nat
           /\ List.length (List.filter is_repair (calls s'))
              = (List.length (List.filter is_repair (calls s)) + List.length subs)%nat.
Proof.
  intros cfg w resp subs Hkey Hdry E D Hwf.
  assert (Hall : forall xs, forallb is_repair (map repair_of xs) = true).
  { induction xs as [| x xs IH]; simpl; auto. }
  assert (Hrun : List.filter is_repair (calls (snd (Consistency.run cfg w)))
                 = map repair_of subs).
  { unfold Consistency.run.
    rewrite (ConsistencyFacts.main_connected cfg w tt Hkey).
    unfold checks_and_summary. rewrite RunFacts.bind_run.
    destruct (RunFacts.main_check_1_live cfg (client_of cfg) w
                (Consistency.mkLocals 0 0 [])
                (banner title (Consistency.DRY_RUN cfg) w) resp subs Hdry E D Hwf)
      as (l1 & evs & lines & E1 & Hc).
    rewrite E1.
    match goal with
    | |- context [bind ?m ?k w l1 ?s1] =>
        destruct (RunFacts.after_check_1_frame cfg (client_of cfg) w l1 s1 I)
          as (o & l2 & s2 & evs2 & lines2 & E2 & _ & Ht & Hp & _)
    end.
    rewrite E2. cbn [snd]. unfold calls. simpl in Ht. rewrite Ht. simpl.
    rewrite map_app, filter_app, Hc, (RunFacts.filter_all _ _ (Hall subs)).
    rewrite (RunFacts.filter_excluded (fun c => negb (is_repair c)) is_repair evs2 Hp).
    - apply app_nil_r.
    - intros c Hn. apply negb_true_iff in Hn. exact Hn. }
  split; [exact Hrun |]. split; [rewrite Hrun; apply length_map |].
  intros L l s.
  destruct (RepairFacts.fix_missing_earnings_spec (client_of cfg) subs w l s Hwf)
    as (c & evs & lines & E1 & Hc & Hf & Hg).
  eexists c, _. split; [exact E1 |]. split.
  - rewrite Hf, Hg, RepairFacts.tally_split.
    rewrite <- (length_map fst evs), Hc. apply length_map.
  - unfold calls. cbn [trace]. rewrite map_app, filter_app, length_app, Hc.
    rewrite (RunFacts.filter_all _ _ (Hall subs)), length_map. reflexivity.
Qed.

(** C2, the claim as written fails: in this live run the report returns
    three records, the second without a full name; the loop ends at that
    record and the run issues two repair calls. *)
Lemma record_without_name_ends_the_repair_calls :
  Consistency.DRY_RUN Examples.live = false
  /\ oracle Cases.nameless [] missing_report
     = Ret (mkResponse (VList [Examples.ann; Cases.bob; Cases.cara]) None)
  /\ List.filter is_repair (calls (snd (Consistency.run Examples.live Cases.nameless)))
     = [repair_of Examples.ann; repair_of Cases.bob].
Proof. vm_compute. repeat split; reflexivity. Qed.

(** C2 at a live run whose missing-earnings report returns one record:
    one repair call, for that record. *)
Lemma one_repair_call_per_missing_record_witness :
  List.filter is_repair (calls (snd (Consistency.run Examples.live Examples.one_missing)))
  = [repair_of Examples.ann]
  /\ exists c s',
       Consistency.fix_missing_earnings (client_of Examples.live) (VList [Examples.ann])
                                        Examples.one_missing tt start
       = (Ret c, tt, s')
       /\ (Consistency.fixed c + Consistency.failed c = 1)%nat.
Proof.
  assert (Hkey : Consistency.SUPABASE_KEY Examples.live <> EmptyString) by discriminate.
  destruct (one_repair_call_per_missing_record Examples.live Examples.one_missing
              (mkResponse (VList [Examples.ann]) None) [Examples.ann]
              Hkey eq_refl eq_refl eq_refl eq_refl)
    as (H1 & _ & H3).
  split; [exact H1 |].
  destruct (H3 unit tt start) as (c & s' & E & Hc & _).
  exists c, s'. split; [exact E | exact Hc].
Defined.

(** C3. With dry-run enabled neither script issues a mutating remote
    call: no earnings repair, no row update, no row insert.  The
    consistency checker then reports a total fixed count of 0, however
    many records the reports return. *)
Theorem dry_run_issues_no_mutating_call :
  forall (cfg : Consistency.config) (hcfg : Health.config) (w : world),
    Consistency.DRY_RUN cfg = true ->
    forallb (fun c => negb (is_mutating c)) (calls (snd (Consistency.run cfg w))) = true
    /\ forallb (fun c => negb (is_mutating c)) (calls (snd (Health.run hcfg true w))) = true
    /\ (Consistency.SUPABASE_KEY cfg <> EmptyString ->
        In "Total issues fixed: 0" (out (snd (Consistency.run cfg w)))).
Proof.
  intros cfg hcfg w Hdry. split; [| split].
  - unfold Consistency.run.
    pose proof (RunFacts.frame_calls _ (Consistency.main (L := unit) cfg) w tt
                  (RunFacts.main_dry_frame cfg Hdry)) as H.
    destruct (Consistency.main cfg w tt start) as [[o l] s]. exact H.
  - unfold Health.run.
    assert (Hf : frame (L := unit) any (fun c => negb (is_mutating c))
                       (Health.main hcfg true)) by frame_auto.
    pose proof (RunFacts.frame_calls _ _ w tt Hf) as H.
    destruct (Health.main hcfg true w tt start) as [[o l] s]. exact H.
  - intros Hkey. unfold Consistency.run.
    rewrite (ConsistencyFacts.main_connected cfg w tt Hkey).
    rewrite RunFacts.checks_and_summary_split, RunFacts.bind_run.
    set (s0 := banner title (Consistency.DRY_RUN cfg) w).
    destruct (RunFacts.three_checks_dry cfg (client_of cfg) Hdry w
                (Consistency.mkLocals 0 0 []) s0 eq_refl)
      as (o & l1 & s1 & evs & lines & E & Hfix & _).
    destruct (RunFacts.three_checks_total cfg (client_of cfg) w
                (Consistency.mkLocals 0 0 []) s0) as ([] & l1' & s1' & E').
    rewrite E' in E. inversion E; subst o l1' s1'; clear E. rewrite E'.
    destruct (ConsistencyFacts.main_summary_spec cfg (client_of cfg) w l1 s1)
      as (s2 & evs2 & lines2 & E2 & _ & _ & _ & Hout).
    rewrite E2. cbn [snd]. rewrite Hout. unfold summary_lines. rewrite Hfix.
    apply in_or_app. right. simpl. auto 10.
Qed.

(** C3 at a dry run whose missing-earnings report returns one record. *)
Lemma dry_run_issues_no_mutating_call_witness :
  Consistency.DRY_RUN Examples.dry = true
  /\ forallb (fun c => negb (is_mutating c))
             (calls (snd (Consistency.run Examples.dry Examples.one_missing))) = true
  /\ forallb (fun c => negb (is_mutating c))
             (calls (snd (Health.run Examples.health true Examples.one_missing))) = true
  /\ In "Total issues fixed: 0"
        (out (snd (Consistency.run Examples.dry Examples.one_missing))).
Proof.
  destruct (dry_run_issues_no_mutating_call Examples.dry Examples.health
              Examples.one_missing eq_refl) as (H1 & H2 & H3).
  split; [reflexivity |]. split; [exact H1 |]. split; [exact H2 |].
  apply H3. discriminate.
Defined.




(** C5. In a run of the health checker that has its credential: if the
    email-queue check reports a stuck count above 0 the status is
    "issues_found"; if none of the four checks reports a concern it is
    "healthy"; the exit code is 0 exactly when the status is "healthy"
    and 1 otherwise. *)
Theorem health_status_and_exit_code :
  forall (cfg : Health.config) (dry_run : bool) (w : world),
    Health.SUPABASE_KEY cfg <> EmptyString ->
    let results := VDict (health_results cfg dry_run w) in
    exists status,
      health_status cfg dry_run w = Ret status
      /\ (0 < stuck_emails results -> status = "issues_found")
      /\ (concerns results = false -> status = "healthy")
      /\ (fst (Health.run cfg dry_run w) = 0 <-> status = "healthy")
      /\ (status <> "healthy" -> fst (Health.run cfg dry_run w) = 1).
Proof.
  intros cfg dry_run w Hkey results.
  destruct (HealthRunFacts.health_main_spec cfg dry_run w tt Hkey)
    as (r1 & r2 & r3 & r4 & s1 & s2 & s3 & evs & E1 & _ & _ & _ & _ & E2 & _ & E3 & _).
  unfold health_status, Health.run. subst results. unfold health_results.
  rewrite E1, E2, E3. cbn [fst exit_code].
  exists (status_of (VDict (health_report r1 r2 r3 r4))). unfold status_of.
  split; [reflexivity |].
  destruct (concerns (VDict (health_report r1 r2 r3 r4))) eqn:Hc.
  - repeat split; try discriminate; auto.
  - repeat split; try discriminate; auto; try congruence.
    intros Hstuck. unfold concerns in Hc.
    apply Z.ltb_lt in Hstuck. rewrite Hstuck in Hc.
    rewrite orb_true_r in Hc. simpl in Hc. discriminate.
Qed.

(** C5 on two backends.  On the busy one the email-queue check reports
    two stuck emails: the status is "issues_found" and the exit code 1.
    On the quiet one no check reports a concern: the status is "healthy"
    and the exit code 0. *)
Lemma health_status_and_exit_code_witness :
  Health.SUPABASE_KEY Examples.health <> EmptyString
  /\ (stuck_emails (VDict (health_results Examples.health false Cases.busy)) = 2
      /\ health_status Examples.health false Cases.busy = Ret "issues_found"
      /\ fst (Health.run Examples.health false Cases.busy) = 1)
  /\ (concerns (VDict (health_results Examples.health false Cases.well)) = false
      /\ health_status Examples.health false Cases.well = Ret "healthy"
      /\ fst (Health.run Examples.health false Cases.well) = 0).
Proof.
  assert (Hkey : Health.SUPABASE_KEY Examples.health <> EmptyString) by discriminate.
  assert (Hstuck : stuck_emails (VDict (health_results Examples.health false Cases.busy))
                   = 2) by (vm_compute; reflexivity).
  assert (Hcalm : concerns (VDict (health_results Examples.health false Cases.well))
                  = false) by (vm_compute; reflexivity).
  split; [exact Hkey |]. split.
  - destruct (health_status_and_exit_code Examples.health false Cases.busy Hkey)
      as (status & H1 & H2 & _ & _ & H5).
    assert (Hs : status = "issues_found").
    { apply H2. cbv zeta. rewrite Hstuck. reflexivity. }
    split; [exact Hstuck |]. split; [rewrite H1, Hs; reflexivity |].
    apply H5. rewrite Hs. discriminate.
  - destruct (health_status_and_exit_code Examples.health false Cases.well Hkey)
      as (status & H1 & _ & H3 & H4 & _).
    assert (Hs : status = "healthy") by (apply H3; exact Hcalm).
    split; [exact Hcalm |]. split; [rewrite H1, Hs; reflexivity |].
    apply H4. exact Hs.
Defined.

(** C6 (as amended).  When every remote call returns an empty result
    list and the credential is present, the consistency checker exits
    with 0 and the health checker with 1, the empty answer of the SQL
    health call being reported as an error status; neither prints
    "Found". *)
Theorem empty_backend_runs :
  forall (cfg : Consistency.config) (hcfg : Health.config) (dry_run : bool) (w : world),
    Consistency.SUPABASE_KEY cfg <> EmptyString ->
    Health.SUPABASE_KEY hcfg <> EmptyString ->
    all_empty w ->
    fst (Consistency.run cfg w) = 0
    /\ printed "Found" (snd (Consistency.run cfg w)) = false
    /\ fst (Health.run hcfg dry_run w) = 1
    /\ printed "Found" (snd (Health.run hcfg dry_run w)) = false.
Proof.
  intros cfg hcfg dry_run w Hkey Hhkey Hw.
  destruct (EmptyFacts.consistency_run_empty cfg w Hkey Hw) as (H1 & H2).
  destruct (EmptyFacts.health_run_empty hcfg dry_run w Hhkey Hw) as (H3 & H4).
  auto.
Qed.

(** C6, the claim as written fails: on a backend where every call
    returns an empty list, the health checker exits with code 1. *)
Lemma health_check_of_empty_backend_exits_1 :
  all_empty Examples.silent
  /\ fst (Health.run Examples.health false Examples.silent) = 1.
Proof.
  split; [exact ExampleFacts.silent_empty | vm_compute; reflexivity].
Qed.

(** C6 on the backend that returns nothing. *)
Lemma empty_backend_runs_witness :
  all_empty Examples.silent
  /\ fst (Consistency.run Examples.live Examples.silent) = 0
  /\ printed "Found" (snd (Consistency.run Examples.live Examples.silent)) = false
  /\ fst (Health.run Examples.health false Examples.silent) = 1
  /\ printed "Found" (snd (Health.run Examples.health false Examples.silent)) = false.
Proof.
  split; [exact ExampleFacts.silent_empty |].
  apply (empty_backend_runs Examples.live Examples.health false Examples.silent).
  - discriminate.
  - discriminate.
  - exact ExampleFacts.silent_empty.
Defined.

(** C7. A live run of the consistency checker in which the
    payout-mismatch report returns the one record
    [{payout_id: "p1", full_name: "Jane Doe", current_amount: 40,
    correct_amount: 45}], the other two reports return empty lists and
    the update is answered without an exception issues exactly one
    update, setting [amount_dollars] to 45 on the payout request with id
    "p1"; the console shows "Jane Doe $40 → $45"; the exit code is 1. *)
Theorem jane_doe_scenario :
  forall (cfg : Consistency.config) (w : world),
    Consistency.SUPABASE_KEY cfg <> EmptyString ->
    Consistency.DRY_RUN cfg = false ->
    answers w missing_report [] ->
    answers w payout_report [jane_doe] ->
    answers w pool_report [] ->
    (forall h c, is_update c = true -> raised (oracle w h c) = false) ->
    let s := snd (Consistency.run cfg w) in
    List.filter is_update (calls s)
    = [Update "payout_requests"
              [("amount_dollars", VInt 45);
               ("updated_at", VStr (isoformat (clock w 1)))]
              [Eq "id" (VStr "p1")]]
    /\ printed "Jane Doe $40 → $45" s = true
    /\ fst (Consistency.run cfg w) = 1.
Proof.
  intros cfg w Hkey Hdry Hmiss Hpay Hpool Hupd s. subst s.
  unfold Consistency.run.
  rewrite (ConsistencyFacts.main_connected cfg w tt Hkey).
  unfold checks_and_summary. rewrite RunFacts.bind_run.
  set (sb := client_of cfg). set (s0 := banner title (Consistency.DRY_RUN cfg) w).
  destruct (Hmiss (trace s0)) as (r1 & E1 & D1).
  rewrite (ScenarioFacts.main_check_1_nothing cfg sb w _ s0 r1 E1)
    by (rewrite D1; reflexivity).
  rewrite RunFacts.bind_run.
  match goal with
  | |- context [Consistency.main_check_2 cfg sb w ?l1 ?s1] =>
      destruct (Hpay (trace s1)) as (r2 & E2 & D2);
      destruct (ScenarioFacts.main_check_2_single cfg sb w l1 s1 r2 jane_doe
                  Hdry E2 D2 eq_refl) as (l2 & E2' & Hl2)
  end.
  rewrite E2'. rewrite RunFacts.bind_run.
  match goal with
  | |- context [Consistency.main_check_3 cfg sb w l2 ?s2] =>
      destruct (Hpool (trace s2)) as (r3 & E3 & D3);
      rewrite (ScenarioFacts.main_check_3_nothing cfg sb w l2 s2 r3 E3)
        by (rewrite D3; reflexivity)
  end.
  match goal with
  | |- context [Consistency.main_summary cfg sb w l2 ?s3] =>
      destruct (ConsistencyFacts.main_summary_spec cfg sb w l2 s3)
        as (s4 & evs & lines & E4 & Ht & Hp & _ & Ho)
  end.
  rewrite E4. cbn [fst snd exit_code]. cbn [trace out ticks] in Ht, Ho.
  subst s0. cbn [trace out ticks banner app] in *.
  split; [| split].
  - unfold calls. rewrite Ht.
    repeat (rewrite ?map_app, ?filter_app; cbn [map fst List.filter app]).
    change (is_update missing_report) with false.
    change (is_update payout_report) with false.
    change (is_update pool_report) with false.
    change (is_update (update_of (clock w 1) jane_doe)) with true. cbv iota.
    rewrite (RunFacts.filter_excluded is_insert is_update evs Hp).
    + reflexivity.
    + intros [] Hc; simpl in *; congruence.
  - unfold printed. rewrite Ho. apply existsb_exists.
    match goal with
    | |- context [payout_line jane_doe (oracle w ?h ?c)] =>
        pose proof (Hupd h c eq_refl) as Hr;
        exists (payout_line jane_doe (oracle w h c)); split;
        [do 9 right; left; reflexivity |];
        destruct (oracle w h c) as [resp | e]; [| discriminate]
    end.
    reflexivity.
  - rewrite Hl2. replace (0 + 1)%nat with 1%nat by reflexivity. reflexivity.
Qed.

(** C7 on the backend of the example scenario. *)
Lemma jane_doe_scenario_witness :
  answers Examples.one_mismatch payout_report [jane_doe]
  /\ List.filter is_update (calls (snd (Consistency.run Examples.live Examples.one_mismatch)))
     = [Update "payout_requests"
               [("amount_dollars", VInt 45);
                ("updated_at", VStr (isoformat (Examples.morning 1)))]
               [Eq "id" (VStr "p1")]]
  /\ printed "Jane Doe $40 → $45" (snd (Consistency.run Examples.live Examples.one_mismatch))
     = true
  /\ fst (Consistency.run Examples.live Examples.one_mismatch) = 1.
Proof.
  assert (Hkey : Consistency.SUPABASE_KEY Examples.live <> EmptyString) by discriminate.
  split; [exact ExampleFacts.one_mismatch_payout |].
  exact (jane_doe_scenario Examples.live Examples.one_mismatch Hkey eq_refl
           ExampleFacts.one_mismatch_missing ExampleFacts.one_mismatch_payout
           ExampleFacts.one_mismatch_pool ExampleFacts.one_mismatch_updates).
Defined.

(** C9 (as amended).  On mismatch records that carry a corrected amount,
    a payout id, a full name and a current amount,
    [fix_payout_mismatches] issues one update per record; it counts a
    record as fixed when its update is answered, whatever the answer
    holds, and as failed when the update raises, so the two counts add
    up to the number of records.
    [fix_missing_earnings] instead counts a record as fixed only when
    the answer carries a true [success] entry: an answer with an empty
    result counts as a fix of a payout and as a failure of an earnings
    repair. *)
Theorem payout_fix_counts_every_answered_update :
  (forall sb w ms s,
      forallb (has_keys payout_keys) ms = true ->
      exists c s' evs,
        Consistency.fix_payout_mismatches sb (VList ms) w tt s = (Ret c, tt, s')
        /\ trace s' = (trace s ++ evs)%list
        /\ List.length evs = List.length ms
        /\ forallb (fun ev => is_update (fst ev)) evs = true
        /\ Consistency.fixed c = tally (fun r => negb (raised r)) evs
        /\ Consistency.failed c = tally raised evs
        /\ (Consistency.fixed c + Consistency.failed c = List.length ms)%nat)
  /\ (forall sb w subs s,
      forallb (has_keys missing_keys) subs = true ->
      exists c s' evs,
        Consistency.fix_missing_earnings sb (VList subs) w tt s = (Ret c, tt, s')
        /\ trace s' = (trace s ++ evs)%list
        /\ map fst evs = map repair_of subs
        /\ Consistency.fixed c = tally succeeded evs
        /\ Consistency.failed c = tally (fun r => negb (succeeded r)) evs)
  /\ fst (fst (Consistency.fix_payout_mismatches (client_of Examples.live)
                 (VList [jane_doe]) Examples.silent tt start))
     = Ret (Consistency.mkCounters 1 0)
  /\ fst (fst (Consistency.fix_missing_earnings (client_of Examples.live)
                 (VList [Examples.ann]) Examples.silent tt start))
     = Ret (Consistency.mkCounters 0 1).
Proof.
  split; [| split; [| split]].
  - intros sb w ms s Hwf.
    destruct (RepairFacts.fix_payout_mismatches_spec sb ms w tt s Hwf)
      as (c & evs & E & Hlen & Hu & Hf & Hg).
    eexists c, _, evs. split; [exact E |]. cbn [trace].
    repeat split; auto.
    rewrite Hf, Hg, Nat.add_comm, RepairFacts.tally_split. exact Hlen.
  - intros sb w subs s Hwf.
    destruct (RepairFacts.fix_missing_earnings_spec sb subs w tt s Hwf)
      as (c & evs & lines & E & Hc & Hf & Hg).
    eexists c, _, evs. split; [exact E |]. cbn [trace]. repeat split; auto.
  - vm_compute. reflexivity.
  - vm_compute. reflexivity.
Qed.

(** C9, the claim as written fails: this record has its name but no
    current amount.  Its update is answered, no call raises, and the
    record is counted as fixed and as failed: one record, and the counts
    add up to 2. *)
Lemma answered_update_is_counted_as_failed :
  exists s',
    Consistency.fix_payout_mismatches (client_of Examples.live) (VList [Cases.joe])
                                      Cases.half_mismatch tt start
    = (Ret (Consistency.mkCounters 1 1), tt, s')
    /\ List.length (trace s') = 1%nat
    /\ forallb (fun ev => is_update (fst ev) && negb (raised (snd ev))) (trace s') = true.
Proof. eexists. vm_compute. repeat split; reflexivity. Qed.

(** C9 on a backend on which every update fails. *)
Lemma payout_fix_counts_every_answered_update_witness :
  has_keys payout_keys jane_doe = true
  /\ exists c s' evs,
       Consistency.fix_payout_mismatches (client_of Examples.live) (VList [jane_doe])
                                         Examples.read_only tt start
       = (Ret c, tt, s')
       /\ trace s' = evs
       /\ Consistency.fixed c = tally (fun r => negb (raised r)) evs
       /\ Consistency.failed c = tally raised evs
       /\ (Consistency.fixed c + Consistency.failed c = 1)%nat.
Proof.
  split; [reflexivity |].
  pose proof payout_fix_counts_every_answered_update as (H1 & _).
  destruct (H1 (client_of Examples.live) Examples.read_only [jane_doe] start eq_refl)
    as (c & s' & evs & E & Ht & _ & _ & Hf & Hg & Hsum).
  exists c, s', evs. split; [exact E |]. split; [exact Ht |].
  split; [exact Hf |]. split; [exact Hg | exact Hsum].
Defined.

(** C10. In the health checker an exception in the email-queue check
    makes it return [{"error": text}] and one in the monthly-graphics
    check makes it return [{"skipped": True}]; neither result adds a
    concern, so with them the status depends on the SQL status and the
    edge-function error alone and can be "healthy".  In every run with
    a credential the status is "issues_found" exactly when the SQL
    status is not "healthy", an email is stuck, more than 10 emails
    failed, a graphic is missing, or the edge-function check has an
    error. *)
Theorem failed_checks_raise_no_concern :
  (forall sb w s e,
      oracle w (trace s) email_query = Raise e ->
      exists s',
        Health.check_email_queue_health sb w tt s
        = (Ret (dict [("error", VStr (exn_str e))]), tt, s'))
  /\ (forall sb w s,
      (forall h c, is_graphics_rpc c = true -> raised (oracle w h c) = true) ->
      exists s',
        Health.check_monthly_graphics sb w tt s
        = (Ret (dict [("skipped", VBool true)]), tt, s'))
  /\ (forall sql edge msg,
      let results := VDict (health_report sql (dict [("error", VStr msg)])
                                          (dict [("skipped", VBool true)]) edge) in
      concerns results = sql_unhealthy results || edge_error results)
  /\ (forall cfg dry_run w,
      Health.SUPABASE_KEY cfg <> EmptyString ->
      health_status cfg dry_run w
      = Ret (if concerns (VDict (health_results cfg dry_run w))
             then "issues_found" else "healthy"))
  /\ (entry "email_queue" (VDict (health_results Examples.health false Examples.flaky))
      = dict [("error", VStr "connection reset")]
      /\ entry "monthly_graphics"
               (VDict (health_results Examples.health false Examples.flaky))
         = dict [("skipped", VBool true)]
      /\ health_status Examples.health false Examples.flaky = Ret "healthy"
      /\ fst (Health.run Examples.health false Examples.flaky) = 0).
Proof.
  split; [| split; [| split; [| split]]].
  - intros sb w s e E. exact (FailureFacts.check_email_queue_health_raises sb w tt s e E).
  - intros sb w s Hw. exact (FailureFacts.check_monthly_graphics_skipped sb w tt s Hw).
  - intros sql edge msg results. subst results.
    unfold concerns, stuck_emails, failed_emails, missing_graphics.
    change (entry "stuck" _) with VNone.
    change (entry "failed" _) with VNone.
    change (entry "missing_graphics" _) with VNone.
    cbn [int_of as_int Z.ltb Z.compare]. rewrite !orb_false_r. reflexivity.
  - intros cfg dry_run w Hkey.
    destruct (HealthRunFacts.health_main_spec cfg dry_run w tt Hkey)
      as (r1 & r2 & r3 & r4 & s1 & s2 & s3 & evs & E1 & _ & _ & _ & _ & E2 & _).
    unfold health_status, health_results. rewrite E1, E2. reflexivity.
  - repeat split; vm_compute; reflexivity.
Qed.

(** C10 on a backend on which every remote procedure raises. *)
Lemma failed_checks_raise_no_concern_witness :
  (exists s',
      Health.check_monthly_graphics (health_client Examples.health) Examples.rpc_down
                                    tt start
      = (Ret (dict [("skipped", VBool true)]), tt, s'))
  /\ health_status Examples.health false Examples.rpc_down
     = Ret (if concerns (VDict (health_results Examples.health false Examples.rpc_down))
            then "issues_found" else "healthy").
Proof.
  pose proof failed_checks_raise_no_concern as (_ & H2 & _ & H4 & _).
  split.
  - apply H2. exact ExampleFacts.rpc_down_graphics.
  - apply H4. discriminate.
Defined.

(* ================================================================ *)
(** * Further facts about the consistency checker *)
(* ================================================================ *)

Module DryRunFacts.
Import Text Py DateTime Backend Logic Rules Auto Observe Consistency.
Import ConsistencyFacts RepairFacts RunFacts CheckFacts.

(** Events of a kind that no call has: there are none. *)
Lemma no_events (evs : list (call * outcome response)) :
  forallb (fun ev => (fun _ : call => false) (fst ev)) evs = true -> evs = [].
Proof. destruct evs as [| ev rest]; [reflexivity | discriminate]. Qed.

Ltac one_report :=
  eexists _, _; split; [reflexivity |]; cbn [trace];
  rewrite <- ?app_assoc; reflexivity.

Ltac one_pool_report :=
  eexists _, _; split; [reflexivity |]; cbn [trace];
  rewrite <- ?app_assoc; split; reflexivity.

(** In a dry run check 1 sends its report and nothing else. *)
Lemma main_check_1_dry cfg sb w l s :
  DRY_RUN cfg = true ->
  exists l' s',
    main_check_1 cfg sb w l s = (Ret tt, l', s')
    /\ trace s' = (trace s ++ [(missing_report, oracle w (trace s) missing_report)])%list.
Proof.
  intros Hdry. unfold main_check_1, check_missing_earnings. run. fold missing_report.
  rewrite Hdry. cbn [negb].
  destruct (oracle w (trace s) missing_report) as [resp | e]; [| one_report].
  destruct (truthy (data resp)) eqn:T; run; rewrite ?T; run; [| one_report].
  destruct (len (data resp)) as [n | e]; one_report.
Qed.

Lemma main_check_2_dry cfg sb w l s :
  DRY_RUN cfg = true ->
  exists l' s',
    main_check_2 cfg sb w l s = (Ret tt, l', s')
    /\ trace s' = (trace s ++ [(payout_report, oracle w (trace s) payout_report)])%list.
Proof.
  intros Hdry. unfold main_check_2, check_payout_mismatches. run. fold payout_report.
  rewrite Hdry. cbn [negb].
  destruct (oracle w (trace s) payout_report) as [resp | e]; [| one_report].
  destruct (truthy (data resp)) eqn:T; run; rewrite ?T; run; [| one_report].
  destruct (len (data resp)) as [n | e]; one_report.
Qed.

(** Check 3 sends its report and nothing else, in either mode, and
    leaves the count of fixes alone. *)
Lemma main_check_3_one_call cfg sb w l s :
  exists l' s',
    main_check_3 cfg sb w l s = (Ret tt, l', s')
    /\ trace s' = (trace s ++ [(pool_report, oracle w (trace s) pool_report)])%list
    /\ total_fixed l' = total_fixed l.
Proof.
  unfold main_check_3, check_pool_balance_issues. run. fold pool_report.
  destruct (oracle w (trace s) pool_report) as [resp | e]; [| one_pool_report].
  destruct (truthy (data resp)) eqn:T; run; rewrite ?T; run; [| one_pool_report].
  destruct (len (data resp)) as [n | e]; [| one_pool_report].
  destruct (iter (data resp)) as [items | e]; [| one_pool_report].
  framed (for_ (L := main_locals) items print_pool_issue)
         (fun Inv => print_pool_issues_frame Inv (fun _ => false) items).
  apply no_events in Hp. rewrite Hp, app_nil_r in Ht.
  destruct o as [[] | e]; eexists _, _; (split; [reflexivity |]);
    cbn [trace]; rewrite Ht, <- ?app_assoc; split; reflexivity.
Qed.

End DryRunFacts.

Module CountingFacts.
Import Text Py DateTime Backend Logic Rules Auto Observe Consistency.
Import ConsistencyFacts RepairFacts RunFacts CheckFacts.

(** Checks 1 and 2 add the length of the reported list to the issue
    count before they repair anything. *)
Lemma main_check_1_counts_first cfg sb w l s resp xs :
  oracle w (trace s) missing_report = Ret resp ->
  data resp = VList xs ->
  exists l' s',
    main_check_1 cfg sb w l s = (Ret tt, l', s')
    /\ total_issues l' = (total_issues l + List.length xs)%nat.
Proof.
  intros E D. unfold main_check_1, check_missing_earnings. run.
  fold missing_report. rewrite E, D. run.
  destruct xs as [| x xs]; run.
  - eexists _, _. split; [reflexivity |]. simpl. lia.
  - destruct (DRY_RUN cfg); run.
    + eexists _, _. split; reflexivity.
    + framed (fix_missing_earnings (L := main_locals) sb (VList (x :: xs)))
             (fun Inv => fix_missing_earnings_frame (L := main_locals) Inv
                (fun _ => true) sb (VList (x :: xs)) (fun _ _ _ => eq_refl)).
      destruct o as [c | e]; eexists _, _; split; reflexivity.
Qed.

Lemma main_check_2_counts_first cfg sb w l s resp xs :
  oracle w (trace s) payout_report = Ret resp ->
  data resp = VList xs ->
  exists l' s',
    main_check_2 cfg sb w l s = (Ret tt, l', s')
    /\ total_issues l' = (total_issues l + List.length xs)%nat.
Proof.
  intros E D. unfold main_check_2, check_payout_mismatches. run.
  fold payout_report. rewrite E, D. run.
  destruct xs as [| x xs]; run.
  - eexists _, _. split; [reflexivity |]. simpl. lia.
  - destruct (DRY_RUN cfg); run.
    + eexists _, _. split; reflexivity.
    + framed (fix_payout_mismatches (L := main_locals) sb (VList (x :: xs)))
             (fun Inv => fix_payout_mismatches_frame (L := main_locals) Inv
                (fun _ => true) sb (VList (x :: xs)) (fun _ _ _ => eq_refl)).
      destruct o as [c | e]; eexists _, _; split; reflexivity.
Qed.

(** A pool record that lacks a field makes its line fail. *)
Lemma print_pool_issue_fails p w l s :
  has_keys pool_keys p = false ->
  exists e, print_pool_issue p w l s = (Raise e, l, s).
Proof.
  intros H. unfold print_pool_issue. run.
  destruct p as [| b | z | t | xs | kvs]; try (eexists; reflexivity).
  unfold has_keys, pool_keys, has_key in H. cbn [forallb] in H. cbn [getitem].
  destruct (lookup (VStr "week_start") kvs); [| eexists; reflexivity].
  destruct (lookup (VStr "week_end") kvs); [| eexists; reflexivity].
  destruct (lookup (VStr "remaining") kvs); [| eexists; reflexivity].
  destruct (lookup (VStr "calculated") kvs); [discriminate | eexists; reflexivity].
Qed.

Lemma print_pool_issues_fail xs w l :
  forallb (has_keys pool_keys) xs = false ->
  forall s, exists e s',
    for_ xs print_pool_issue w l s = (Raise e, l, s') /\ trace s' = trace s.
Proof.
  induction xs as [| p rest IH]; intros H s; [discriminate |].
  rewrite for_cons. cbn [forallb] in H.
  destruct (has_keys pool_keys p) eqn:Hp.
  - destruct (print_pool_issue_ok p w l s Hp) as (line & E). rewrite E.
    destruct (IH H (mkState (trace s) (out s ++ [line]) (ticks s))) as (e & s' & E2 & Ht).
    exists e, s'. split; [exact E2 | exact Ht].
  - destruct (print_pool_issue_fails p w l s Hp) as (e & E). rewrite E.
    exists e, s. split; reflexivity.
Qed.

(** Check 3 counts the pool issues only after printing them. *)
Lemma main_check_3_malformed cfg sb w l s resp xs :
  oracle w (trace s) pool_report = Ret resp ->
  data resp = VList xs ->
  forallb (has_keys pool_keys) xs = false ->
  exists e s',
    main_check_3 cfg sb w l s
    = (Ret tt, set_detail "pool_balance_error" (VStr (exn_str e)) l, s')
    /\ trace s' = (trace s ++ [(pool_report, Ret resp)])%list
    /\ In ("  ✗ Check failed: " ++ exn_str e) (out s').
Proof.
  intros E D H. unfold main_check_3, check_pool_balance_issues. run.
  fold pool_report. rewrite E, D. run.
  destruct xs as [| x xs]; [discriminate |]. run.
  match goal with
  | |- context [for_ (x :: xs) print_pool_issue w ?l0 ?s0] =>
      destruct (print_pool_issues_fail (x :: xs) w l0 H s0) as (e & s' & E2 & Ht)
  end.
  rewrite E2. exists e. eexists. split; [reflexivity |]. cbn [trace out] in *.
  split; [exact Ht |]. apply in_or_app. right. left. reflexivity.
Qed.

End CountingFacts.

Module NamelessFacts.
Import Text Py DateTime Backend Logic Rules Auto Observe Detail Consistency.
Import ConsistencyFacts RepairFacts RunFacts CheckFacts.

Lemma for_app {L A} (xs ys : list A) (body : A -> M L unit) w l s :
  for_ (xs ++ ys) body w l s
  = match for_ xs body w l s with
    | (Ret _, l', s') => for_ ys body w l' s'
    | (Raise e, l', s') => (Raise e, l', s')
    end.
Proof.
  revert l s. induction xs as [| x rest IH]; intros l s; [reflexivity |].
  cbn [app]. rewrite !for_cons.
  destruct (body x w l s) as [[[[] | e] l1] s1]; [apply IH | reflexivity].
Qed.

Lemma nameless_getitem sub :
  has_keys param_keys sub = true ->
  has_keys ["full_name"] sub = false ->
  getitem sub "full_name" = Raise (KeyError "full_name").
Proof.
  destruct sub as [| b | z | t | xs | kvs]; try discriminate.
  intros _ H. unfold has_keys, has_key in H. cbn [forallb] in H. cbn [getitem].
  destruct (lookup (VStr "full_name") kvs); [discriminate | reflexivity].
Qed.

(** A record that carries the parameters of the repair but no
    [full_name]: the repair is called, and the line that reports its
    outcome fails, in the handler too. *)
Lemma fix_missing_earnings_item_nameless sub w c s :
  has_keys param_keys sub = true ->
  has_keys ["full_name"] sub = false ->
  exists c',
    fix_missing_earnings_item sub w c s
    = (Raise (KeyError "full_name"), c',
       mkState (trace s ++ [(repair_of sub, oracle w (trace s) (repair_of sub))])
               (out s) (ticks s)).
Proof.
  intros Hk Hn. unfold fix_missing_earnings_item. run.
  rewrite !(has_keys_getitem param_keys sub) by (simpl; auto).
  rewrite (nameless_getitem sub Hk Hn).
  fold (repair_of sub).
  destruct (oracle w (trace s) (repair_of sub)) as [resp | e];
    [| eexists; reflexivity].
  destruct (truthy (data resp)) eqn:T; [| rewrite T; eexists; reflexivity].
  destruct (get (data resp) "success" VNone) as [flag | e]; [| eexists; reflexivity].
  destruct (truthy flag); eexists; reflexivity.
Qed.

Lemma fix_missing_earnings_nameless {L} sb pre sub rest w (l : L) s :
  forallb (has_keys missing_keys) pre = true ->
  has_keys param_keys sub = true ->
  has_keys ["full_name"] sub = false ->
  exists evs lines,
    fix_missing_earnings sb (VList (pre ++ sub :: rest)) w l s
    = (Raise (KeyError "full_name"), l,
       mkState (trace s ++ evs) (out s ++ lines) (ticks s))
    /\ map fst evs = map repair_of (pre ++ [sub]).
Proof.
  intros Hpre Hk Hn. unfold fix_missing_earnings. run.
  rewrite for_app.
  destruct (fix_missing_earnings_loop pre Hpre w (mkCounters 0 0) s)
    as (c1 & evs & lines & E & Hc & _).
  rewrite E, for_cons.
  match goal with
  | |- context [fix_missing_earnings_item sub w c1 ?s1] =>
      destruct (fix_missing_earnings_item_nameless sub w c1 s1 Hk Hn) as (c2 & E2)
  end.
  rewrite E2. cbn [trace out ticks].
  eexists (evs ++ [_])%list, lines. rewrite <- app_assoc. split; [reflexivity |].
  rewrite !map_app, Hc. reflexivity.
Qed.

(** ** Entries of a dictionary with string keys *)

Lemma key_eqb_str k a : key_eqb k (VStr a) = true -> k = VStr a.
Proof.
  destruct k as [| b | z | t | xs | kvs]; simpl; try discriminate.
  intros H. apply String.eqb_eq in H. congruence.
Qed.

Lemma lookup_store_same a x kvs : lookup (VStr a) (store (VStr a) x kvs) = Some x.
Proof.
  induction kvs as [| [k y] rest IH]; simpl.
  - rewrite String.eqb_refl. reflexivity.
  - destruct (key_eqb k (VStr a)) eqn:K; simpl; rewrite K; auto.
Qed.

Lemma lookup_store_other a b x kvs :
  a <> b -> lookup (VStr b) (store (VStr a) x kvs) = lookup (VStr b) kvs.
Proof.
  intros Hab. induction kvs as [| [k y] rest IH]; simpl.
  - apply String.eqb_neq in Hab. rewrite Hab. reflexivity.
  - destruct (key_eqb k (VStr a)) eqn:K; simpl.
    + apply key_eqb_str in K. subst k. simpl.
      apply String.eqb_neq in Hab. rewrite Hab. reflexivity.
    + destruct (key_eqb k (VStr b)); auto.
Qed.

(** In [main] the failure ends check 1: the issues stay counted, no fix is. *)
Lemma main_check_1_nameless cfg sb w l s resp pre sub rest :
  DRY_RUN cfg = false ->
  oracle w (trace s) missing_report = Ret resp ->
  data resp = VList (pre ++ sub :: rest) ->
  forallb (has_keys missing_keys) pre = true ->
  has_keys param_keys sub = true ->
  has_keys ["full_name"] sub = false ->
  exists l' s' evs,
    main_check_1 cfg sb w l s = (Ret tt, l', s')
    /\ trace s' = (trace s ++ (missing_report, Ret resp) :: evs)%list
    /\ map fst evs = map repair_of (pre ++ [sub])
    /\ total_issues l' = (total_issues l + List.length (pre ++ sub :: rest))%nat
    /\ total_fixed l' = total_fixed l
    /\ lookup (VStr "missing_earnings_error") (details l') = Some (VStr "'full_name'")
    /\ lookup (VStr "earnings_fixed") (details l')
       = lookup (VStr "earnings_fixed") (details l).
Proof.
  intros Hdry E D Hpre Hk Hn. unfold main_check_1, check_missing_earnings. run.
  fold missing_report. rewrite E, D, Hdry. run.
  remember (pre ++ sub :: rest)%list as xs eqn:Hxs.
  destruct xs as [| x xs']; [destruct pre; discriminate |]. run.
  rewrite Hxs.
  match goal with
  | |- context [fix_missing_earnings sb _ w ?l0 ?s0] =>
      destruct (fix_missing_earnings_nameless sb pre sub rest w l0 s0 Hpre Hk Hn)
        as (evs & lines & E2 & Hc)
  end.
  rewrite E2. eexists _, _, evs. split; [reflexivity |].
  cbn [trace out ticks total_issues total_fixed details set_detail add_issues].
  assert (Hlen : List.length (pre ++ sub :: rest) = S (List.length xs'))
    by (rewrite <- Hxs; reflexivity).
  rewrite <- !app_assoc. split; [reflexivity |]. split; [exact Hc |].
  split; [simpl; lia |]. split; [reflexivity |].
  split; [apply lookup_store_same |].
  rewrite !lookup_store_other by discriminate. reflexivity.
Qed.

End NamelessFacts.

Module BoundFacts.
Import Text Py DateTime Backend Logic Rules Auto Observe Detail Consistency.
Import ConsistencyFacts RepairFacts RunFacts CheckFacts.

Ltac crunch :=
  repeat (run;
          match goal with
          | |- context [getitem ?v ?k] => destruct (getitem v k) eqn:?
          | |- context [get ?v ?k ?d] => destruct (get v k d) eqn:?
          | |- context [oracle ?w ?h ?c] => destruct (oracle w h c) eqn:?
          | |- context [truthy ?v] => destruct (truthy v) eqn:?
          end).

(** [.get] fails on what is no dictionary, whatever the key. *)
Lemma get_never_both v k d x k' d' e :
  get v k d = Ret x -> get v k' d' = Raise e -> False.
Proof.
  destruct v as [| b | z | t | xs | kvs]; simpl; try discriminate.
  intros _. destruct (lookup (VStr k') kvs); discriminate.
Qed.

Ltac absurd_get :=
  match goal with
  | H1 : get ?v _ _ = Ret _, H2 : get ?v _ _ = Raise _ |- _ =>
      exfalso; exact (get_never_both _ _ _ _ _ _ _ H1 H2)
  end.

(** A record that is handled without an exception moves exactly one
    of the two counters, whatever the record holds. *)
Lemma fix_missing_earnings_item_one sub w c s :
  returns_with (fix_missing_earnings_item sub) w c s
    (fun c' => (fixed c' + failed c' = fixed c + failed c + 1)%nat).
Proof.
  unfold returns_with, fix_missing_earnings_item.
  crunch; try exact I; try discriminate; try absurd_get;
    cbn [fixed failed incr_fixed incr_failed]; lia.
Qed.

(** A mismatch adds at most one fix and at most one failure. *)
Lemma fix_payout_mismatches_item_one m w c s :
  returns_with (fix_payout_mismatches_item m) w c s
    (fun c' => (fixed c' <= fixed c + 1)%nat /\ (failed c' <= failed c + 1)%nat).
Proof.
  unfold returns_with, fix_payout_mismatches_item.
  crunch; try exact I; try discriminate; cbn [fixed failed incr_fixed incr_failed]; lia.
Qed.

Lemma for_each_one (item : value -> M counters unit) :
  (forall x w c s,
      returns_with (item x) w c s
        (fun c' => (fixed c' + failed c' = fixed c + failed c + 1)%nat)) ->
  forall xs w c s,
    returns_with (for_ xs item) w c s
      (fun c' => (fixed c' + failed c' = fixed c + failed c + List.length xs)%nat).
Proof.
  intros Hitem xs w. induction xs as [| x rest IH]; intros c s.
  - unfold returns_with. simpl. unfold ret. lia.
  - unfold returns_with in *. rewrite for_cons.
    specialize (Hitem x w c s).
    destruct (item x w c s) as [[[[] | e] c1] s1]; [| exact I].
    specialize (IH c1 s1).
    destruct (for_ rest item w c1 s1) as [[[[] | e] c2] s2]; [| exact I].
    simpl. lia.
Qed.

Lemma for_each_at_most_one (item : value -> M counters unit) :
  (forall x w c s,
      returns_with (item x) w c s
        (fun c' => (fixed c' <= fixed c + 1)%nat /\ (failed c' <= failed c + 1)%nat)) ->
  forall xs w c s,
    returns_with (for_ xs item) w c s
      (fun c' => (fixed c' <= fixed c + List.length xs)%nat
                 /\ (failed c' <= failed c + List.length xs)%nat).
Proof.
  intros Hitem xs w. induction xs as [| x rest IH]; intros c s.
  - unfold returns_with. simpl. unfold ret. lia.
  - unfold returns_with in *. rewrite for_cons.
    specialize (Hitem x w c s).
    destruct (item x w c s) as [[[[] | e] c1] s1]; [| exact I].
    specialize (IH c1 s1).
    destruct (for_ rest item w c1 s1) as [[[[] | e] c2] s2]; [| exact I].
    simpl. lia.
Qed.

Lemma len_iter v n items : len v = Ret n -> iter v = Ret items -> List.length items = n.
Proof.
  destruct v as [| b | z | t | xs | kvs]; simpl; intros H1 H2; try discriminate;
    inversion H1; inversion H2; subst; rewrite ?length_map; reflexivity.
Qed.

(** The earnings repair, when it returns, returns counters that add up
    to the number of records, and leaves the caller's locals alone. *)
Lemma fix_missing_earnings_bound {L} sb v w (l : L) s :
  exists o s',
    fix_missing_earnings sb v w l s = (o, l, s')
    /\ match o with
       | Ret c => forall n, len v = Ret n -> (fixed c + failed c = n)%nat
       | Raise _ => True
       end.
Proof.
  unfold fix_missing_earnings. run.
  destruct (iter v) as [items | e] eqn:Hi; [| eexists _, _; split; [reflexivity | exact I]].
  pose proof (for_each_one _ fix_missing_earnings_item_one items w (mkCounters 0 0) s) as H.
  unfold returns_with in H.
  destruct (for_ items fix_missing_earnings_item w (mkCounters 0 0) s)
    as [[[[] | e] c1] s1]; eexists _, _; (split; [reflexivity |]); [| exact I].
  intros n Hn. rewrite (len_iter v n items Hn Hi) in H. simpl in H. exact H.
Qed.

(** The payout repair fixes at most as many records as it is given. *)
Lemma fix_payout_mismatches_bound {L} sb v w (l : L) s :
  exists o s',
    fix_payout_mismatches sb v w l s = (o, l, s')
    /\ match o with
       | Ret c => forall n, len v = Ret n -> (fixed c <= n)%nat /\ (failed c <= n)%nat
       | Raise _ => True
       end.
Proof.
  unfold fix_payout_mismatches. run.
  destruct (iter v) as [items | e] eqn:Hi; [| eexists _, _; split; [reflexivity | exact I]].
  pose proof (for_each_at_most_one _ fix_payout_mismatches_item_one items w
                (mkCounters 0 0) s) as H.
  unfold returns_with in H.
  destruct (for_ items fix_payout_mismatches_item w (mkCounters 0 0) s)
    as [[[[] | e] c1] s1]; eexists _, _; (split; [reflexivity |]); [| exact I].
  intros n Hn. rewrite (len_iter v n items Hn Hi) in H. simpl in H. exact H.
Qed.

(** ** The fixes never outnumber the issues *)

Ltac bounded_done :=
  eexists _, _; split; [reflexivity |]; unfold bounded in *;
  cbn [total_issues total_fixed add_issues add_fixed set_detail]; try lia.

Lemma main_check_1_bounded cfg sb w l s :
  bounded l ->
  exists l' s', main_check_1 cfg sb w l s = (Ret tt, l', s') /\ bounded l'.
Proof.
  intros Hb. unfold main_check_1, check_missing_earnings. run.
  destruct (oracle w (trace s) _) as [resp | e]; [| bounded_done].
  destruct (truthy (data resp)) eqn:T; run; rewrite ?T; run; [| bounded_done].
  destruct (len (data resp)) as [n | e] eqn:Hn; [| bounded_done].
  destruct (DRY_RUN cfg); run; [bounded_done |].
  match goal with
  | |- context [fix_missing_earnings sb ?v w ?l0 ?s0] =>
      destruct (fix_missing_earnings_bound sb v w l0 s0) as (o & s1 & E & Ho)
  end.
  rewrite E. destruct o as [c | e]; [specialize (Ho n Hn) |]; bounded_done.
Qed.

Lemma main_check_2_bounded cfg sb w l s :
  bounded l ->
  exists l' s', main_check_2 cfg sb w l s = (Ret tt, l', s') /\ bounded l'.
Proof.
  intros Hb. unfold main_check_2, check_payout_mismatches. run.
  destruct (oracle w (trace s) _) as [resp | e]; [| bounded_done].
  destruct (truthy (data resp)) eqn:T; run; rewrite ?T; run; [| bounded_done].
  destruct (len (data resp)) as [n | e] eqn:Hn; [| bounded_done].
  destruct (DRY_RUN cfg); run; [bounded_done |].
  match goal with
  | |- context [fix_payout_mismatches sb ?v w ?l0 ?s0] =>
      destruct (fix_payout_mismatches_bound sb v w l0 s0) as (o & s1 & E & Ho)
  end.
  rewrite E. destruct o as [c | e]; [specialize (Ho n Hn) |]; bounded_done.
Qed.

Lemma main_check_3_bounded cfg sb w l s :
  bounded l ->
  exists l' s', main_check_3 cfg sb w l s = (Ret tt, l', s') /\ bounded l'.
Proof.
  intros Hb. unfold main_check_3, check_pool_balance_issues. run.
  destruct (oracle w (trace s) _) as [resp | e]; [| bounded_done].
  destruct (truthy (data resp)) eqn:T; run; rewrite ?T; run; [| bounded_done].
  destruct (len (data resp)) as [n | e] eqn:Hn; [| bounded_done].
  destruct (iter (data resp)) as [items | e]; [| bounded_done].
  framed (for_ (L := main_locals) items print_pool_issue)
         (fun Inv => print_pool_issues_frame Inv (fun _ => true) items).
  destruct o as [[] | e]; bounded_done.
Qed.

Lemma three_checks_bounded cfg sb w s :
  exists l' s',
    three_checks cfg sb w (mkLocals 0 0 []) s = (Ret tt, l', s') /\ bounded l'.
Proof.
  unfold three_checks. rewrite bind_run.
  destruct (main_check_1_bounded cfg sb w (mkLocals 0 0 []) s) as (l1 & s1 & E1 & B1).
  { unfold bounded. simpl. lia. }
  rewrite E1, bind_run.
  destruct (main_check_2_bounded cfg sb w l1 s1 B1) as (l2 & s2 & E2 & B2).
  rewrite E2. apply main_check_3_bounded. exact B2.
Qed.

End BoundFacts.

Module LogFacts.
Import Text Py DateTime Backend Logic Rules Auto Observe Detail Consistency.
Import ConsistencyFacts RepairFacts RunFacts CheckFacts BoundFacts NamelessFacts.

(** ** The details always serialise *)

Lemma plain_entry_dumps kv :
  plain_entry kv = true ->
  exists text,
    match kv with
    | (k, x) =>
        match json_key k with
        | Raise e => Raise e
        | Ret ks => match json_dumps x with
                    | Raise e => Raise e
                    | Ret xs => Ret (ks ++ ": " ++ xs)
                    end
        end
    end = Ret text.
Proof.
  destruct kv as [[| b | z | t | xs | kvs] [| b' | z' | t' | xs' | kvs']];
    try discriminate; intros _; eexists; reflexivity.
Qed.

Lemma plain_entries_dump kvs :
  forallb plain_entry kvs = true ->
  exists text, json_dumps (VDict kvs) = Ret text.
Proof.
  intros H. cbn [json_dumps].
  match goal with
  | |- context [traverse ?f kvs] =>
      assert (Ht : exists parts, traverse f kvs = Ret parts)
  end.
  { induction kvs as [| kv rest IH]; [eexists; reflexivity |].
    cbn [forallb] in H. apply andb_true_iff in H. destruct H as [H1 H2].
    destruct (plain_entry_dumps kv H1) as (text & E).
    destruct (IH H2) as (parts & E2).
    cbn [traverse]. destruct kv as [k x]. rewrite E, E2. eexists. reflexivity. }
  destruct Ht as (parts & E). rewrite E. eexists. reflexivity.
Qed.

Lemma plain_store a x kvs :
  plain_entry (VStr a, x) = true ->
  forallb plain_entry kvs = true ->
  forallb plain_entry (store (VStr a) x kvs) = true.
Proof.
  intros Hx. induction kvs as [| [k y] rest IH]; intros H.
  - cbn [store forallb]. rewrite Hx. reflexivity.
  - cbn [forallb] in H. apply andb_true_iff in H. destruct H as [H1 H2].
    cbn [store]. destruct (key_eqb k (VStr a)) eqn:K.
    + apply key_eqb_str in K. subst k. cbn [forallb]. rewrite Hx, H2. reflexivity.
    + cbn [forallb]. rewrite H1, (IH H2). reflexivity.
Qed.

Ltac plain_side :=
  unfold plain_details; intros;
  cbn [details set_detail add_issues add_fixed] in *;
  first [ assumption | apply plain_store; [reflexivity | assumption] ].

Ltac plain_frame :=
  autounfold with prog; cbv zeta;
  repeat first [ frame_step | apply frame_assign; plain_side ].

Lemma three_checks_plain cfg sb :
  frame plain_details (fun _ => true) (three_checks cfg sb).
Proof. unfold three_checks. plain_frame. Qed.

Lemma checked_plain cfg w : plain_details (checked cfg w).
Proof.
  unfold checked.
  destruct (three_checks_plain cfg (client_of cfg) w (mkLocals 0 0 [])
              (banner title (DRY_RUN cfg) w) eq_refl)
    as (o & l1 & s1 & evs & lines & E & Hl & _).
  rewrite E. exact Hl.
Qed.

Lemma checked_bounded cfg w : bounded (checked cfg w).
Proof.
  unfold checked.
  destruct (three_checks_bounded cfg (client_of cfg) w (banner title (DRY_RUN cfg) w))
    as (l1 & s1 & E & Hb).
  rewrite E. exact Hb.
Qed.

(** ** What [log_check_result] does *)

Lemma log_check_result_spec {L} sb n k d context w (l : L) s :
  json_dumps d = Ret context ->
  let r := oracle w (trace s) (log_row n k context) in
  log_check_result sb n k d w l s
  = (Ret tt, l,
     mkState (trace s ++ [(log_row n k context, r)]) (out s ++ log_warning r) (ticks s)).
Proof.
  intros Hd r. unfold log_check_result. run. rewrite Hd. fold r.
  destruct r as [resp | e]; cbn [log_warning]; rewrite ?app_nil_r; reflexivity.
Qed.

(** ** A live run that found issues *)

Lemma live_summary cfg sb w l s context :
  DRY_RUN cfg = false ->
  (0 < total_issues l)%nat ->
  json_dumps (VDict (details l)) = Ret context ->
  let row := log_row (total_issues l) (total_fixed l) context in
  let r := oracle w (trace s) row in
  main_summary cfg sb w l s
  = (Ret 1, l,
     mkState (trace s ++ [(row, r)])
             (out s ++ summary_lines l ++ log_warning r
              ++ [nl ++ "⚠️  Issues were found. Review the output above."])
             (ticks s)).
Proof.
  intros Hdry Hpos Hd row r. unfold main_summary. run.
  apply Nat.ltb_lt in Hpos. rewrite Hpos, Hdry. cbn [negb andb].
  rewrite (log_check_result_spec sb _ _ _ context w _ _ Hd).
  cbn [trace out ticks]. fold row. fold r.
  unfold summary_lines. rewrite <- !app_assoc. reflexivity.
Qed.

Lemma run_checked cfg w :
  SUPABASE_KEY cfg <> EmptyString ->
  exists s1,
    three_checks cfg (client_of cfg) w (mkLocals 0 0 []) (banner title (DRY_RUN cfg) w)
    = (Ret tt, checked cfg w, s1)
    /\ Consistency.run cfg w
       = match main_summary cfg (client_of cfg) w (checked cfg w) s1 with
         | (o, _, s) => (exit_code o, s)
         end.
Proof.
  intros Hkey. unfold Consistency.run, checked.
  rewrite (main_connected cfg w tt Hkey), checks_and_summary_split, bind_run.
  destruct (three_checks_total cfg (client_of cfg) w (mkLocals 0 0 [])
              (banner title (DRY_RUN cfg) w)) as ([] & l1 & s1 & E).
  rewrite E. exists s1. split; [reflexivity |].
  destruct (main_summary cfg (client_of cfg) w l1 s1) as [[o l2] s2]. reflexivity.
Qed.

End LogFacts.

Module TwiceFacts.
Import Text Py DateTime Backend Logic Rules Auto Observe Detail Consistency.
Import ConsistencyFacts RepairFacts RunFacts CheckFacts BoundFacts NamelessFacts.

Lemma lacking_getitem keys key m :
  has_keys keys m = true ->
  has_keys [key] m = false ->
  getitem m key = Raise (KeyError key).
Proof.
  destruct m as [| b | z | t | xs | kvs]; try discriminate.
  intros _ H. unfold has_keys, has_key in H. cbn [forallb] in H. cbn [getitem].
  destruct (lookup (VStr key) kvs); [discriminate | reflexivity].
Qed.

(** A mismatch that has a name but no [current_amount], once its
    update is answered: the fix is counted, the line that reports it
    fails, and the handler counts a failure and reports that. *)
Lemma fix_payout_mismatches_item_twice m w c s :
  has_keys update_keys m = true ->
  has_keys ["current_amount"] m = false ->
  (forall h u, is_update u = true -> raised (oracle w h u) = false) ->
  let u := update_of (clock w (ticks s)) m in
  fix_payout_mismatches_item m w c s
  = (Ret tt, incr_failed (incr_fixed c),
     mkState (trace s ++ [(u, oracle w (trace s) u)])
             (out s ++ ["  ✗ Error: " ++ py_str (field "full_name" m)
                        ++ " - 'current_amount'"])
             (S (ticks s))).
Proof.
  intros Hk Hn Hw u. unfold fix_payout_mismatches_item. run.
  rewrite !(has_keys_getitem update_keys m) by (simpl; auto).
  rewrite (lacking_getitem update_keys "current_amount" m Hk Hn).
  fold (update_of (clock w (ticks s)) m). fold u.
  pose proof (Hw (trace s) u eq_refl) as Hr.
  destruct (oracle w (trace s) u) as [resp | e]; [reflexivity | discriminate].
Qed.

Lemma fix_payout_mismatches_loop_twice ms w :
  forallb (has_keys update_keys) ms = true ->
  forallb (fun m => negb (has_keys ["current_amount"] m)) ms = true ->
  (forall h u, is_update u = true -> raised (oracle w h u) = false) ->
  forall c s,
  exists evs lines,
    for_ ms fix_payout_mismatches_item w c s
    = (Ret tt,
       mkCounters (fixed c + List.length ms) (failed c + List.length ms),
       mkState (trace s ++ evs) (out s ++ lines) (ticks s + List.length ms))
    /\ List.length evs = List.length ms
    /\ forallb (fun ev => is_update (fst ev)) evs = true.
Proof.
  intros Hk Hn Hw. induction ms as [| m rest IH]; intros c s.
  - exists [], []. simpl. unfold ret. rewrite !app_nil_r, !Nat.add_0_r.
    destruct c, s. repeat split.
  - cbn [forallb] in Hk, Hn.
    apply andb_true_iff in Hk. destruct Hk as [Hk1 Hk2].
    apply andb_true_iff in Hn. destruct Hn as [Hn1 Hn2].
    apply negb_true_iff in Hn1.
    rewrite for_cons, (fix_payout_mismatches_item_twice m w c s Hk1 Hn1 Hw).
    match goal with
    | |- context [for_ rest _ w ?c1 ?s1] =>
        destruct (IH Hk2 Hn2 c1 s1) as (evs & lines & E & Hlen & Hu)
    end.
    rewrite E. cbn [trace out ticks fixed failed incr_fixed incr_failed].
    exists ((update_of (clock w (ticks s)) m,
             oracle w (trace s) (update_of (clock w (ticks s)) m)) :: evs),
           (("  ✗ Error: " ++ py_str (field "full_name" m) ++ " - 'current_amount'")
              :: lines).
    rewrite <- !app_assoc. cbn [app].
    split; [| split; [simpl; congruence | simpl; exact Hu]].
    cbn [List.length]. rewrite <- !Nat.add_assoc. cbn [Nat.add].
    rewrite !Nat.add_succ_r. reflexivity.
Qed.

End TwiceFacts.

(* ================================================================ *)
(** * Facts about dates and about the health checks *)
(* ================================================================ *)

Module CalendarFacts.
Import Text Py DateTime Backend Observe Calendar.

Lemma divmod d q r x :
  x = d * q + r -> 0 <= r < d -> x / d = q /\ x mod d = r.
Proof.
  intros -> Hr. split.
  - symmetry. apply (Z.div_unique_pos _ _ q r); [exact Hr | reflexivity].
  - symmetry. apply (Z.mod_unique_pos _ _ q r); [exact Hr | reflexivity].
Qed.

(** A count of whole years splits into 400-year, 100-year and 4-year
    cycles and single years. *)
Lemma cycles p :
  0 <= p ->
  exists a b c e,
    p = 400 * a + 100 * b + 4 * c + e
    /\ 0 <= a /\ 0 <= b < 4 /\ 0 <= c < 25 /\ 0 <= e < 4.
Proof.
  intros Hp.
  exists (p / 400), (p mod 400 / 100), (p mod 400 mod 100 / 4), (p mod 400 mod 100 mod 4).
  pose proof (Z.div_mod p 400 ltac:(lia)).
  pose proof (Z.mod_pos_bound p 400 ltac:(lia)).
  pose proof (Z.div_mod (p mod 400) 100 ltac:(lia)).
  pose proof (Z.mod_pos_bound (p mod 400) 100 ltac:(lia)).
  pose proof (Z.div_mod (p mod 400 mod 100) 4 ltac:(lia)).
  pose proof (Z.mod_pos_bound (p mod 400 mod 100) 4 ltac:(lia)).
  pose proof (Z.div_pos p 400 Hp ltac:(lia)).
  assert (0 <= p mod 400 / 100 < 4).
  { split; [apply Z.div_pos; lia | apply Z.div_lt_upper_bound; lia]. }
  assert (0 <= p mod 400 mod 100 / 4 < 25).
  { split; [apply Z.div_pos; lia | apply Z.div_lt_upper_bound; lia]. }
  repeat split; lia.
Qed.

Lemma days_before_year_cycles a b c e :
  0 <= a -> 0 <= b < 4 -> 0 <= c < 25 -> 0 <= e < 4 ->
  days_before_year (400 * a + 100 * b + 4 * c + e + 1)
  = 146097 * a + 36524 * b + 1461 * c + 365 * e.
Proof.
  intros Ha Hb Hc He. unfold days_before_year.
  replace (400 * a + 100 * b + 4 * c + e + 1 - 1) with (400 * a + 100 * b + 4 * c + e) by lia.
  destruct (divmod 4 (100 * a + 25 * b + c) e (400 * a + 100 * b + 4 * c + e)) as [-> _];
    [lia | lia |].
  destruct (divmod 100 (4 * a + b) (4 * c + e) (400 * a + 100 * b + 4 * c + e)) as [-> _];
    [lia | lia |].
  destruct (divmod 400 a (100 * b + 4 * c + e) (400 * a + 100 * b + 4 * c + e)) as [-> _];
    [lia | lia |].
  lia.
Qed.

Lemma is_leap_cycles a b c e :
  0 <= a -> 0 <= b < 4 -> 0 <= c < 25 -> 0 <= e < 4 ->
  is_leap (400 * a + 100 * b + 4 * c + e + 1)
  = (e =? 3) && (negb (c =? 24) || (b =? 3)).
Proof.
  intros Ha Hb Hc He. unfold is_leap.
  set (y := 400 * a + 100 * b + 4 * c + e + 1).
  assert (H4 : y mod 4 = (e + 1) mod 4).
  { unfold y. replace (400 * a + 100 * b + 4 * c + e + 1)
      with (e + 1 + (100 * a + 25 * b + c) * 4) by lia.
    apply Z.mod_add. lia. }
  assert (H100 : y mod 100 = (4 * c + e + 1) mod 100).
  { unfold y. replace (400 * a + 100 * b + 4 * c + e + 1)
      with (4 * c + e + 1 + (4 * a + b) * 100) by lia.
    apply Z.mod_add. lia. }
  assert (H400 : y mod 400 = (100 * b + 4 * c + e + 1) mod 400).
  { unfold y. replace (400 * a + 100 * b + 4 * c + e + 1)
      with (100 * b + 4 * c + e + 1 + a * 400) by lia.
    apply Z.mod_add. lia. }
  rewrite H4, H100, H400.
  destruct (Z.eqb_spec e 3) as [-> | He3].
  - replace (3 + 1) with 4 by lia. rewrite Z.mod_same by lia. cbn [Z.eqb andb].
    destruct (Z.eqb_spec c 24) as [-> | Hc24].
    + replace (4 * 24 + 3 + 1) with 100 by lia. rewrite Z.mod_same by lia.
      cbn [Z.eqb negb orb].
      destruct (Z.eqb_spec b 3) as [-> | Hb3].
      * replace (100 * 3 + 4 * 24 + 3 + 1) with 400 by lia.
        rewrite Z.mod_same by lia. reflexivity.
      * rewrite Z.mod_small by lia. apply Z.eqb_neq. lia.
    + cbn [negb orb]. rewrite (Z.mod_small (4 * c + 3 + 1)) by lia.
      replace (4 * c + 3 + 1 =? 0) with false by (symmetry; apply Z.eqb_neq; lia).
      reflexivity.
  - rewrite Z.mod_small by lia.
    replace (e + 1 =? 0) with false by (symmetry; apply Z.eqb_neq; lia).
    reflexivity.
Qed.

Ltac step d q r :=
  match goal with
  | |- context [?x / d] =>
      let H := fresh in
      destruct (divmod d q r x) as [H ?]; [lia | lia |]; rewrite ?H
  end.

(** [fromordinal] finds the year and the day of the year. *)
Lemma fromordinal_year y k :
  1 <= y -> 0 <= k < year_length y ->
  fromordinal (days_before_year y + k + 1)
  = if k =? 365 then (y, 12, 31)
    else let (m, d) := month_day y [1; 2; 3; 4; 5; 6; 7; 8; 9; 10; 11] k in (y, m, d).
Proof.
  intros Hy Hk. destruct (cycles (y - 1) ltac:(lia)) as (a & b & c & e & Hp & Ha & Hb & Hc & He).
  assert (Ey : y = 400 * a + 100 * b + 4 * c + e + 1) by lia.
  unfold year_length in Hk. rewrite Ey in Hk |- *.
  rewrite is_leap_cycles in Hk by assumption.
  rewrite days_before_year_cycles by assumption.
  rewrite <- Ey. unfold fromordinal.
  replace (146097 * a + 36524 * b + 1461 * c + 365 * e + k + 1 - 1)
    with (146097 * a + 36524 * b + 1461 * c + 365 * e + k) by lia.
  cbv zeta.
  destruct (Z.eqb_spec k 365) as [-> | Hk365].
  - (* the last day of a leap year *)
    destruct (Z.eqb_spec e 3) as [He3 | ]; [| cbn [andb] in Hk; lia].
    cbn [andb] in Hk. rewrite He3 in *. clear He3.
    destruct (Z.eqb_spec c 24) as [Hc24 | Hc24].
    + rewrite Hc24 in *. clear Hc24.
      destruct (Z.eqb_spec b 3) as [Hb3 | ]; [| cbn [negb orb] in Hk; lia].
      rewrite Hb3 in *. clear Hb3.
      destruct (divmod 146097 a 146096 (146097 * a + 36524 * 3 + 1461 * 24 + 365 * 3 + 365))
        as [-> ->]; [lia | lia |].
      change (146096 / 36524) with 4. change (146096 mod 36524) with 0.
      change (4 =? 4) with true. rewrite orb_true_r. f_equal. f_equal.
      change (0 / 1461) with 0. change (0 mod 1461) with 0. change (0 / 365) with 0. lia.
    + destruct (divmod 146097 a (36524 * b + 1461 * c + 365 * 3 + 365)
                  (146097 * a + 36524 * b + 1461 * c + 365 * 3 + 365))
        as [-> ->]; [lia | lia |].
      destruct (divmod 36524 b (1461 * c + 365 * 3 + 365)
                  (36524 * b + 1461 * c + 365 * 3 + 365))
        as [-> ->]; [lia | lia |].
      destruct (divmod 1461 c 1460 (1461 * c + 365 * 3 + 365))
        as [-> ->]; [lia | lia |].
      change (1460 / 365) with 4. change (4 =? 4) with true. cbn [orb].
      f_equal. f_equal. lia.
  - assert (Hk' : 0 <= k < 365).
    { destruct ((e =? 3) && (negb (c =? 24) || (b =? 3))); lia. }
    destruct (divmod 146097 a (36524 * b + 1461 * c + 365 * e + k)
                (146097 * a + 36524 * b + 1461 * c + 365 * e + k))
      as [-> ->]; [lia | lia |].
    destruct (divmod 36524 b (1461 * c + 365 * e + k)
                (36524 * b + 1461 * c + 365 * e + k))
      as [-> ->]; [lia | lia |].
    destruct (divmod 1461 c (365 * e + k) (1461 * c + 365 * e + k))
      as [-> ->]; [lia | lia |].
    destruct (divmod 365 e k (365 * e + k)) as [-> ->]; [lia | lia |].
    replace (e =? 4) with false by (symmetry; apply Z.eqb_neq; lia).
    replace (b =? 4) with false by (symmetry; apply Z.eqb_neq; lia).
    cbn [orb].
    replace (a * 400 + 1 + b * 100 + c * 4 + e) with y by lia.
    reflexivity.
Qed.

Ltac compare_days :=
  repeat match goal with
         | |- context [?a <? ?b] =>
             destruct (Z.ltb_spec a b); try lia
         | |- context [?a =? ?b] =>
             destruct (Z.eqb_spec a b); try lia
         end.

Lemma days_before_month_table y m :
  1 <= m <= 12 ->
  days_before_month y m
  = match m with
    | 1 => 0 | 2 => 31 | 3 => 31 + february y | 4 => 62 + february y
    | 5 => 92 + february y | 6 => 123 + february y | 7 => 153 + february y
    | 8 => 184 + february y | 9 => 215 + february y | 10 => 245 + february y
    | 11 => 276 + february y | _ => 306 + february y
    end.
Proof.
  intros Hm.
  assert (Hcase : m = 1 \/ m = 2 \/ m = 3 \/ m = 4 \/ m = 5 \/ m = 6 \/ m = 7
                  \/ m = 8 \/ m = 9 \/ m = 10 \/ m = 11 \/ m = 12) by lia.
  unfold days_before_month, days_in_month, february.
  repeat (destruct Hcase as [-> | Hcase]); [.. | subst m];
    destruct (is_leap y); reflexivity.
Qed.

Lemma days_in_month_table y m :
  days_in_month y m
  = match m with
    | 2 => february y
    | 4 | 6 | 9 | 11 => 30
    | _ => 31
    end.
Proof. reflexivity. Qed.

(** The day of the year of a date, and the date it stands for. *)
Lemma month_day_of y m d :
  1 <= m <= 12 -> 1 <= d <= days_in_month y m ->
  let k := days_before_month y m + d - 1 in
  0 <= k < year_length y
  /\ (if k =? 365 then (y, 12, 31)
      else let (m', d') := month_day y [1; 2; 3; 4; 5; 6; 7; 8; 9; 10; 11] k in
           (y, m', d'))
     = (y, m, d).
Proof.
  intros Hm Hd. cbv zeta.
  rewrite (days_before_month_table y m Hm).
  rewrite days_in_month_table in Hd.
  cbn [month_day]. rewrite !days_in_month_table.
  assert (Hcase : m = 1 \/ m = 2 \/ m = 3 \/ m = 4 \/ m = 5 \/ m = 6 \/ m = 7
                  \/ m = 8 \/ m = 9 \/ m = 10 \/ m = 11 \/ m = 12) by lia.
  unfold year_length, february in *.
  repeat (destruct Hcase as [-> | Hcase]); [.. | subst m];
    destruct (is_leap y); cbv iota beta in Hd |- *;
    (split; [lia |]); compare_days; repeat f_equal; lia.
Qed.

(** [fromordinal] undoes [toordinal]. *)
Lemma fromordinal_toordinal y m d :
  valid_date y m d ->
  fromordinal (days_before_year y + days_before_month y m + d) = (y, m, d).
Proof.
  intros (Hy & Hm & Hd).
  destruct (month_day_of y m d Hm Hd) as [Hk E].
  replace (days_before_year y + days_before_month y m + d)
    with (days_before_year y + (days_before_month y m + d - 1) + 1) by lia.
  rewrite (fromordinal_year y _ Hy Hk). exact E.
Qed.

Lemma days_in_month_bounds y m : 28 <= days_in_month y m <= 31.
Proof.
  unfold days_in_month.
  repeat match goal with
         | |- context [match ?x with _ => _ end] => destruct x
         end; lia.
Qed.

(** The first day of the next year follows the last day of this one. *)
Lemma days_before_next_year y :
  1 <= y -> days_before_year (y + 1) = days_before_year y + year_length y.
Proof.
  intros Hy.
  destruct (cycles (y - 1) ltac:(lia)) as (a & b & c & e & Hp & Ha & Hb & Hc & He).
  assert (Ey : y = 400 * a + 100 * b + 4 * c + e + 1) by lia.
  unfold year_length. rewrite Ey at 2 3.
  rewrite is_leap_cycles, days_before_year_cycles by assumption.
  destruct (Z.eqb_spec e 3) as [He3 | He3]; cbn [andb].
  - destruct (Z.eqb_spec c 24) as [Hc24 | Hc24]; cbn [negb orb].
    + destruct (Z.eqb_spec b 3) as [Hb3 | Hb3].
      * replace (y + 1) with (400 * (a + 1) + 100 * 0 + 4 * 0 + 0 + 1) by lia.
        rewrite days_before_year_cycles by lia. lia.
      * replace (y + 1) with (400 * a + 100 * (b + 1) + 4 * 0 + 0 + 1) by lia.
        rewrite days_before_year_cycles by lia. lia.
    + replace (y + 1) with (400 * a + 100 * b + 4 * (c + 1) + 0 + 1) by lia.
      rewrite days_before_year_cycles by lia. lia.
  - replace (y + 1) with (400 * a + 100 * b + 4 * c + (e + 1) + 1) by lia.
    rewrite days_before_year_cycles by lia. lia.
Qed.

Lemma days_before_year_mono y : 1 <= y -> 0 <= days_before_year y.
Proof.
  intros Hy.
  destruct (cycles (y - 1) ltac:(lia)) as (a & b & c & e & Hp & Ha & Hb & Hc & He).
  replace y with (400 * a + 100 * b + 4 * c + e + 1) by lia.
  rewrite days_before_year_cycles by assumption. lia.
Qed.

Lemma year_length_days y : year_length y = days_before_month y 12 + 31.
Proof.
  rewrite days_before_month_table by lia. unfold year_length, february.
  destruct (is_leap y); reflexivity.
Qed.

Lemma days_before_next_month y m :
  1 <= m < 12 ->
  days_before_month y (m + 1) = days_before_month y m + days_in_month y m.
Proof.
  intros Hm. rewrite !days_before_month_table, days_in_month_table by lia.
  assert (Hcase : m = 1 \/ m = 2 \/ m = 3 \/ m = 4 \/ m = 5 \/ m = 6 \/ m = 7
                  \/ m = 8 \/ m = 9 \/ m = 10 \/ m = 11) by lia.
  repeat (destruct Hcase as [-> | Hcase]); [.. | subst m];
    match goal with
    | |- context [Z.pos ?p + 1] =>
        let v := eval compute in (Z.pos p + 1) in
        change (Z.pos p + 1) with v
    end; cbv iota beta; lia.
Qed.

(** Every day number from 1 on is the number of a date. *)
Lemma ordinal_is_a_date (n : nat) :
  exists y m d,
    valid_date y m d
    /\ days_before_year y + days_before_month y m + d = Z.of_nat (S n).
Proof.
  induction n as [| n (y & m & d & (Hy & Hm & Hd) & E)].
  - exists 1, 1, 1.
    split; [pose proof (days_in_month_bounds 1 1); repeat split; lia | reflexivity].
  - destruct (Z.ltb_spec d (days_in_month y m)) as [Hlt | Hge].
    + exists y, m, (d + 1). split; [repeat split; lia | lia].
    + destruct (Z.ltb_spec m 12) as [Hm12 | Hm12].
      * exists y, (m + 1), 1. split.
        { pose proof (days_in_month_bounds y (m + 1)). repeat split; lia. }
        rewrite (days_before_next_month y m) by lia. lia.
      * assert (m = 12) by lia. subst m.
        exists (y + 1), 1, 1.
        split; [pose proof (days_in_month_bounds (y + 1) 1); repeat split; lia |].
        rewrite (days_before_next_year y Hy), year_length_days.
        change (days_before_month (y + 1) 1) with 0.
        change (days_in_month y 12) with 31 in Hge, Hd. lia.
Qed.

(** [toordinal] undoes [fromordinal]. *)
Lemma toordinal_fromordinal n :
  1 <= n ->
  exists y m d,
    fromordinal n = (y, m, d)
    /\ valid_date y m d
    /\ days_before_year y + days_before_month y m + d = n.
Proof.
  intros Hn.
  destruct (ordinal_is_a_date (Z.to_nat (n - 1))) as (y & m & d & Hv & E).
  replace (Z.of_nat (S (Z.to_nat (n - 1)))) with n in E by lia.
  exists y, m, d. split; [| split; assumption].
  rewrite <- E. apply fromordinal_toordinal. exact Hv.
Qed.

(** ** Subtracting a [timedelta] *)

Lemma days_before_year_grows y (k : nat) :
  1 <= y -> days_before_year y + 365 * Z.of_nat k <= days_before_year (y + Z.of_nat k).
Proof.
  intros Hy. induction k as [| k IH].
  - replace (y + Z.of_nat 0) with y by lia. lia.
  - replace (y + Z.of_nat (S k)) with (y + Z.of_nat k + 1) by lia.
    rewrite days_before_next_year by lia. unfold year_length.
    destruct (is_leap (y + Z.of_nat k)); lia.
Qed.

Lemma year_in_range y m d :
  valid_date y m d ->
  days_before_year y + days_before_month y m + d <= MAXORDINAL ->
  y <= 9999.
Proof.
  intros (Hy & Hm & Hd) H.
  destruct (Z.le_gt_cases y 9999) as [Hle | Hgt]; [exact Hle | exfalso].
  pose proof (days_before_year_grows 10000 (Z.to_nat (y - 10000)) ltac:(lia)) as Hg.
  replace (10000 + Z.of_nat (Z.to_nat (y - 10000))) with y in Hg by lia.
  change (days_before_year 10000) with 3652059 in Hg.
  rewrite days_before_month_table in H by exact Hm.
  unfold MAXORDINAL, february in H.
  assert (0 <= match m with
               | 1 => 0 | 2 => 31 | 3 => 31 + (if is_leap y then 29 else 28)
               | 4 => 62 + (if is_leap y then 29 else 28)
               | 5 => 92 + (if is_leap y then 29 else 28)
               | 6 => 123 + (if is_leap y then 29 else 28)
               | 7 => 153 + (if is_leap y then 29 else 28)
               | 8 => 184 + (if is_leap y then 29 else 28)
               | 9 => 215 + (if is_leap y then 29 else 28)
               | 10 => 245 + (if is_leap y then 29 else 28)
               | 11 => 276 + (if is_leap y then 29 else 28)
               | _ => 306 + (if is_leap y then 29 else 28)
               end).
  { assert (Hcase : m = 1 \/ m = 2 \/ m = 3 \/ m = 4 \/ m = 5 \/ m = 6 \/ m = 7
                    \/ m = 8 \/ m = 9 \/ m = 10 \/ m = 11 \/ m = 12) by lia.
    repeat (destruct Hcase as [-> | Hcase]); [.. | subst m];
      destruct (is_leap y); lia. }
  lia.
Qed.

(** The time of day a number of seconds stands for. *)
Lemma time_of_day r :
  0 <= r < 86400 ->
  0 <= r / 3600 < 24 /\ 0 <= r mod 3600 / 60 < 60 /\ 0 <= r mod 60 < 60
  /\ r / 3600 * 3600 + r mod 3600 / 60 * 60 + r mod 60 = r.
Proof.
  intros Hr.
  pose proof (Z.div_mod r 3600 ltac:(lia)).
  pose proof (Z.mod_pos_bound r 3600 ltac:(lia)).
  pose proof (Z.div_mod (r mod 3600) 60 ltac:(lia)).
  pose proof (Z.mod_pos_bound (r mod 3600) 60 ltac:(lia)).
  assert (r mod 60 = r mod 3600 mod 60).
  { replace 3600 with (60 * 60) by lia. rewrite Z.rem_mul_r by lia.
    rewrite Z.mul_comm, Z.mod_add by lia. rewrite Z.mod_mod by lia. reflexivity. }
  assert (0 <= r / 3600 < 24).
  { split; [apply Z.div_pos; lia | apply Z.div_lt_upper_bound; lia]. }
  assert (0 <= r mod 3600 / 60 < 60).
  { split; [apply Z.div_pos; lia | apply Z.div_lt_upper_bound; lia]. }
  repeat split; lia.
Qed.

(** What [d - timedelta(days, hours)] is: the timestamp that many
    seconds earlier, when that is a date a [datetime] can hold, and an
    overflow otherwise. *)
Lemma minus_timedelta_spec d days hours :
  valid d ->
  let target := seconds d - days * 86400 - hours * 3600 in
  if (86400 <=? target) && (target <? (MAXORDINAL + 1) * 86400) then
    exists d',
      minus_timedelta d days hours = Ret d'
      /\ valid d' /\ seconds d' = target /\ microsecond d' = microsecond d
  else minus_timedelta d days hours = Raise (OverflowError "date value out of range").
Proof.
  intros (Hdate & Hmax & Hh & Hmi & Hs). cbv zeta.
  unfold minus_timedelta, seconds, toordinal.
  set (ord0 := days_before_year (year d) + days_before_month (year d) (month d) + day d).
  set (secs := hour d * 3600 + minute d * 60 + second d - hours * 3600).
  pose proof (Z.div_mod secs 86400 ltac:(lia)) as Hdm.
  pose proof (Z.mod_pos_bound secs 86400 ltac:(lia)) as Hr.
  set (q := secs / 86400) in *. set (r := secs mod 86400) in *.
  replace (ord0 * 86400 + hour d * 3600 + minute d * 60 + second d
           - days * 86400 - hours * 3600)
    with ((ord0 - days + q) * 86400 + r) by (unfold secs in *; lia).
  assert (Hin : (86400 <=? (ord0 - days + q) * 86400 + r)
                && ((ord0 - days + q) * 86400 + r <? (MAXORDINAL + 1) * 86400)
                = (0 <? ord0 - days + q) && (ord0 - days + q <=? MAXORDINAL)).
  { unfold MAXORDINAL.
    destruct (Z.leb_spec 86400 ((ord0 - days + q) * 86400 + r));
      destruct (Z.ltb_spec ((ord0 - days + q) * 86400 + r) ((3652059 + 1) * 86400));
      destruct (Z.ltb_spec 0 (ord0 - days + q));
      destruct (Z.leb_spec (ord0 - days + q) 3652059); cbn [andb]; try reflexivity; lia. }
  rewrite Hin.
  destruct ((0 <? ord0 - days + q) && (ord0 - days + q <=? MAXORDINAL)) eqn:Hrange;
    [| reflexivity].
  apply andb_true_iff in Hrange. destruct Hrange as [Hlo Hhi].
  apply Z.ltb_lt in Hlo. apply Z.leb_le in Hhi.
  destruct (toordinal_fromordinal (ord0 - days + q) ltac:(lia))
    as (y & m & dd & E & Hv & Hord).
  rewrite E. eexists. split; [reflexivity |].
  destruct (time_of_day r Hr) as (T1 & T2 & T3 & T4).
  unfold valid. cbn [year month day hour minute second microsecond].
  split; [| split; [| reflexivity]].
  - split; [exact Hv |]. split; [| auto].
    apply (year_in_range y m dd Hv). rewrite Hord. exact Hhi.
  - rewrite Hord. lia.
Qed.

(** The day numbers of the dates a [datetime] can hold. *)
Lemma toordinal_bounds y m d :
  valid_date y m d -> y <= 9999 ->
  1 <= days_before_year y + days_before_month y m + d <= MAXORDINAL.
Proof.
  intros (Hy & Hm & Hd) Hmax.
  destruct (month_day_of y m d Hm Hd) as [Hk _]. cbv zeta in Hk.
  pose proof (days_before_year_mono y Hy).
  pose proof (days_before_next_year y Hy) as Hn.
  pose proof (days_before_year_grows (y + 1) (Z.to_nat (9999 - y)) ltac:(lia)) as Hg.
  replace (y + 1 + Z.of_nat (Z.to_nat (9999 - y))) with 10000 in Hg by lia.
  change (days_before_year 10000) with 3652059 in Hg.
  unfold MAXORDINAL. lia.
Qed.

(** Going back in time from a valid timestamp, not beyond day 1. *)
Lemma earlier d days hours :
  valid d -> 0 <= days -> 0 <= hours ->
  86400 <= seconds d - days * 86400 - hours * 3600 ->
  exists t,
    minus_timedelta d days hours = Ret t
    /\ valid t /\ seconds t = seconds d - days * 86400 - hours * 3600
    /\ microsecond t = microsecond d.
Proof.
  intros Hv Hd Hh Hs. pose proof (minus_timedelta_spec d days hours Hv) as H.
  cbv zeta in H.
  assert (Hmax : seconds d < (MAXORDINAL + 1) * 86400).
  { destruct Hv as (Hdate & Hmax & Hh' & Hmi & Hsec).
    destruct (toordinal_bounds _ _ _ Hdate Hmax) as [_ Hhi].
    unfold seconds, toordinal. unfold MAXORDINAL in *. lia. }
  replace ((86400 <=? seconds d - days * 86400 - hours * 3600)
           && (seconds d - days * 86400 - hours * 3600 <? (MAXORDINAL + 1) * 86400))
    with true in H; [exact H |].
  symmetry. apply andb_true_iff. split; [apply Z.leb_le | apply Z.ltb_lt]; lia.
Qed.

(** The day before the first of a month is the last day of the month
    before, in January that of December of the year before. *)
Lemma day_before_the_first d :
  valid d -> 1 < year d \/ 1 < month d ->
  exists d',
    minus_timedelta (replace_day_1 d) 1 0 = Ret d'
    /\ (year d', month d') = previous_month d
    /\ day d' = days_in_month (year d') (month d').
Proof.
  intros ((Hy & Hm & Hd) & Hmax & Hh & Hmi & Hs) Hfirst.
  unfold minus_timedelta, replace_day_1, toordinal, previous_month.
  cbn [year month day hour minute second microsecond].
  replace (hour d * 3600 + minute d * 60 + second d - 0 * 3600)
    with (hour d * 3600 + minute d * 60 + second d) by lia.
  rewrite Z.div_small by lia.
  set (y := year d) in *. set (m := month d) in *.
  assert (Hprev : exists y' m',
             (if m =? 1 then (y - 1, 12) else (y, m - 1)) = (y', m')
             /\ valid_date y' m' (days_in_month y' m') /\ y' <= 9999
             /\ days_before_year y + days_before_month y m + 1 - 1 + 0
                = days_before_year y' + days_before_month y' m' + days_in_month y' m').
  { destruct (Z.eqb_spec m 1) as [Hm1 | Hm1].
    - exists (y - 1), 12. split; [reflexivity |].
      pose proof (days_in_month_bounds (y - 1) 12).
      split; [repeat split; lia |]. split; [lia |].
      rewrite Hm1. change (days_before_month y 1) with 0.
      replace y with (y - 1 + 1) at 1 by lia.
      rewrite days_before_next_year, year_length_days by lia.
      change (days_in_month (y - 1) 12) with 31. lia.
    - exists y, (m - 1). split; [reflexivity |].
      pose proof (days_in_month_bounds y (m - 1)).
      split; [repeat split; lia |]. split; [lia |].
      replace m with (m - 1 + 1) at 1 by lia.
      rewrite days_before_next_month by lia. lia. }
  destruct Hprev as (y' & m' & -> & Hv & Hmax' & ->).
  destruct (toordinal_bounds y' m' _ Hv Hmax') as [Hlo Hhi].
  replace (0 <? days_before_year y' + days_before_month y' m' + days_in_month y' m')
    with true by (symmetry; apply Z.ltb_lt; lia).
  replace (days_before_year y' + days_before_month y' m' + days_in_month y' m'
           <=? MAXORDINAL) with true by (symmetry; apply Z.leb_le; lia).
  cbn [andb]. rewrite (fromordinal_toordinal y' m' _ Hv).
  eexists. split; [reflexivity |]. split; reflexivity.
Qed.

End CalendarFacts.

Module EmailFacts.
Import Text Py DateTime Backend Logic Rules Auto Observe Calendar Detail Health.
Import RunFacts HealthFacts CalendarFacts.

(** ** Dictionaries of counts *)

Lemma all_counts_lookup k kvs v :
  all_counts kvs = true -> lookup k kvs = Some v -> exists n, v = VInt n.
Proof.
  induction kvs as [| [k' x] rest IH]; simpl; intros H E; [discriminate |].
  apply andb_true_iff in H. destruct H as [H1 H2].
  destruct (key_eqb k' k).
  - inversion E; subst. destruct v; try discriminate. eauto.
  - exact (IH H2 E).
Qed.

Lemma all_counts_store k n kvs :
  all_counts kvs = true -> all_counts (store k (VInt n) kvs) = true.
Proof.
  induction kvs as [| [k' x] rest IH]; simpl; intros H; [reflexivity |].
  apply andb_true_iff in H. destruct H as [H1 H2].
  destruct (key_eqb k' k); simpl; [exact H2 | rewrite H1; exact (IH H2)].
Qed.

Lemma sum_counts_replace k n kvs :
  lookup k kvs = Some (VInt n) ->
  sum_counts (store k (VInt (n + 1)) kvs) = sum_counts kvs + 1.
Proof.
  unfold sum_counts.
  induction kvs as [| [k' x] rest IH]; cbn [lookup store]; intros E; [discriminate |].
  destruct (key_eqb k' k); cbn [fold_right snd].
  - inversion E; subst. cbn [int_of as_int]. lia.
  - rewrite (IH E). lia.
Qed.

Lemma sum_counts_new k n kvs :
  lookup k kvs = None ->
  sum_counts (store k (VInt n) kvs) = sum_counts kvs + n.
Proof.
  unfold sum_counts.
  induction kvs as [| [k' x] rest IH]; cbn [lookup store]; intros E.
  - cbn [fold_right snd int_of as_int]. lia.
  - destruct (key_eqb k' k); cbn [fold_right snd]; [discriminate |].
    rewrite (IH E). lia.
Qed.

(** ** Classifying one email *)

Lemma classify_email_spec email w l s :
  known_email email = true ->
  all_counts (by_type l) = true ->
  exists l',
    classify_email email w l s = (Ret tt, l', s)
    /\ pending_count l' = pending_count l + (if is_pending email then 1 else 0)
    /\ failed_count l' = failed_count l + (if is_failed email then 1 else 0)
    /\ all_counts (by_type l') = true
    /\ sum_counts (by_type l') = sum_counts (by_type l) + (if is_pending email then 1 else 0).
Proof.
  intros Hk Hc. unfold known_email in Hk.
  apply andb_true_iff in Hk. destruct Hk as [Hs Ht].
  unfold classify_email. run.
  rewrite !(ConsistencyFacts.has_keys_getitem ["status"] email "status" Hs)
    by (simpl; auto).
  unfold is_pending, is_failed in *.
  destruct (eq_str (field "status" email) "pending") eqn:P.
  - cbn [negb orb] in Ht. apply andb_true_iff in Ht. destruct Ht as [Hty Hh].
    rewrite (ConsistencyFacts.has_keys_getitem ["email_type"] email "email_type" Hty)
      by (simpl; auto).
    assert (F : eq_str (field "status" email) "failed" = false).
    { destruct (field "status" email); try reflexivity. simpl in *.
      apply String.eqb_eq in P. subst. reflexivity. }
    rewrite F. unfold count_type. rewrite Hh. run.
    cbn [by_type incr_pending].
    destruct (lookup (field "email_type" email) (by_type l)) as [v |] eqn:E.
    + destruct (all_counts_lookup _ _ _ Hc E) as (n & ->).
      eexists. split; [reflexivity |].
      cbn [pending_count failed_count by_type set_by_type incr_pending].
      split; [lia |]. split; [lia |].
      split; [apply all_counts_store; exact Hc | apply sum_counts_replace; exact E].
    + eexists. split; [reflexivity |].
      cbn [pending_count failed_count by_type set_by_type incr_pending].
      split; [lia |]. split; [lia |].
      split; [apply all_counts_store; exact Hc | apply sum_counts_new; exact E].
  - destruct (eq_str (field "status" email) "failed"); run;
      eexists; (split; [reflexivity |]);
      cbn [pending_count failed_count by_type incr_failed]; repeat split; auto; lia.
Qed.

Lemma classify_emails_spec emails w :
  forallb known_email emails = true ->
  forall l s,
  all_counts (by_type l) = true ->
  exists l',
    for_ emails classify_email w l s = (Ret tt, l', s)
    /\ pending_count l' = pending_count l + count_of is_pending emails
    /\ failed_count l' = failed_count l + count_of is_failed emails
    /\ all_counts (by_type l') = true
    /\ sum_counts (by_type l') = sum_counts (by_type l) + count_of is_pending emails.
Proof.
  unfold count_of.
  induction emails as [| email rest IH]; intros H l s Hc.
  - exists l. simpl. unfold ret. repeat split; auto; lia.
  - cbn [forallb] in H. apply andb_true_iff in H. destruct H as [H1 H2].
    rewrite for_cons.
    destruct (classify_email_spec email w l s H1 Hc) as (l1 & E1 & P1 & F1 & C1 & S1).
    rewrite E1.
    destruct (IH H2 l1 s C1) as (l2 & E2 & P2 & F2 & C2 & S2).
    rewrite E2. exists l2. split; [reflexivity |].
    cbn [List.filter].
    destruct (is_pending email); destruct (is_failed email); cbn [List.length];
      repeat split; auto; lia.
Qed.

(** ** The whole check *)

Lemma one_hour_before d :
  valid d -> 90000 <= seconds d ->
  exists t,
    minus_timedelta d 0 1 = Ret t
    /\ valid t /\ seconds t = seconds d - 3600 /\ microsecond t = microsecond d.
Proof.
  intros Hv Hs. destruct (earlier d 0 1 Hv) as (t & E & Hvt & Hst & Hus); try lia.
  exists t. split; [exact E |]. split; [exact Hvt |]. split; [lia | exact Hus].
Qed.

Lemma check_email_queue_health_spec {L} sb w (l : L) s resp emails :
  oracle w (trace s) email_query = Ret resp ->
  data resp = VList emails ->
  forallb known_email emails = true ->
  valid (clock w (ticks s)) -> 90000 <= seconds (clock w (ticks s)) ->
  exists t by_type lines,
    valid t /\ seconds t = seconds (clock w (ticks s)) - 3600
    /\ microsecond t = microsecond (clock w (ticks s))
    /\ all_counts by_type = true
    /\ sum_counts by_type = count_of is_pending emails
    /\ let t1 := (trace s ++ [(email_query, Ret resp)])%list in
       let r := oracle w t1 (stuck_query (isoformat t)) in
       check_email_queue_health sb w l s
       = (Ret match r with
              | Ret stuck =>
                  dict [("pending", VInt (count_of is_pending emails));
                        ("failed", VInt (count_of is_failed emails));
                        ("stuck", VInt (count_or_0 stuck));
                        ("by_type", VDict by_type)]
              | Raise e => dict [("error", VStr (exn_str e))]
              end,
          l,
          mkState (t1 ++ [(stuck_query (isoformat t), r)])
                  (out s ++ lines) (S (ticks s))).
Proof.
  intros E D Hk Hv Hs.
  destruct (one_hour_before _ Hv Hs) as (t & Et & Hvt & Hst & Hus).
  unfold check_email_queue_health. run. fold email_query. rewrite E. run.
  rewrite D.
  assert (Hor : iter (or_empty (VList emails)) = Ret emails).
  { unfold or_empty. destruct emails; reflexivity. }
  rewrite Hor.
  destruct (classify_emails_spec emails w Hk (mkEmailLocals 0 0 [])
              (mkState (trace s ++ [(email_query, Ret resp)])
                       (out s ++ [nl ++ "[2/5] Checking email queue health..."])
                       (ticks s)) eq_refl)
    as (l1 & E1 & P1 & F1 & C1 & S1).
  rewrite E1. cbn [pending_count failed_count by_type] in P1, F1, S1.
  change (sum_counts []) with 0 in S1.
  run. exists t, (by_type l1). rewrite P1, F1. cbn [Z.add].
  destruct (negb (Nat.eqb (List.length (by_type l1)) 0));
    run; rewrite Et; run; fold (stuck_query (isoformat t));
    match goal with
    | |- context [oracle w ?h ?c] => destruct (oracle w h c) as [stuck | e]
    end; run;
    try (destruct (0 <? count_or_0 stuck)); run;
    eexists; rewrite <- ?app_assoc;
    (split; [exact Hvt |]); (split; [exact Hst |]); (split; [exact Hus |]);
    (split; [exact C1 |]); (split; [lia |]); reflexivity.
Qed.

End EmailFacts.

Module EdgeFacts.
Import Text Py DateTime Backend Logic Rules Auto Observe Calendar Detail Health.
Import RunFacts HealthFacts CalendarFacts.

Lemma ids_of subs :
  forallb (has_keys ["id"]) subs = true ->
  traverse (fun s => getitem s "id") subs = Ret (map (field "id") subs).
Proof.
  induction subs as [| sub rest IH]; cbn [forallb traverse map]; intros H; [reflexivity |].
  apply andb_true_iff in H. destruct H as [H1 H2].
  rewrite (ConsistencyFacts.has_keys_getitem ["id"] sub "id" H1) by (simpl; auto).
  rewrite (IH H2). reflexivity.
Qed.

(** The check for recent approvals, when the table answers with rows
    that carry their [id]. *)
Lemma check_edge_function_health_spec {L} sb w (l : L) s resp subs :
  valid (clock w (ticks s)) -> 8 * 86400 <= seconds (clock w (ticks s)) ->
  exists since,
    valid since /\ seconds since = seconds (clock w (ticks s)) - 7 * 86400
    /\ microsecond since = microsecond (clock w (ticks s))
    /\ (oracle w (trace s) (approvals_query (isoformat since)) = Ret resp ->
        data resp = VList subs ->
        forallb (has_keys ["id"]) subs = true ->
        let t1 := (trace s ++ [(approvals_query (isoformat since), Ret resp)])%list in
        let n := List.length subs in
        let q := earnings_query (map (field "id") subs) in
        let r := oracle w t1 q in
        check_edge_function_health sb w l s
        = match subs with
          | [] =>
              (Ret (dict [("recent_approvals", of_nat 0); ("healthy", VBool true)]), l,
               mkState t1
                       (out s ++ [nl ++ "[4/5] Checking Edge Function health...";
                                  "  No recent approvals to check"])
                       (S (ticks s)))
          | _ :: _ =>
              match r with
              | Ret earnings =>
                  (Ret (dict [("recent_approvals", of_nat n); ("healthy", VBool true)]), l,
                   mkState (t1 ++ [(q, r)])
                           (out s ++ [nl ++ "[4/5] Checking Edge Function health...";
                                      if count_or_0 earnings <? Z.of_nat n
                                      then "  WARNING: " ++ dec (Z.of_nat n)
                                           ++ " approved submissions but only "
                                           ++ dec (count_or_0 earnings)
                                           ++ " earnings records"
                                      else "  " ++ dec (Z.of_nat n)
                                           ++ " recent approvals, all have earnings"])
                           (S (ticks s)))
              | Raise e =>
                  (Ret (dict [("error", VStr (exn_str e))]), l,
                   mkState (t1 ++ [(q, r)])
                           (out s ++ [nl ++ "[4/5] Checking Edge Function health...";
                                      "  ERROR: " ++ exn_str e])
                           (S (ticks s)))
              end
          end).
Proof.
  intros Hv Hs.
  destruct (earlier _ 7 0 Hv) as (since & Et & Hvt & Hst & Hus); try lia.
  exists since. split; [exact Hvt |]. split; [lia |]. split; [exact Hus |].
  intros E D Hk. cbv zeta.
  unfold check_edge_function_health. run. rewrite Et. run.
  fold (approvals_query (isoformat since)). rewrite E. run. rewrite D.
  destruct subs as [| sub rest].
  - unfold or_empty. run. change (0 <? 0)%nat with false. run.
    rewrite <- !app_assoc. reflexivity.
  - unfold or_empty. run. cbn [Nat.ltb Nat.leb]. run.
    rewrite (ids_of (sub :: rest) Hk). run.
    fold (earnings_query (map (field "id") (sub :: rest))).
    match goal with
    | |- context [oracle w ?h ?c] => destruct (oracle w h c) as [earnings | e]
    end; run.
    + cbn [List.length].
      destruct (count_or_0 earnings <? Z.of_nat (S (List.length rest))); run;
        rewrite <- !app_assoc; reflexivity.
    + rewrite <- !app_assoc. reflexivity.
Qed.

End EdgeFacts.

Module GraphicsFacts.
Import Text Py DateTime Backend Logic Rules Auto Observe Calendar Detail Health.
Import RunFacts HealthFacts CalendarFacts.

(** The month the graphics check asks about. *)
Lemma prev_month_text d :
  valid d -> 1 < year d \/ 1 < month d ->
  exists last,
    minus_timedelta (replace_day_1 d) 1 0 = Ret last
    /\ strftime_Y_m last = month_text (previous_month d).
Proof.
  intros Hv Hf. destruct (day_before_the_first d Hv Hf) as (last & E & Hym & _).
  exists last. split; [exact E |]. unfold strftime_Y_m, month_text.
  rewrite <- Hym. reflexivity.
Qed.

Lemma print_missing_user_spec {L} user w (l : L) s :
  is_record user = true ->
  print_missing_user user w l s
  = (Ret tt, l, mkState (trace s) (out s ++ [user_line user]) (ticks s)).
Proof.
  destruct user as [| b | z | t | xs | kvs]; try discriminate. intros _.
  unfold print_missing_user, user_line, field_or. run. cbn [get].
  destruct (lookup (VStr "full_name") kvs); destruct (lookup (VStr "total_dollars") kvs);
    reflexivity.
Qed.

Lemma print_missing_users_spec {L} users w (l : L) s :
  forallb is_record users = true ->
  for_ users print_missing_user w l s
  = (Ret tt, l, mkState (trace s) (out s ++ map user_line users) (ticks s)).
Proof.
  revert s. induction users as [| user rest IH]; intros s H.
  - simpl. unfold ret. rewrite app_nil_r. destruct s; reflexivity.
  - cbn [forallb] in H. apply andb_true_iff in H. destruct H as [H1 H2].
    rewrite for_cons, (print_missing_user_spec user w l s H1), (IH _ H2).
    cbn [trace out ticks map]. rewrite <- app_assoc. reflexivity.
Qed.

Lemma print_missing_users_frame {L} (Inv : L -> Prop) P xs :
  frame Inv P (for_ xs print_missing_user).
Proof. frame_auto. Qed.

Lemma firstn_records n (users : list value) :
  forallb is_record users = true -> forallb is_record (firstn n users) = true.
Proof.
  revert n. induction users as [| u rest IH]; intros [| n] H; try reflexivity.
  cbn [forallb firstn] in *. apply andb_true_iff in H. destruct H as [H1 H2].
  rewrite H1, (IH n H2). reflexivity.
Qed.

Lemma check_monthly_graphics_spec {L} sb w (l : L) s resp users :
  let now := clock w (S (ticks s)) in
  let asked := month_text (previous_month now) in
  valid now -> 1 < year now \/ 1 < month now ->
  oracle w (trace s) (graphics_rpc asked) = Ret resp ->
  data resp = VList users ->
  forallb is_record users = true ->
  let t1 := (trace s ++ [(graphics_rpc asked, Ret resp)])%list in
  let r := oracle w t1 graphic_emails_query in
  exists lines,
    check_monthly_graphics sb w l s
    = (Ret match r with
           | Ret pending =>
               dict [("month", VStr asked);
                     ("missing_graphics", of_nat (List.length users));
                     ("pending_emails", VInt (count_or_0 pending))]
           | Raise _ => dict [("skipped", VBool true)]
           end,
       l,
       mkState (t1 ++ [(graphic_emails_query, r)])
               (out s ++ [nl ++ "[3/5] Checking monthly graphics status..."]
                ++ missing_lines asked users ++ lines)
               (S (S (ticks s)))).
Proof.
  intros now asked Hv Hf E D Hk t1 r.
  destruct (prev_month_text now Hv Hf) as (last & El & Hm).
  unfold check_monthly_graphics. run. fold now. rewrite El. run. rewrite Hm.
  fold asked. fold (graphics_rpc asked). rewrite E. run. rewrite D.
  destruct users as [| user rest].
  - unfold or_empty. run. fold graphic_emails_query. fold t1. fold r.
    destruct r as [pending | e]; run; eexists; cbn [missing_lines];
      rewrite <- ?app_assoc; cbn [app]; reflexivity.
  - unfold or_empty. run. cbn [slice_to]. run.
    rewrite (print_missing_users_spec _ w _ _ (firstn_records 5 _ Hk)).
    cbn [trace out ticks].
    destruct (5 <? S (List.length rest))%nat eqn:Hmore; run;
      fold graphic_emails_query; fold t1; fold r;
      destruct r as [pending | e]; run; eexists;
      unfold missing_lines; cbn [List.length]; rewrite Hmore;
      rewrite <- ?app_assoc; cbn [app]; rewrite <- ?app_assoc; reflexivity.
Qed.

Ltac first_call :=
  eexists _, _, _; split; [reflexivity |]; cbn [trace];
  rewrite <- ?app_assoc; cbn [app]; reflexivity.

(** Whatever the backend answers, the first call of the check is the
    report for the month before. *)
Lemma check_monthly_graphics_first_call {L} sb w (l : L) s :
  let now := clock w (S (ticks s)) in
  let asked := month_text (previous_month now) in
  valid now -> 1 < year now \/ 1 < month now ->
  exists r s' evs,
    check_monthly_graphics sb w l s = (Ret r, l, s')
    /\ trace s'
       = (trace s ++ (graphics_rpc asked, oracle w (trace s) (graphics_rpc asked)) :: evs)%list.
Proof.
  intros now asked Hv Hf.
  destruct (prev_month_text now Hv Hf) as (last & El & Hm).
  unfold check_monthly_graphics. run. fold now. rewrite El. run. rewrite Hm.
  fold asked. fold (graphics_rpc asked).
  destruct (oracle w (trace s) (graphics_rpc asked)) as [resp | e]; run; [| first_call].
  destruct (truthy (or_empty (data resp))) eqn:T; run; rewrite ?T; run.
  - destruct (len (or_empty (data resp))) as [n | e]; run; [| first_call].
    destruct (slice_to (or_empty (data resp)) 5) as [shown | e]; run; [| first_call].
    framed (for_ (L := unit) shown print_missing_user)
           (fun Inv => print_missing_users_frame (L := unit) Inv (fun _ => false) shown).
    apply DryRunFacts.no_events in Hp. rewrite Hp, app_nil_r in Ht.
    destruct o as [[] | e]; run; [| eexists _, _, _; split; [reflexivity |]; cbn [trace];
                                    rewrite Ht, <- ?app_assoc; cbn [app]; reflexivity].
    destruct (5 <? n)%nat; run;
      match goal with
      | |- context [oracle w ?h ?c] => destruct (oracle w h c) as [pending | e]
      end; run;
      eexists _, _, _; (split; [reflexivity |]); cbn [trace];
      rewrite Ht, <- ?app_assoc; cbn [app]; reflexivity.
  - match goal with
    | |- context [oracle w ?h ?c] => destruct (oracle w h c) as [pending | e]
    end; run; try (destruct (len (or_empty (data resp))); run); first_call.
Qed.

End GraphicsFacts.

Module SqlFacts.
Import Text Py DateTime Backend Logic Rules Auto Observe Calendar Detail Health.
Import RunFacts HealthFacts CalendarFacts.







(** A result that is no dictionary cannot be read. *)
Lemma run_sql_health_check_no_dict {L} sb w (l : L) s resp :
  oracle w (trace s) sql_health_call = Ret resp ->
  truthy (data resp) = true ->
  is_record (data resp) = false ->
  exists s',
    run_sql_health_check sb w l s
    = (Ret (sql_error (squote ++ type_name (data resp)
                       ++ "' object has no attribute 'get'")), l, s').
Proof.
  intros E T R. unfold run_sql_health_check. run. fold sql_health_call.
  rewrite E. run. rewrite T.
  destruct (data resp) as [| b | z | t | xs | kvs]; try discriminate;
    run; eexists; reflexivity.
Qed.

End SqlFacts.

Module ObliviousFacts.
Import Text Py DateTime Backend Logic Rules Auto Observe Calendar Detail.

Section WithLocals.
Context {L : Type}.

Lemma same_but_out_refl s : same_but_out s s.
Proof. split; reflexivity. Qed.

Lemma oblivious_pure {A} (o : outcome A) : oblivious (L := L) (lift o).
Proof. intros w l s s' H. exists o, l, s, s'. auto. Qed.

Lemma oblivious_ret {A} (a : A) : oblivious (L := L) (ret a).
Proof. intros w l s s' H. exists (Ret a), l, s, s'. auto. Qed.

Lemma oblivious_raise {A} (e : exn) : oblivious (L := L) (raise (A := A) e).
Proof. intros w l s s' H. exists (Raise e), l, s, s'. auto. Qed.

Lemma oblivious_locals : oblivious (L := L) locals.
Proof. intros w l s s' H. exists (Ret l), l, s, s'. auto. Qed.

Lemma oblivious_assign (f : L -> L) : oblivious (assign f).
Proof. intros w l s s' H. exists (Ret tt), (f l), s, s'. auto. Qed.

Lemma oblivious_print (line : string) : oblivious (L := L) (print line).
Proof.
  intros w l s s' [Ht Hk]. eexists (Ret tt), l, _, _.
  split; [reflexivity |]. split; [reflexivity |]. split; assumption.
Qed.

Lemma oblivious_utcnow : oblivious (L := L) utcnow.
Proof.
  intros w l s s' [Ht Hk]. unfold utcnow. rewrite Hk. eexists _, l, _, _.
  split; [reflexivity |]. split; [reflexivity |]. split; cbn [trace ticks]; congruence.
Qed.

Lemma oblivious_execute (c : call) : oblivious (L := L) (execute c).
Proof.
  intros w l s s' [Ht Hk]. unfold execute. cbv zeta. rewrite Ht. eexists _, l, _, _.
  split; [reflexivity |]. split; [reflexivity |]. split; cbn [trace ticks]; congruence.
Qed.

Lemma oblivious_bind {A B} (m : M L A) (k : A -> M L B) :
  oblivious m -> (forall a, oblivious (k a)) -> oblivious (bind m k).
Proof.
  intros Hm Hk w l s s' H. unfold bind.
  destruct (Hm w l s s' H) as (o & l1 & s1 & s1' & E & E' & H1).
  rewrite E, E'. destruct o as [a | e]; [apply Hk; exact H1 |].
  exists (Raise e), l1, s1, s1'. auto.
Qed.

Lemma oblivious_try {A} (body : M L A) (handler : exn -> M L A) :
  oblivious body -> (forall e, oblivious (handler e)) ->
  oblivious (try_except body handler).
Proof.
  intros Hb Hh w l s s' H. unfold try_except.
  destruct (Hb w l s s' H) as (o & l1 & s1 & s1' & E & E' & H1).
  rewrite E, E'. destruct o as [a | e]; [| apply Hh; exact H1].
  exists (Ret a), l1, s1, s1'. auto.
Qed.

Lemma oblivious_for {A} (xs : list A) (body : A -> M L unit) :
  (forall x, oblivious (body x)) -> oblivious (for_ xs body).
Proof.
  intros Hb. induction xs as [| x rest IH]; cbn [for_].
  - apply oblivious_ret.
  - apply oblivious_bind; [apply Hb | intros _; exact IH].
Qed.

Lemma oblivious_invoke {L' A} (init : L') (body : M L' A) :
  oblivious body -> oblivious (L := L) (invoke init body).
Proof.
  intros Hb w l s s' H. unfold invoke.
  destruct (Hb w init s s' H) as (o & l1 & s1 & s1' & E & E' & H1).
  rewrite E, E'. exists o, l, s1, s1'. auto.
Qed.

End WithLocals.

Ltac oblivious_step :=
  lazymatch goal with
  | |- oblivious (bind _ _) => apply oblivious_bind; [| intros ?]
  | |- oblivious (try_except _ _) => apply oblivious_try; [| intros ?]
  | |- oblivious (for_ _ _) => apply oblivious_for; intros ?
  | |- oblivious (invoke _ _) => apply oblivious_invoke
  | |- oblivious (ret _) => apply oblivious_ret
  | |- oblivious (raise _) => apply oblivious_raise
  | |- oblivious (lift _) => apply oblivious_pure
  | |- oblivious locals => apply oblivious_locals
  | |- oblivious (print _) => apply oblivious_print
  | |- oblivious utcnow => apply oblivious_utcnow
  | |- oblivious (assign _) => apply oblivious_assign
  | |- oblivious (execute _) => apply oblivious_execute
  | |- oblivious (if ?b then _ else _) => destruct b
  | |- oblivious (match ?x with _ => _ end) => destruct x
  | |- oblivious _ => progress (autounfold with prog; cbv zeta)
  end.

Ltac oblivious_auto := autounfold with prog; cbv zeta; repeat oblivious_step.

Lemma main_checks_oblivious sb : oblivious (Health.main_checks sb).
Proof. oblivious_auto. Qed.

Lemma generate_summary_report_oblivious {L} results :
  oblivious (L := L) (Health.generate_summary_report results).
Proof. oblivious_auto. Qed.

End ObliviousFacts.

Module HealthLogFacts.
Import Text Py DateTime Backend Logic Rules Auto Observe Calendar Detail Health.
Import RunFacts HealthFacts SummaryFacts HealthRunFacts ObliviousFacts.

Lemma health_main_connected {L} cfg dry_run w (l : L) :
  SUPABASE_KEY cfg <> EmptyString ->
  main cfg dry_run w l start
  = match bind (main_checks (health_client cfg))
               (fun _ => after_checks (health_client cfg) dry_run)
               w [] (banner health_title dry_run w) with
    | (o, _, s) => (o, l, s)
    end.
Proof.
  intros Hkey. apply String.eqb_neq in Hkey.
  unfold main, get_client, after_checks, health_client. run. rewrite Hkey.
  reflexivity.
Qed.

(** What the logging block does. *)
Lemma main_log_exact sb status results w l s :
  main_log sb status results w l s
  = match json_dumps results with
    | Ret dumped =>
        let row := health_row status dumped (isoformat (clock w (ticks s))) in
        (Ret tt, l,
         mkState (trace s ++ [(row, oracle w (trace s) row)]) (out s) (S (ticks s)))
    | Raise _ => (Ret tt, l, s)
    end.
Proof.
  unfold main_log. run. destruct (json_dumps results) as [dumped | e]; [| reflexivity].
  cbv zeta.
  destruct (oracle w (trace s) (health_row status dumped (isoformat (clock w (ticks s)))));
    reflexivity.
Qed.

(** The checks of a run with a credential, and what follows them. *)
Lemma health_run_shape cfg dry_run w :
  SUPABASE_KEY cfg <> EmptyString ->
  exists s1 s2,
    main_checks (health_client cfg) w [] (banner health_title dry_run w)
    = (Ret tt, health_results cfg dry_run w, s1)
    /\ forallb (fun ev => negb (is_insert (fst ev))) (trace s1) = true
    /\ trace s2 = trace s1
    /\ Health.run cfg dry_run w
       = match (if negb dry_run
                then main_log (health_client cfg)
                              (status_of (VDict (health_results cfg dry_run w)))
                              (VDict (health_results cfg dry_run w))
                else ret tt) w (health_results cfg dry_run w) s2 with
         | (_, _, s3) =>
             (if concerns (VDict (health_results cfg dry_run w)) then 1 else 0, s3)
         end.
Proof.
  intros Hkey. unfold Health.run. rewrite (health_main_connected cfg dry_run w tt Hkey).
  unfold health_results.
  destruct (main_checks_spec (health_client cfg) w (banner health_title dry_run w))
    as (r1 & r2 & r3 & r4 & s1 & E1 & H1 & H2 & H3 & H4).
  assert (Hf : frame any (fun c => negb (is_insert c)) (main_checks (health_client cfg)))
    by frame_auto.
  destruct (Hf w [] (banner health_title dry_run w) I)
    as (o & l1 & s1' & evs & lines & E0 & _ & Ht & Hp & _).
  rewrite E1 in E0. inversion E0; subst o l1 s1'; clear E0.
  cbn [trace banner app] in Ht.
  destruct (generate_summary_report_spec r1 r2 r3 r4 w (health_report r1 r2 r3 r4) s1
              H1 H2 H3 H4) as (s2 & E2 & Ht2).
  rewrite bind_run, E1. cbn [fst snd].
  exists s1, (mkState (trace s2)
                      (((out s2 ++ [nl ++ rule]) ++ ["HEALTH CHECK COMPLETE"]) ++ [rule])
                      (ticks s2)).
  split; [reflexivity |]. split; [rewrite Ht; exact Hp |].
  split; [exact Ht2 |].
  unfold after_checks. run. rewrite E2. unfold status_of.
  destruct (negb dry_run); run;
    [match goal with
     | |- context [main_log ?sb ?st ?rs w ?l0 ?s0] =>
         destruct (main_log_spec sb st rs w l0 s0) as (s3 & evs3 & E3 & _); rewrite E3
     end |];
    destruct (concerns (VDict (health_report r1 r2 r3 r4))); reflexivity.
Qed.

End HealthLogFacts.

Module CaseFacts.
Import Text Py DateTime Backend Logic Rules Auto Observe Calendar Detail.
Import Examples Cases.

Lemma morning_valid n : valid (morning n).
Proof.
  unfold valid, valid_date, morning. cbn [year month day hour minute second].
  change (days_in_month 2024 3) with 31. lia.
Qed.

Lemma morning_seconds n : 8 * 86400 <= seconds (morning n).
Proof. vm_compute. discriminate. Qed.

End CaseFacts.

Module SqlRunFacts.
Import Text Py DateTime Backend Logic Rules Auto Observe Calendar Detail Health.
Import RunFacts HealthFacts SummaryFacts HealthRunFacts.

(** The entry of the SQL check in the results of a run. *)
Lemma sql_entry cfg dry_run w :
  exists r1 s1,
    run_sql_health_check (health_client cfg) w ([] : list (value * value))
                         (banner health_title dry_run w)
    = (Ret r1, [], s1)
    /\ entry "sql_health" (VDict (health_results cfg dry_run w)) = r1.
Proof.
  unfold health_results, main_checks. rewrite bind_run.
  destruct (run_sql_health_check_returns (health_client cfg) w
              ([] : list (value * value)) (banner health_title dry_run w))
    as (r1 & s1 & E1 & H1).
  rewrite E1. exists r1, s1. split; [reflexivity |].
  unfold assign at 1. rewrite !bind_run. cbn [set_result store].
  match goal with
  | |- context [check_email_queue_health ?sb w ?l0 ?s0] =>
      destruct (check_email_queue_health_returns sb w l0 s0) as (r2 & s2 & E2 & H2)
  end.
  rewrite E2. unfold assign at 1. rewrite !bind_run.
  cbn [set_result store key_eqb as_int String.eqb Ascii.eqb Bool.eqb].
  match goal with
  | |- context [check_monthly_graphics ?sb w ?l0 ?s0] =>
      destruct (check_monthly_graphics_returns sb w l0 s0) as (r3 & s3 & E3 & H3)
  end.
  rewrite E3. unfold assign at 1. rewrite !bind_run.
  cbn [set_result store key_eqb as_int String.eqb Ascii.eqb Bool.eqb].
  match goal with
  | |- context [check_edge_function_health ?sb w ?l0 ?s0] =>
      destruct (check_edge_function_health_returns sb w l0 s0) as (r4 & s4 & E4 & H4)
  end.
  rewrite E4. unfold assign.
  cbn [set_result store key_eqb as_int String.eqb Ascii.eqb Bool.eqb].
  reflexivity.
Qed.

End SqlRunFacts.

Module SummaryTextFacts.
Import Text Py DateTime Backend Logic Rules Auto Observe Summary Health.
Import RunFacts HealthFacts SummaryFacts.

Lemma generate_summary_report_text {L} r1 r2 r3 r4 w (l : L) s :
  is_dict r1 -> email_shape r2 -> graphics_shape r3 -> edge_shape r4 ->
  generate_summary_report (VDict (health_report r1 r2 r3 r4)) w l s
  = (Ret (status_of (VDict (health_report r1 r2 r3 r4))), l,
     mkState (trace s) (out s ++ summary_text (VDict (health_report r1 r2 r3 r4)))
             (ticks s)).
Proof.
  intros [kvs ->] H2 H3 H4.
  unfold generate_summary_report, status_of, summary_text, issues_of, concerns,
    sql_unhealthy, stuck_emails, failed_emails, missing_graphics, edge_error, entry, int_of.
  destruct H2 as [[msg2 ->] | (p & f & st & bt & ->)];
    destruct H3 as [-> | (mo & mi & pe & ->)];
    destruct H4 as [[msg4 ->] | (ap & ->)];
    run; look; rewrite ?Z.gtb_ltb;
    destruct (lookup (VStr "overall_status") kvs) as [v |]; look;
    split_ifs; try (cbn [orb andb negb] in *; congruence);
    run; look; run; cbn [py_str py_repr]; rewrite <- ?app_assoc; reflexivity.
Qed.

End SummaryTextFacts.

Import Calendar Detail.

(* ================================================================ *)
(** * Further properties of the consistency checker *)
(* ================================================================ *)

(** X1. When the environment does not set the service-role key, or sets
    it empty, either script prints its banner and the error line, calls
    nothing on the backend and ends with exit code 1. *)
Theorem missing_credential_ends_the_run :
  forall (env : string -> option string) (dry_run : bool) (w : world),
    no_key env ->
    Consistency.run (Consistency.load_config env) w
    = (1, mkState []
            (out (banner title (Consistency.DRY_RUN (Consistency.load_config env)) w)
             ++ [no_key_line])
            1)
    /\ Health.run (Health.load_config env) dry_run w
       = (1, mkState [] (out (banner health_title dry_run w) ++ [no_key_line]) 1).
Proof.
  intros env dry_run w Hkey.
  assert (Hc : Consistency.SUPABASE_KEY (Consistency.load_config env) = EmptyString).
  { unfold Consistency.load_config, Consistency.getenv. cbn [Consistency.SUPABASE_KEY].
    destruct Hkey as [-> | ->]; reflexivity. }
  assert (Hh : Health.SUPABASE_KEY (Health.load_config env) = EmptyString).
  { unfold Health.load_config, Consistency.getenv. cbn [Health.SUPABASE_KEY].
    destruct Hkey as [-> | ->]; reflexivity. }
  split.
  - unfold Consistency.run.
    rewrite (ConsistencyFacts.main_not_connected _ w tt Hc). reflexivity.
  - unfold Health.run, Health.main, Health.get_client. run. rewrite Hh. reflexivity.
Qed.

(** X1 in an environment that sets nothing. *)
Lemma missing_credential_ends_the_run_witness :
  no_key Cases.bare
  /\ fst (Consistency.run (Consistency.load_config Cases.bare) Examples.one_missing) = 1
  /\ calls (snd (Consistency.run (Consistency.load_config Cases.bare) Examples.one_missing))
     = []
  /\ fst (Health.run (Health.load_config Cases.bare) false Examples.one_missing) = 1.
Proof.
  assert (Hk : no_key Cases.bare) by (left; reflexivity).
  destruct (missing_credential_ends_the_run Cases.bare false Examples.one_missing Hk)
    as [H1 H2].
  split; [exact Hk |]. rewrite H1, H2. repeat split.
Defined.

(** X2. A dry run of the consistency checker that has its credential
    sends the three reports, in order, and nothing else. *)
Theorem dry_run_sends_only_the_reports :
  forall (cfg : Consistency.config) (w : world),
    Consistency.SUPABASE_KEY cfg <> EmptyString ->
    Consistency.DRY_RUN cfg = true ->
    calls (snd (Consistency.run cfg w)) = [missing_report; payout_report; pool_report].
Proof.
  intros cfg w Hkey Hdry. unfold Consistency.run.
  rewrite (ConsistencyFacts.main_connected cfg w tt Hkey).
  unfold checks_and_summary. rewrite RunFacts.bind_run.
  set (sb := client_of cfg).
  destruct (DryRunFacts.main_check_1_dry cfg sb w (Consistency.mkLocals 0 0 [])
              (banner title (Consistency.DRY_RUN cfg) w) Hdry) as (l1 & s1 & E1 & Ht1).
  rewrite E1, RunFacts.bind_run.
  destruct (DryRunFacts.main_check_2_dry cfg sb w l1 s1 Hdry) as (l2 & s2 & E2 & Ht2).
  rewrite E2, RunFacts.bind_run.
  destruct (DryRunFacts.main_check_3_one_call cfg sb w l2 s2) as (l3 & s3 & E3 & Ht3 & _).
  rewrite E3.
  destruct (ConsistencyFacts.main_summary_spec cfg sb w l3 s3)
    as (s4 & evs & lines & E4 & Ht4 & _ & Hnil & _).
  rewrite E4. cbn [snd]. unfold calls.
  rewrite Ht4, (Hnil (or_intror Hdry)), app_nil_r, Ht3, Ht2, Ht1.
  cbn [trace banner app map fst]. reflexivity.
Qed.

(** X2 at a dry run whose missing-earnings report returns one record. *)
Lemma dry_run_sends_only_the_reports_witness :
  calls (snd (Consistency.run Examples.dry Examples.one_missing))
  = [missing_report; payout_report; pool_report].
Proof.
  apply dry_run_sends_only_the_reports; [discriminate | reflexivity].
Defined.

(** X3. The pool-balance check sends its report and nothing else, in a
    live run as in a dry run and whatever the report returns, and leaves
    the count of fixes as it was. *)
Theorem pool_issues_are_only_reported :
  forall (cfg : Consistency.config) (sb : Client) (w : world)
         (l : Consistency.main_locals) (s : state),
  exists l' s',
    Consistency.main_check_3 cfg sb w l s = (Ret tt, l', s')
    /\ trace s' = (trace s ++ [(pool_report, oracle w (trace s) pool_report)])%list
    /\ Consistency.total_fixed l' = Consistency.total_fixed l.
Proof. exact DryRunFacts.main_check_3_one_call. Qed.

(** X4. The first two checks add the length of the list their report
    returned to the issue count before any repair, so the issues are
    counted whatever the records hold and whatever the repairs do. *)
Theorem issues_are_counted_before_repair :
  forall (cfg : Consistency.config) (sb : Client) (w : world)
         (l : Consistency.main_locals) (s : state) (resp : response) (xs : list value),
    data resp = VList xs ->
    (oracle w (trace s) missing_report = Ret resp ->
     exists l' s',
       Consistency.main_check_1 cfg sb w l s = (Ret tt, l', s')
       /\ Consistency.total_issues l'
          = (Consistency.total_issues l + List.length xs)%nat)
    /\ (oracle w (trace s) payout_report = Ret resp ->
        exists l' s',
          Consistency.main_check_2 cfg sb w l s = (Ret tt, l', s')
          /\ Consistency.total_issues l'
             = (Consistency.total_issues l + List.length xs)%nat).
Proof.
  intros cfg sb w l s resp xs D. split; intros E.
  - exact (CountingFacts.main_check_1_counts_first cfg sb w l s resp xs E D).
  - exact (CountingFacts.main_check_2_counts_first cfg sb w l s resp xs E D).
Qed.

(** X4 on a backend whose second missing-earnings record has no name:
    the three records are counted. *)
Lemma issues_are_counted_before_repair_witness :
  exists l' s',
    Consistency.main_check_1 Examples.live (client_of Examples.live) Cases.nameless
                             (Consistency.mkLocals 0 0 []) start
    = (Ret tt, l', s')
    /\ Consistency.total_issues l' = 3%nat.
Proof.
  destruct (issues_are_counted_before_repair Examples.live (client_of Examples.live)
              Cases.nameless (Consistency.mkLocals 0 0 []) start
              (mkResponse (VList [Examples.ann; Cases.bob; Cases.cara]) None)
              [Examples.ann; Cases.bob; Cases.cara] eq_refl) as [H1 _].
  exact (H1 eq_refl).
Defined.

(** X5. The pool-balance check counts its issues only after it has
    printed them: when a returned record lacks one of the fields
    [week_start], [week_end], [remaining], [calculated], the check
    records the exception under [pool_balance_error] and adds nothing
    to the issue count. *)
Theorem malformed_pool_record_is_not_counted :
  forall (cfg : Consistency.config) (sb : Client) (w : world)
         (l : Consistency.main_locals) (s : state) (resp : response) (xs : list value),
    oracle w (trace s) pool_report = Ret resp ->
    data resp = VList xs ->
    forallb (has_keys pool_keys) xs = false ->
    exists e s',
      Consistency.main_check_3 cfg sb w l s
      = (Ret tt, Consistency.set_detail "pool_balance_error" (VStr (exn_str e)) l, s')
      /\ Consistency.total_issues
           (Consistency.set_detail "pool_balance_error" (VStr (exn_str e)) l)
         = Consistency.total_issues l
      /\ In ("  ✗ Check failed: " ++ exn_str e) (out s').
Proof.
  intros cfg sb w l s resp xs E D H.
  destruct (CountingFacts.main_check_3_malformed cfg sb w l s resp xs E D H)
    as (e & s' & E' & _ & Ho).
  exists e, s'. split; [exact E' |]. split; [reflexivity | exact Ho].
Qed.

(** X5 on a backend whose pool report returns one record without
    [week_start]: nothing is counted, and the run ends with exit code 0. *)
Lemma malformed_pool_record_is_not_counted_witness :
  (exists e s',
      Consistency.main_check_3 Examples.live (client_of Examples.live) Cases.bad_pool
                               (Consistency.mkLocals 0 0 []) start
      = (Ret tt,
         Consistency.set_detail "pool_balance_error" (VStr (exn_str e))
                                (Consistency.mkLocals 0 0 []), s')
      /\ Consistency.total_issues
           (Consistency.set_detail "pool_balance_error" (VStr (exn_str e))
                                   (Consistency.mkLocals 0 0 []))
         = 0%nat
      /\ In ("  ✗ Check failed: " ++ exn_str e) (out s'))
  /\ fst (Consistency.run Examples.live Cases.bad_pool) = 0.
Proof.
  split.
  - exact (malformed_pool_record_is_not_counted Examples.live (client_of Examples.live)
             Cases.bad_pool (Consistency.mkLocals 0 0 []) start
             (mkResponse (VList [Cases.week]) None) [Cases.week]
             eq_refl eq_refl eq_refl).
  - vm_compute. reflexivity.
Defined.

(** X6. In a live run, a missing-earnings record that carries the
    parameters of the repair but no [full_name] ends the repairs: its
    own repair call is sent, the records after it get none, the check
    records ['full_name'] under [missing_earnings_error], the issues
    stay counted and no fix is counted. *)
Theorem record_without_name_stops_the_repairs :
  forall (cfg : Consistency.config) (sb : Client) (w : world)
         (l : Consistency.main_locals) (s : state) (resp : response)
         (pre : list value) (sub : value) (rest : list value),
    Consistency.DRY_RUN cfg = false ->
    oracle w (trace s) missing_report = Ret resp ->
    data resp = VList (pre ++ sub :: rest) ->
    forallb (has_keys missing_keys) pre = true ->
    has_keys param_keys sub = true ->
    has_keys ["full_name"] sub = false ->
    exists l' s' evs,
      Consistency.main_check_1 cfg sb w l s = (Ret tt, l', s')
      /\ trace s' = (trace s ++ (missing_report, Ret resp) :: evs)%list
      /\ map fst evs = map repair_of (pre ++ [sub])
      /\ Consistency.total_issues l'
         = (Consistency.total_issues l + List.length (pre ++ sub :: rest))%nat
      /\ Consistency.total_fixed l' = Consistency.total_fixed l
      /\ lookup (VStr "missing_earnings_error") (Consistency.details l')
         = Some (VStr "'full_name'")
      /\ lookup (VStr "earnings_fixed") (Consistency.details l')
         = lookup (VStr "earnings_fixed") (Consistency.details l).
Proof. exact NamelessFacts.main_check_1_nameless. Qed.

(** X6 on a backend whose missing-earnings report returns three
    records, the second without a name: two repair calls, none for the
    third record. *)
Lemma record_without_name_stops_the_repairs_witness :
  exists l' s',
    Consistency.main_check_1 Examples.live (client_of Examples.live) Cases.nameless
                             (Consistency.mkLocals 0 0 []) start
    = (Ret tt, l', s')
    /\ calls s' = [missing_report; repair_of Examples.ann; repair_of Cases.bob]
    /\ Consistency.total_issues l' = 3%nat
    /\ Consistency.total_fixed l' = 0%nat.
Proof.
  destruct (record_without_name_stops_the_repairs Examples.live (client_of Examples.live)
              Cases.nameless (Consistency.mkLocals 0 0 []) start
              (mkResponse (VList [Examples.ann; Cases.bob; Cases.cara]) None)
              [Examples.ann] Cases.bob [Cases.cara]
              eq_refl eq_refl eq_refl eq_refl eq_refl eq_refl)
    as (l' & s' & evs & E & Ht & Hc & Hi & Hf & _).
  exists l', s'. split; [exact E |]. split; [| split; [exact Hi | exact Hf]].
  unfold calls. rewrite Ht. cbn [trace start app map fst]. rewrite Hc. reflexivity.
Defined.
(** X7. In every run of the consistency checker that has its credential,
    whatever the backend returns, the total of fixes that the summary
    prints does not exceed the total of issues it prints. *)
Theorem fixes_never_outnumber_issues :
  forall (cfg : Consistency.config) (w : world),
    Consistency.SUPABASE_KEY cfg <> EmptyString ->
    (Consistency.total_fixed (checked cfg w) <= Consistency.total_issues (checked cfg w))%nat
    /\ exists before after,
         out (snd (Consistency.run cfg w))
         = (before ++ summary_lines (checked cfg w) ++ after)%list.
Proof.
  intros cfg w Hkey. split; [exact (LogFacts.checked_bounded cfg w) |].
  destruct (LogFacts.run_checked cfg w Hkey) as (s1 & _ & E).
  rewrite E.
  destruct (ConsistencyFacts.main_summary_spec cfg (client_of cfg) w (checked cfg w) s1)
    as (s2 & evs & lines & E2 & _ & _ & _ & Ho).
  rewrite E2. cbn [snd]. exists (out s1), lines. exact Ho.
Qed.

(** X7 on the backend whose payout record is counted as fixed and as
    failed: one issue, one fix. *)
Lemma fixes_never_outnumber_issues_witness :
  (Consistency.total_fixed (checked Examples.live Cases.half_mismatch)
   <= Consistency.total_issues (checked Examples.live Cases.half_mismatch))%nat
  /\ exists before after,
       out (snd (Consistency.run Examples.live Cases.half_mismatch))
       = (before ++ summary_lines (checked Examples.live Cases.half_mismatch)
            ++ after)%list.
Proof.
  apply fixes_never_outnumber_issues. discriminate.
Defined.



(** X9. In [fix_payout_mismatches] a record that has its name but no
    [current_amount] is counted twice when its update is answered: as
    fixed, and then, because the line reporting the fix fails, as
    failed.  On a list of such records with every update answered, both
    counts equal the number of records. *)
Theorem payout_record_counted_twice :
  forall (sb : Client) (w : world) (ms : list value) (s : state),
    forallb (has_keys update_keys) ms = true ->
    forallb (fun m => negb (has_keys ["current_amount"] m)) ms = true ->
    (forall h u, is_update u = true -> raised (oracle w h u) = false) ->
    exists s' evs,
      Consistency.fix_payout_mismatches sb (VList ms) w tt s
      = (Ret (Consistency.mkCounters (List.length ms) (List.length ms)), tt, s')
      /\ trace s' = (trace s ++ evs)%list
      /\ List.length evs = List.length ms
      /\ forallb (fun ev => is_update (fst ev)) evs = true.
Proof.
  intros sb w ms s Hk Hn Hw. unfold Consistency.fix_payout_mismatches. run.
  destruct (TwiceFacts.fix_payout_mismatches_loop_twice ms w Hk Hn Hw
              (Consistency.mkCounters 0 0) s) as (evs & lines & E & Hlen & Hu).
  rewrite E. eexists _, evs. cbn [trace Consistency.fixed Consistency.failed Nat.add].
  repeat split; auto.
Qed.

(** X9 on the record of Joe Roe: one update, one fix and one failure. *)
Lemma payout_record_counted_twice_witness :
  exists s' evs,
    Consistency.fix_payout_mismatches (client_of Examples.live) (VList [Cases.joe])
                                      Cases.half_mismatch tt start
    = (Ret (Consistency.mkCounters 1 1), tt, s')
    /\ trace s' = evs
    /\ List.length evs = 1%nat.
Proof.
  destruct (payout_record_counted_twice (client_of Examples.live) Cases.half_mismatch
              [Cases.joe] start eq_refl eq_refl)
    as (s' & evs & E & Ht & Hlen & _).
  - intros h u Hu. destruct u; try discriminate. reflexivity.
  - exists s', evs. split; [exact E |]. split; [exact Ht | exact Hlen].
Defined.

(** X10. Whatever the records hold and whatever the backend answers:
    when [fix_missing_earnings] returns, its two counts add up to the
    number of records; when [fix_payout_mismatches] returns, neither of
    its counts exceeds the number of records. *)
Theorem repair_counts_when_the_loop_ends :
  forall (sb : Client) (v : value) (n : nat) (w : world) (s s' : state)
         (c : Consistency.counters),
    len v = Ret n ->
    (Consistency.fix_missing_earnings sb v w tt s = (Ret c, tt, s') ->
     (Consistency.fixed c + Consistency.failed c = n)%nat)
    /\ (Consistency.fix_payout_mismatches sb v w tt s = (Ret c, tt, s') ->
        (Consistency.fixed c <= n)%nat /\ (Consistency.failed c <= n)%nat).
Proof.
  intros sb v n w s s' c Hn. split; intros E.
  - destruct (BoundFacts.fix_missing_earnings_bound sb v w tt s) as (o & s1 & E1 & H).
    rewrite E in E1. inversion E1; subst o s1. exact (H n Hn).
  - destruct (BoundFacts.fix_payout_mismatches_bound sb v w tt s) as (o & s1 & E1 & H).
    rewrite E in E1. inversion E1; subst o s1. exact (H n Hn).
Qed.

(** X10 on a single well-shaped record whose repair returns nothing. *)
Lemma repair_counts_when_the_loop_ends_witness :
  len (VList [Examples.ann]) = Ret 1%nat
  /\ Consistency.fix_missing_earnings (client_of Examples.live) (VList [Examples.ann])
                                      Examples.silent tt start
     = (Ret (Consistency.mkCounters 0 1), tt,
        snd (Consistency.fix_missing_earnings (client_of Examples.live)
               (VList [Examples.ann]) Examples.silent tt start))
  /\ (Consistency.fixed (Consistency.mkCounters 0 1)
      + Consistency.failed (Consistency.mkCounters 0 1) = 1)%nat.
Proof.
  split; [reflexivity |].
  assert (E : Consistency.fix_missing_earnings (client_of Examples.live)
                (VList [Examples.ann]) Examples.silent tt start
              = (Ret (Consistency.mkCounters 0 1), tt,
                 snd (Consistency.fix_missing_earnings (client_of Examples.live)
                        (VList [Examples.ann]) Examples.silent tt start)))
    by (vm_compute; reflexivity).
  split; [exact E |].
  destruct (repair_counts_when_the_loop_ends (client_of Examples.live)
              (VList [Examples.ann]) 1 Examples.silent start
              (snd (Consistency.fix_missing_earnings (client_of Examples.live)
                      (VList [Examples.ann]) Examples.silent tt start))
              (Consistency.mkCounters 0 1) eq_refl) as [H _].
  exact (H E).
Defined.
(* ================================================================ *)
(** * Further properties of the health checker *)
(* ================================================================ *)

(** X11. The [--dry-run] flag of the health checker changes nothing but
    the log row: with a credential, a dry run gets the same results and
    the same exit code as a live run against the same backend, and the
    calls of the live run are those of the dry run followed by at most
    one call, the insert of the log row. *)
Theorem health_dry_run_only_skips_the_log_row :
  forall (cfg : Health.config) (w : world),
    Health.SUPABASE_KEY cfg <> EmptyString ->
    health_results cfg true w = health_results cfg false w
    /\ fst (Health.run cfg true w) = fst (Health.run cfg false w)
    /\ exists evs,
         trace (snd (Health.run cfg false w))
         = (trace (snd (Health.run cfg true w)) ++ evs)%list
         /\ (evs = [] \/ exists row reply, evs = [(row, reply)] /\ is_insert row = true).
Proof.
  intros cfg w Hkey.
  destruct (HealthLogFacts.health_run_shape cfg true w Hkey)
    as (s1 & s2 & E1 & _ & Ht2 & Erun).
  destruct (HealthLogFacts.health_run_shape cfg false w Hkey)
    as (s1' & s2' & E1' & _ & Ht2' & Erun').
  assert (Hsame : same_but_out (banner health_title true w) (banner health_title false w))
    by (split; reflexivity).
  destruct (ObliviousFacts.main_checks_oblivious (health_client cfg) w []
              _ _ Hsame) as (o & l1 & sa & sb & Ea & Eb & [Htr _]).
  rewrite E1 in Ea. rewrite E1' in Eb.
  assert (Hres : health_results cfg true w = health_results cfg false w) by congruence.
  assert (Htr' : trace s1 = trace s1') by congruence.
  clear Ea Eb Htr.
  split; [exact Hres |].
  rewrite Erun, Erun'. cbn [negb]. unfold ret. rewrite <- Hres.
  rewrite HealthLogFacts.main_log_exact.
  split.
  - destruct (json_dumps (VDict (health_results cfg true w))); reflexivity.
  - destruct (json_dumps (VDict (health_results cfg true w))) as [dumped | e];
      cbv zeta; cbn [snd trace].
    + eexists. rewrite Ht2, Ht2', Htr'. split; [reflexivity |].
      right. eexists _, _. split; reflexivity.
    + exists []. rewrite app_nil_r, Ht2, Ht2', Htr'. split; [reflexivity | left; reflexivity].
Qed.

(** X11 on the busy backend. *)
Lemma health_dry_run_only_skips_the_log_row_witness :
  health_results Examples.health true Cases.busy
  = health_results Examples.health false Cases.busy
  /\ fst (Health.run Examples.health true Cases.busy)
     = fst (Health.run Examples.health false Cases.busy).
Proof.
  assert (Hkey : Health.SUPABASE_KEY Examples.health <> EmptyString) by discriminate.
  destruct (health_dry_run_only_skips_the_log_row Examples.health Cases.busy Hkey)
    as (H1 & H2 & _).
  split; [exact H1 | exact H2].
Defined.


(** X13. The email-queue check, when its first query returns rows that
    have a status and, when pending, a type that can key a dictionary:
    it asks next for the pending emails created before the clock reading
    minus one hour, and returns the number of pending rows, the number
    of failed rows, the count the second query reports (0 when it
    reports none) and a dictionary of counts by type that add up to the
    number of pending rows; when the second query fails, it returns the
    error instead. *)
Theorem email_queue_counts :
  forall (sb : Client) (w : world) (s : state) (resp : response) (emails : list value),
    oracle w (trace s) email_query = Ret resp ->
    data resp = VList emails ->
    forallb known_email emails = true ->
    valid (clock w (ticks s)) ->
    90000 <= seconds (clock w (ticks s)) ->
    exists t by_type lines,
      valid t /\ seconds t = seconds (clock w (ticks s)) - 3600
      /\ microsecond t = microsecond (clock w (ticks s))
      /\ all_counts by_type = true
      /\ sum_counts by_type = count_of is_pending emails
      /\ let t1 := (trace s ++ [(email_query, Ret resp)])%list in
         let r := oracle w t1 (stuck_query (isoformat t)) in
         Health.check_email_queue_health sb w tt s
         = (Ret match r with
                | Ret stuck =>
                    dict [("pending", VInt (count_of is_pending emails));
                          ("failed", VInt (count_of is_failed emails));
                          ("stuck", VInt (Health.count_or_0 stuck));
                          ("by_type", VDict by_type)]
                | Raise e => dict [("error", VStr (exn_str e))]
                end,
            tt,
            mkState (t1 ++ [(stuck_query (isoformat t), r)]) (out s ++ lines) (S (ticks s))).
Proof.
  intros sb w s resp emails E D Hk Hv Hs.
  exact (EmailFacts.check_email_queue_health_spec sb w tt s resp emails E D Hk Hv Hs).
Qed.

(** X13 on the busy backend: three pending emails, one failed, two stuck. *)
Lemma email_queue_counts_witness :
  exists by_type s',
    sum_counts by_type = 3
    /\ Health.check_email_queue_health (health_client Examples.health) Cases.busy tt start
       = (Ret (dict [("pending", VInt 3); ("failed", VInt 1); ("stuck", VInt 2);
                     ("by_type", VDict by_type)]),
          tt, s').
Proof.
  destruct (email_queue_counts (health_client Examples.health) Cases.busy start
              (mkResponse (VList [Cases.welcome; Cases.receipt; Cases.bounced;
                                  Cases.welcome]) None)
              [Cases.welcome; Cases.receipt; Cases.bounced; Cases.welcome]
              eq_refl eq_refl eq_refl (CaseFacts.morning_valid 0))
    as (t & by_type & lines & _ & _ & _ & _ & Hsum & E).
  - pose proof (CaseFacts.morning_seconds 0) as Hs.
    change (clock Cases.busy (ticks start)) with (Examples.morning 0). lia.
  - exists by_type. eexists. split; [exact Hsum | exact E].
Defined.

Module RecentFacts.

(** A date whose previous month lies in the year 1000 or later is not
    in January of the year 1. *)
Lemma after_the_first_month d :
  1000 <= fst (previous_month d) -> 1 < year d \/ 1 < month d.
Proof.
  unfold previous_month. destruct (month d =? 1); cbn [fst]; intros H; left; lia.
Qed.

Lemma listed_users_are_records users :
  forallb listed_user users = true -> forallb is_record users = true.
Proof.
  induction users as [| u rest IH]; [reflexivity |].
  cbn [forallb]. intros H. apply andb_true_iff in H. destruct H as [Hu Hr].
  unfold listed_user in Hu. apply andb_true_iff in Hu. destruct Hu as [Hu _].
  apply andb_true_iff in Hu. destruct Hu as [Hu _].
  rewrite Hu. exact (IH Hr).
Qed.

End RecentFacts.

(** X14. The monthly-graphics check asks about the calendar month
    before the one of its second clock reading, in January about
    December of the year before: when that month lies in the year 1000
    or later, then whatever the backend answers, the first call of the
    check is [get_users_missing_graphics] with that month as
    [YYYY-MM]. *)
Theorem graphics_check_asks_about_previous_month :
  forall (sb : Client) (w : world) (s : state),
    valid (clock w (S (ticks s))) ->
    1000 <= fst (previous_month (clock w (S (ticks s)))) ->
    exists r s' evs,
      Health.check_monthly_graphics sb w tt s = (Ret r, tt, s')
      /\ trace s'
         = (trace s
            ++ (graphics_rpc (month_text (previous_month (clock w (S (ticks s))))),
                oracle w (trace s)
                       (graphics_rpc (month_text (previous_month (clock w (S (ticks s)))))))
               :: evs)%list.
Proof.
  intros sb w s Hv Hy.
  exact (GraphicsFacts.check_monthly_graphics_first_call sb w tt s Hv
           (RecentFacts.after_the_first_month _ Hy)).
Qed.

(** X14 on the first of March 2024: the check asks about February. *)
Lemma graphics_check_asks_about_previous_month_witness :
  exists r s' reply evs,
    Health.check_monthly_graphics (health_client Examples.health) Cases.busy tt start
    = (Ret r, tt, s')
    /\ trace s' = (graphics_rpc "2024-02", reply) :: evs.
Proof.
  destruct (graphics_check_asks_about_previous_month (health_client Examples.health)
              Cases.busy start (CaseFacts.morning_valid 1))
    as (r & s' & evs & E & Ht).
  - vm_compute. discriminate.
  - exists r, s'. eexists _, evs. split; [exact E | exact Ht].
Defined.

(** X15. The monthly-graphics check, when the month it asks about lies
    in the year 1000 or later and the report returns a list of records
    whose names and amounts, where present, are strings, numbers, truth
    values or [None]: it prints a line for each of the first five users
    only, with "Unknown" and 0 for a missing name or amount, and the
    number of the remaining users when there are more than five; it
    returns the month, the number of all returned users and the count of
    pending graphic emails; when the query for those emails fails, the
    result is [{"skipped": True}] although the report succeeded. *)
Theorem graphics_check_shows_five_users :
  forall (sb : Client) (w : world) (s : state) (resp : response) (users : list value),
    valid (clock w (S (ticks s))) ->
    1000 <= fst (previous_month (clock w (S (ticks s)))) ->
    oracle w (trace s) (graphics_rpc (month_text (previous_month (clock w (S (ticks s))))))
    = Ret resp ->
    data resp = VList users ->
    forallb listed_user users = true ->
    let asked := month_text (previous_month (clock w (S (ticks s)))) in
    let t1 := (trace s ++ [(graphics_rpc asked, Ret resp)])%list in
    let r := oracle w t1 graphic_emails_query in
    exists lines,
      Health.check_monthly_graphics sb w tt s
      = (Ret match r with
             | Ret pending =>
                 dict [("month", VStr asked);
                       ("missing_graphics", of_nat (List.length users));
                       ("pending_emails", VInt (Health.count_or_0 pending))]
             | Raise _ => dict [("skipped", VBool true)]
             end,
         tt,
         mkState (t1 ++ [(graphic_emails_query, r)])
                 (out s ++ [Health.nl ++ "[3/5] Checking monthly graphics status..."]
                  ++ missing_lines asked users ++ lines)
                 (S (S (ticks s)))).
Proof.
  intros sb w s resp users Hv Hy E D Hk.
  exact (GraphicsFacts.check_monthly_graphics_spec sb w tt s resp users Hv
           (RecentFacts.after_the_first_month _ Hy) E D
           (RecentFacts.listed_users_are_records users Hk)).
Qed.

(** X15 on the busy backend, whose report returns seven users. *)
Lemma graphics_check_shows_five_users_witness :
  exists lines,
    Health.check_monthly_graphics (health_client Examples.health) Cases.busy tt start
    = (Ret (dict [("month", VStr "2024-02"); ("missing_graphics", VInt 7);
                  ("pending_emails", VInt 2)]),
       tt,
       mkState [(graphics_rpc "2024-02", Ret (mkResponse (VList Cases.earners) None));
                (graphic_emails_query, Ret (mkResponse (VList []) (Some 2)))]
               ([Health.nl ++ "[3/5] Checking monthly graphics status..."]
                ++ ["  WARNING: 7 users missing graphics for 2024-02";
                    "    - Ann Lee: $12"; "    - Bo Chan: $8"; "    - Cy Ford: $5";
                    "    - Di Wu: $5"; "    - Ed Orr: $3"; "    ... and 2 more"]
                ++ lines)
               2).
Proof.
  assert (Hy : 1000 <= fst (previous_month (clock Cases.busy (S (ticks start)))))
    by (vm_compute; discriminate).
  destruct (graphics_check_shows_five_users (health_client Examples.health) Cases.busy
              start (mkResponse (VList Cases.earners) None) Cases.earners
              (CaseFacts.morning_valid 1) Hy eq_refl eq_refl eq_refl)
    as (lines & E).
  exists lines. exact E.
Defined.

(** X16. The check of recent approvals, when the submissions query
    returns rows that carry their [id]: it asks for approvals since the
    clock reading minus seven days; without rows it sends no second
    query; otherwise it counts the earnings of exactly the returned ids,
    and a shortfall of earnings is only printed, the result staying
    ["healthy": True]; when the earnings query fails, the result is the
    error. *)
Theorem recent_approvals_check :
  forall (sb : Client) (w : world) (s : state) (resp : response) (subs : list value),
    valid (clock w (ticks s)) ->
    8 * 86400 <= seconds (clock w (ticks s)) ->
    exists since,
      valid since /\ seconds since = seconds (clock w (ticks s)) - 7 * 86400
      /\ microsecond since = microsecond (clock w (ticks s))
      /\ (oracle w (trace s) (approvals_query (isoformat since)) = Ret resp ->
          data resp = VList subs ->
          forallb (has_keys ["id"]) subs = true ->
          let t1 := (trace s ++ [(approvals_query (isoformat since), Ret resp)])%list in
          let n := List.length subs in
          let q := earnings_query (map (field "id") subs) in
          let r := oracle w t1 q in
          Health.check_edge_function_health sb w tt s
          = match subs with
            | [] =>
                (Ret (dict [("recent_approvals", of_nat 0); ("healthy", VBool true)]), tt,
                 mkState t1
                         (out s ++ [Health.nl ++ "[4/5] Checking Edge Function health...";
                                    "  No recent approvals to check"])
                         (S (ticks s)))
            | _ :: _ =>
                match r with
                | Ret earnings =>
                    (Ret (dict [("recent_approvals", of_nat n); ("healthy", VBool true)]),
                     tt,
                     mkState (t1 ++ [(q, r)])
                             (out s
                              ++ [Health.nl ++ "[4/5] Checking Edge Function health...";
                                  if Health.count_or_0 earnings <? Z.of_nat n
                                  then "  WARNING: " ++ dec (Z.of_nat n)
                                       ++ " approved submissions but only "
                                       ++ dec (Health.count_or_0 earnings)
                                       ++ " earnings records"
                                  else "  " ++ dec (Z.of_nat n)
                                       ++ " recent approvals, all have earnings"])
                             (S (ticks s)))
                | Raise e =>
                    (Ret (dict [("error", VStr (exn_str e))]), tt,
                     mkState (t1 ++ [(q, r)])
                             (out s
                              ++ [Health.nl ++ "[4/5] Checking Edge Function health...";
                                  "  ERROR: " ++ exn_str e])
                             (S (ticks s)))
                end
            end).
Proof.
  intros sb w s resp subs Hv Hs.
  exact (EdgeFacts.check_edge_function_health_spec sb w tt s resp subs Hv Hs).
Qed.

(** X16 on the busy backend: two approvals, one earnings record, a
    warning, and a result that says healthy. *)
Lemma recent_approvals_check_witness :
  valid (clock Cases.busy 0)
  /\ 8 * 86400 <= seconds (clock Cases.busy 0)
  /\ fst (fst (Health.check_edge_function_health (health_client Examples.health)
                 Cases.busy tt start))
     = Ret (dict [("recent_approvals", VInt 2); ("healthy", VBool true)])
  /\ In "  WARNING: 2 approved submissions but only 1 earnings records"
        (out (snd (Health.check_edge_function_health (health_client Examples.health)
                     Cases.busy tt start))).
Proof.
  assert (Hs : 8 * 86400 <= seconds (clock Cases.busy 0))
    by exact (CaseFacts.morning_seconds 0).
  split; [exact (CaseFacts.morning_valid 0) |]. split; [exact Hs |].
  destruct (recent_approvals_check (health_client Examples.health) Cases.busy start
              (mkResponse (VList [Cases.approved "s1"; Cases.approved "s2"]) None)
              [Cases.approved "s1"; Cases.approved "s2"]
              (CaseFacts.morning_valid 0) Hs)
    as (since & _ & _ & _ & H).
  assert (Hq : forall t, oracle Cases.busy [] (approvals_query t)
                         = Ret (mkResponse (VList [Cases.approved "s1";
                                                   Cases.approved "s2"]) None))
    by reflexivity.
  rewrite (H (Hq _) eq_refl eq_refl). cbn [fst snd out].
  split; [reflexivity |]. right. left. reflexivity.
Defined.


(** X18. A summary that arrives as anything but a dictionary, a list
    of one row for example, cannot be read: the SQL check returns an
    error status naming the type, and the run of the health checker ends
    with exit code 1 whatever the summary says. *)
Theorem sql_summary_must_be_a_dictionary :
  forall (cfg : Health.config) (dry_run : bool) (w : world) (resp : response),
    Health.SUPABASE_KEY cfg <> EmptyString ->
    oracle w [] sql_health_call = Ret resp ->
    truthy (data resp) = true ->
    is_record (data resp) = false ->
    entry "sql_health" (VDict (health_results cfg dry_run w))
    = Health.sql_error (squote ++ type_name (data resp) ++ "' object has no attribute 'get'")
    /\ fst (Health.run cfg dry_run w) = 1.
Proof.
  intros cfg dry_run w resp Hkey E T R.
  destruct (SqlRunFacts.sql_entry cfg dry_run w) as (r1 & s1 & E1 & He).
  destruct (SqlFacts.run_sql_health_check_no_dict (health_client cfg) w
              ([] : list (value * value)) (banner health_title dry_run w) resp E T R)
    as (s1' & E1').
  rewrite E1' in E1. injection E1 as Hr1 _. rewrite <- Hr1 in He.
  split; [exact He |].
  destruct (HealthRunFacts.health_main_spec cfg dry_run w tt Hkey)
    as (q1 & r2 & r3 & r4 & sa & sb & sc & evs & Ea & _ & _ & _ & _ & _ & _ & Ec & _).
  unfold Health.run. rewrite Ec. cbn [fst exit_code].
  assert (Hr : health_results cfg dry_run w = health_report q1 r2 r3 r4).
  { unfold health_results. rewrite Ea. reflexivity. }
  rewrite Hr in He.
  assert (Hc : concerns (VDict (health_report q1 r2 r3 r4)) = true).
  { unfold concerns, sql_unhealthy. rewrite He. reflexivity. }
  rewrite Hc. reflexivity.
Qed.

(** X18 on a backend whose summary is a list of one healthy row. *)
Lemma sql_summary_must_be_a_dictionary_witness :
  entry "sql_health" (VDict (health_results Examples.health true Cases.listed))
  = Health.sql_error "'list' object has no attribute 'get'"
  /\ fst (Health.run Examples.health true Cases.listed) = 1.
Proof.
  apply (sql_summary_must_be_a_dictionary Examples.health true Cases.listed
           (mkResponse (VList [dict [("overall_status", VStr "healthy")]]) None)).
  - discriminate.
  - reflexivity.
  - reflexivity.
  - reflexivity.
Defined.

(** X19. In every run of the health checker that has its credential the
    summary prints its header, then either "ALL SYSTEMS HEALTHY" or
    "ISSUES FOUND: n" followed by one line for each concern, in this
    order: the SQL status, the stuck emails, the failed emails above 10,
    the missing graphics, the error of the edge-function check; [n] is
    the number of those lines. *)
Theorem summary_lists_each_concern :
  forall (cfg : Health.config) (dry_run : bool) (w : world),
    Health.SUPABASE_KEY cfg <> EmptyString ->
    exists before after,
      out (snd (Health.run cfg dry_run w))
      = (before ++ Summary.summary_text (VDict (health_results cfg dry_run w))
           ++ after)%list.
Proof.
  intros cfg dry_run w Hkey. unfold Health.run.
  rewrite (HealthLogFacts.health_main_connected cfg dry_run w tt Hkey).
  unfold health_results.
  destruct (HealthFacts.main_checks_spec (health_client cfg) w
              (banner health_title dry_run w))
    as (r1 & r2 & r3 & r4 & s1 & E1 & H1 & H2 & H3 & H4).
  rewrite RunFacts.bind_run, E1. unfold after_checks. run.
  rewrite (SummaryTextFacts.generate_summary_report_text r1 r2 r3 r4 w _ s1 H1 H2 H3 H4).
  cbn [trace out ticks].
  exists (out s1), [Health.nl ++ Health.rule; "HEALTH CHECK COMPLETE"; Health.rule].
  destruct (negb dry_run); run.
  - match goal with
    | |- context [Health.main_log ?sb ?st ?rs w ?l0 ?s0] =>
        destruct (HealthRunFacts.main_log_spec sb st rs w l0 s0)
          as (s3 & evs3 & E3 & _ & _ & Ho)
    end.
    rewrite E3.
    destruct (String.eqb (status_of (VDict (health_report r1 r2 r3 r4))) "healthy");
      cbn [snd]; rewrite Ho; cbn [out]; rewrite <- !app_assoc; reflexivity.
  - destruct (String.eqb (status_of (VDict (health_report r1 r2 r3 r4))) "healthy");
      cbn [snd out]; rewrite <- !app_assoc; reflexivity.
Qed.

(** X19 on the busy backend: two stuck emails and seven missing
    graphics are listed. *)
Lemma summary_lists_each_concern_witness :
  Summary.summary_text (VDict (health_results Examples.health true Cases.busy))
  = [Health.nl ++ "[5/5] Generating summary..."; Health.nl ++ "  ISSUES FOUND: 2";
     "    - 2 emails stuck in queue"; "    - 7 users missing monthly graphics"]
  /\ exists before after,
       out (snd (Health.run Examples.health true Cases.busy))
       = (before ++ Summary.summary_text
                      (VDict (health_results Examples.health true Cases.busy))
            ++ after)%list.
Proof.
  split; [vm_compute; reflexivity |].
  apply summary_lists_each_concern. discriminate.
Defined.

(* ================================================================ *)
(** * The log row *)
(* ================================================================ *)

Module BestEffortFacts.
Import LogFacts HealthLogFacts.

Lemma no_insert_among (evs : list event) :
  forallb (fun ev => negb (is_insert (fst ev))) evs = true ->
  existsb is_insert (map fst evs) = false.
Proof.
  induction evs as [| ev rest IH]; [reflexivity |].
  cbn [forallb]. intros Hp. apply andb_true_iff in Hp. destruct Hp as [H1 H2].
  apply negb_true_iff in H1. cbn [map existsb]. rewrite H1. exact (IH H2).
Qed.

(** The checks of the consistency checker send no insert. *)
Lemma checks_send_no_insert cfg w s1 :
  three_checks cfg (client_of cfg) w (Consistency.mkLocals 0 0 [])
               (banner title (Consistency.DRY_RUN cfg) w)
  = (Ret tt, checked cfg w, s1) ->
  existsb is_insert (map fst (trace s1)) = false.
Proof.
  intros E1.
  assert (Hf : frame any (fun c => negb (is_insert c))
                     (three_checks cfg (client_of cfg))).
  { unfold three_checks. frame_auto. }
  destruct (Hf w (Consistency.mkLocals 0 0 []) (banner title (Consistency.DRY_RUN cfg) w) I)
    as (o & l1 & s1' & evs & lines & E0 & _ & Ht & Hp & _).
  rewrite E1 in E0. inversion E0; subst o l1 s1'; clear E0.
  rewrite Ht. cbn [trace banner app]. apply no_insert_among.
  clear - Hp. induction evs as [| ev rest IH]; [reflexivity |].
  cbn [forallb] in *. apply andb_true_iff in Hp. destruct Hp as [H1 H2].
  rewrite H1. exact (IH H2).
Qed.

(** A run of the consistency checker that has its credential and ends
    with exit code 1 has found issues. *)
Lemma exit_1_found_issues cfg w :
  Consistency.SUPABASE_KEY cfg <> EmptyString ->
  fst (Consistency.run cfg w) = 1 ->
  (0 < Consistency.total_issues (checked cfg w))%nat.
Proof.
  intros Hkey Hexit.
  destruct (run_checked cfg w Hkey) as (s1 & E1 & E). rewrite E in Hexit.
  destruct (ConsistencyFacts.main_summary_spec cfg (client_of cfg) w (checked cfg w) s1)
    as (s2 & evs & lines & E2 & _).
  rewrite E2 in Hexit. cbn [fst exit_code] in Hexit.
  destruct (0 <? Consistency.total_issues (checked cfg w))%nat eqn:Hp;
    [apply Nat.ltb_lt in Hp; exact Hp | discriminate].
Qed.

End BestEffortFacts.

(** C8. The log row is best effort in both scripts.

    When it is attempted.  The consistency checker issues no insert in a
    dry run nor in a run that ends with exit code 0 (no issues found);
    a live run that has its credential and ends with exit code 1 sends
    exactly one insert, as its last call: the row for
    [monitoring.system_errors] with the two totals and the JSON text of
    the details.  The health checker issues no insert in a dry run; a
    live run that has its credential and whose results serialise sends
    exactly one insert, as its last call: the row for
    [monitoring.system_health_checks].

    When it fails.  [log_check_result] sends its row and returns
    normally whatever the answer is, printing a warning with the text of
    the exception when the insert raises; the logging block of the
    health checker does the same, silently.  The exit code is the one
    decided before logging: by the issue count in the consistency
    checker, by the concerns of the results in the health checker; a
    live run whose insert raises ends with that exit code.  Two backends
    that differ only in how they answer inserts give the same exit
    code. *)
Theorem log_row_is_best_effort :
  (forall cfg w,
      Consistency.DRY_RUN cfg = true \/ fst (Consistency.run cfg w) = 0 ->
      existsb is_insert (calls (snd (Consistency.run cfg w))) = false)
  /\ (forall cfg w,
      Consistency.SUPABASE_KEY cfg <> EmptyString ->
      Consistency.DRY_RUN cfg = false ->
      fst (Consistency.run cfg w) = 1 ->
      exists context evs,
        json_dumps (VDict (Consistency.details (checked cfg w))) = Ret context
        /\ let row := Consistency.log_row (Consistency.total_issues (checked cfg w))
                                          (Consistency.total_fixed (checked cfg w))
                                          context in
           trace (snd (Consistency.run cfg w)) = (evs ++ [(row, oracle w evs row)])%list
           /\ existsb is_insert (map fst evs) = false
           /\ forall e, oracle w evs row = Raise e ->
                In ("Warning: Could not log to monitoring table: " ++ exn_str e)
                   (out (snd (Consistency.run cfg w))))
  /\ (forall sb issues_found issues_fixed details w (l : Consistency.main_locals) s,
      exists s',
        Consistency.log_check_result sb issues_found issues_fixed details w l s
        = (Ret tt, l, s'))
  /\ (forall sb issues_found issues_fixed details context w
             (l : Consistency.main_locals) s,
      json_dumps details = Ret context ->
      let row := Consistency.log_row issues_found issues_fixed context in
      Consistency.log_check_result sb issues_found issues_fixed details w l s
      = (Ret tt, l,
         mkState (trace s ++ [(row, oracle w (trace s) row)])
                 (out s ++ log_warning (oracle w (trace s) row)) (ticks s)))
  /\ (forall cfg sb w l s,
      exists s',
        Consistency.main_summary cfg sb w l s
        = (Ret (if (0 <? Consistency.total_issues l)%nat then 1 else 0), l, s'))
  /\ (forall cfg w,
      existsb is_insert (calls (snd (Health.run cfg true w))) = false)
  /\ (forall cfg w text,
      Health.SUPABASE_KEY cfg <> EmptyString ->
      json_dumps (VDict (health_results cfg false w)) = Ret text ->
      exists evs k,
        let row := Health.health_row (status_of (VDict (health_results cfg false w)))
                                     text (isoformat (clock w k)) in
        trace (snd (Health.run cfg false w)) = (evs ++ [(row, oracle w evs row)])%list
        /\ existsb is_insert (map fst evs) = false
        /\ fst (Health.run cfg false w)
           = if concerns (VDict (health_results cfg false w)) then 1 else 0)
  /\ (forall sb status results w l s,
      exists s', Health.main_log sb status results w l s = (Ret tt, l, s'))
  /\ (forall sb status results text w l s,
      json_dumps results = Ret text ->
      let row := Health.health_row status text (isoformat (clock w (ticks s))) in
      Health.main_log sb status results w l s
      = (Ret tt, l,
         mkState (trace s ++ [(row, oracle w (trace s) row)]) (out s) (S (ticks s))))
  /\ (forall cfg dry_run w,
      Health.SUPABASE_KEY cfg <> EmptyString ->
      fst (Health.run cfg dry_run w)
      = if concerns (VDict (health_results cfg dry_run w)) then 1 else 0)
  /\ (forall cfg w w',
      same_but_inserts w w' ->
      fst (Consistency.run cfg w) = fst (Consistency.run cfg w'))
  /\ (forall cfg dry_run w w',
      same_but_inserts w w' ->
      fst (Health.run cfg dry_run w) = fst (Health.run cfg dry_run w')).
Proof.
  assert (Hnone : forall P (cs : list call),
             forallb P cs = true -> (forall c, P c = true -> is_insert c = false) ->
             existsb is_insert cs = false).
  { intros P cs H HP. induction cs as [| c rest IH]; simpl in *; [reflexivity |].
    apply andb_true_iff in H. destruct H as [H1 H2]. rewrite (HP _ H1). auto. }
  assert (Hmut : forall c, negb (is_mutating c) = true -> is_insert c = false).
  { intros c Hc. apply negb_true_iff in Hc. unfold is_mutating in Hc.
    apply orb_false_iff in Hc. tauto. }
  assert (Hexit : forall cfg dry_run w,
             Health.SUPABASE_KEY cfg <> EmptyString ->
             fst (Health.run cfg dry_run w)
             = if concerns (VDict (health_results cfg dry_run w)) then 1 else 0).
  { intros cfg dry_run w Hkey.
    destruct (HealthRunFacts.health_main_spec cfg dry_run w tt Hkey)
      as (r1 & r2 & r3 & r4 & s1 & s2 & s3 & evs & E1 & _ & _ & _ & _ & _ & _ & E3 & _).
    unfold Health.run, health_results. rewrite E1, E3. reflexivity. }
  repeat match goal with |- _ /\ _ => split end.
  - intros cfg w [Hdry | Hzero].
    + apply (Hnone (fun c => negb (is_mutating c))); [| exact Hmut].
      unfold Consistency.run.
      pose proof (RunFacts.frame_calls _ (Consistency.main (L := unit) cfg) w tt
                    (RunFacts.main_dry_frame cfg Hdry)) as H.
      destruct (Consistency.main cfg w tt start) as [[o l] s]. exact H.
    + destruct (String.eqb (Consistency.SUPABASE_KEY cfg) EmptyString) eqn:Hkey.
      * apply String.eqb_eq in Hkey. unfold Consistency.run.
        rewrite (ConsistencyFacts.main_not_connected cfg w tt Hkey). reflexivity.
      * apply String.eqb_neq in Hkey.
        destruct (LogFacts.run_checked cfg w Hkey) as (s1 & E1 & E).
        rewrite E in *.
        destruct (ConsistencyFacts.main_summary_spec cfg (client_of cfg) w
                    (checked cfg w) s1)
          as (s2 & evs2 & lines2 & E2 & Ht2 & _ & Hnil & _).
        rewrite E2 in *. cbn [fst snd exit_code] in *.
        destruct (0 <? Consistency.total_issues (checked cfg w))%nat eqn:Hpos;
          [discriminate |].
        apply Nat.ltb_ge in Hpos.
        rewrite Hnil in Ht2 by (left; lia). rewrite app_nil_r in Ht2.
        unfold calls. rewrite Ht2.
        exact (BestEffortFacts.checks_send_no_insert cfg w s1 E1).
  - intros cfg w Hkey Hdry Hone.
    pose proof (BestEffortFacts.exit_1_found_issues cfg w Hkey Hone) as Hpos.
    destruct (LogFacts.run_checked cfg w Hkey) as (s1 & E1 & E).
    destruct (LogFacts.plain_entries_dump _ (LogFacts.checked_plain cfg w))
      as (context & Hd).
    exists context, (trace s1). split; [exact Hd |]. cbv zeta.
    rewrite E.
    rewrite (LogFacts.live_summary cfg (client_of cfg) w (checked cfg w) s1 context
               Hdry Hpos Hd).
    cbn [snd trace out]. split; [reflexivity |].
    split; [exact (BestEffortFacts.checks_send_no_insert cfg w s1 E1) |].
    intros e He. rewrite He. cbn [log_warning].
    apply in_or_app. right. apply in_or_app. right. left. reflexivity.
  - intros sb n k d w l s.
    destruct (ConsistencyFacts.log_check_result_frame (eq l) (fun _ => true) sb n k d
                (fun _ _ _ => eq_refl) w l s eq_refl)
      as (o & l1 & s1 & evs & lines & E & Hl & _).
    destruct (ConsistencyFacts.log_check_result_total sb n k d w l s)
      as ([] & l2 & s2 & E2).
    rewrite E2 in E. inversion E; subst. eauto.
  - intros sb n k d context w l s Hd.
    exact (LogFacts.log_check_result_spec sb n k d context w l s Hd).
  - intros cfg sb w l s.
    destruct (ConsistencyFacts.main_summary_spec cfg sb w l s) as (s' & _ & _ & E & _).
    eauto.
  - intros cfg w.
    apply (Hnone (fun c => negb (is_mutating c))); [| exact Hmut].
    unfold Health.run.
    assert (Hf : frame (L := unit) any (fun c => negb (is_mutating c))
                       (Health.main cfg true)) by frame_auto.
    pose proof (RunFacts.frame_calls _ _ w tt Hf) as H.
    destruct (Health.main cfg true w tt start) as [[o l] s]. exact H.
  - intros cfg w text Hkey Hd.
    destruct (HealthLogFacts.health_run_shape cfg false w Hkey)
      as (s1 & s2 & E1 & Hni & Ht2 & Erun).
    exists (trace s2), (ticks s2). cbv zeta.
    split; [| split; [| exact (Hexit cfg false w Hkey)]].
    + rewrite Erun. cbn [negb]. rewrite HealthLogFacts.main_log_exact, Hd.
      reflexivity.
    + rewrite Ht2. exact (BestEffortFacts.no_insert_among _ Hni).
  - intros sb status results w l s.
    destruct (HealthRunFacts.main_log_spec sb status results w l s) as (s' & _ & E & _).
    eauto.
  - intros sb status results text w l s Hd. cbv zeta.
    rewrite HealthLogFacts.main_log_exact, Hd. reflexivity.
  - exact Hexit.
  - exact LoggingFacts.consistency_exit_insensitive.
  - exact LoggingFacts.health_exit_insensitive.
Qed.

(** C8 on a dry run, and on live runs that find one issue while the
    monitoring tables are missing: each script sends its row as its last
    call, the insert raises, the consistency checker prints its warning,
    and the exit code is the one of the run whose insert succeeds. *)
Lemma log_row_is_best_effort_witness :
  existsb is_insert (calls (snd (Consistency.run Examples.dry Examples.one_missing)))
  = false
  /\ existsb is_insert (calls (snd (Health.run Examples.health true Examples.silent)))
     = false
  /\ (exists context evs,
       trace (snd (Consistency.run Examples.live Examples.log_down))
       = (evs ++ [(Consistency.log_row
                     (Consistency.total_issues (checked Examples.live Examples.log_down))
                     (Consistency.total_fixed (checked Examples.live Examples.log_down))
                     context,
                   Raise (APIError "relation does not exist"))])%list
       /\ In "Warning: Could not log to monitoring table: relation does not exist"
             (out (snd (Consistency.run Examples.live Examples.log_down))))
  /\ (exists text evs k,
       trace (snd (Health.run Examples.health false Examples.log_down))
       = (evs ++ [(Health.health_row
                     (status_of (VDict (health_results Examples.health false
                                                       Examples.log_down)))
                     text (isoformat (clock Examples.log_down k)),
                   Raise (APIError "relation does not exist"))])%list)
  /\ same_but_inserts Examples.one_missing Examples.log_down
  /\ fst (Consistency.run Examples.live Examples.log_down) = 1
  /\ fst (Consistency.run Examples.live Examples.one_missing)
     = fst (Consistency.run Examples.live Examples.log_down)
  /\ fst (Health.run Examples.health false Examples.one_missing)
     = fst (Health.run Examples.health false Examples.log_down).
Proof.
  pose proof log_row_is_best_effort
    as (H1 & H2 & _ & _ & _ & H6 & H7 & _ & _ & _ & H11 & H12).
  assert (Hkey : Consistency.SUPABASE_KEY Examples.live <> EmptyString) by discriminate.
  assert (Hkey' : Health.SUPABASE_KEY Examples.health <> EmptyString) by discriminate.
  assert (Hone : fst (Consistency.run Examples.live Examples.log_down) = 1)
    by (vm_compute; reflexivity).
  split; [apply H1; left; reflexivity |].
  split; [apply H6 |].
  split.
  { destruct (H2 Examples.live Examples.log_down Hkey eq_refl Hone)
      as (context & evs & _ & Ht & _ & Hw).
    exists context, evs. split; [exact Ht |].
    exact (Hw (APIError "relation does not exist") eq_refl). }
  split.
  { destruct (json_dumps (VDict (health_results Examples.health false Examples.log_down)))
      as [text | e] eqn:Hd; [| vm_compute in Hd; discriminate].
    destruct (H7 Examples.health Examples.log_down text Hkey' Hd)
      as (evs & k & Ht & _).
    exists text, evs, k. exact Ht. }
  split; [exact ExampleFacts.log_down_same |].
  split; [exact Hone |].
  split; [apply H11 | apply H12]; exact ExampleFacts.log_down_same.
Defined.
